(** * PYBOSSA task scheduler: a shallow embedding and its checked properties

    The development follows [pybossa/sched.py] (the scheduling policies, the
    candidate selector and the lock wrappers) and the new-task endpoint of
    [pybossa/api/__init__.py].

    - The relational store is a record of tables (lists of rows); a query is
      a filter over a table, an ORDER BY is a stable sort, LIMIT/OFFSET are
      [take]/[drop].
    - The fast store is a finite map from lock keys to the leases held on
      them, together with its clock.
    - A Python function that may raise returns a [result]; [None] is
      [option]. *)

From Stdlib Require Import QArith Qcanon.
From stdpp Require Import base numbers option list gmap strings pretty fin_maps
  sorting.

Open Scope Z_scope.
Set Warnings "-register-all,-clear-no-such-hyp".

(** ** Values shared by every layer *)

(** JSON documents: the payload of a task, the body of a response. *)
Inductive json : Type :=
| JNull
| JBool (b : bool)
| JNum (n : Z)
| JStr (s : string)
| JArr (items : list json)
| JObj (fields : list (string * json)).

(** The exceptions the embedded code can raise. *)
Inductive exn : Type :=
| BadRequest        (* werkzeug.exceptions.BadRequest *)
| NotFound          (* werkzeug.exceptions.NotFound *)
| AttributeError    (* getattr(Task, orderby) on an unknown name *)
| ValueError        (* int(...) on a non-numeric string *)
| TypeError         (* arithmetic on None, unhashable dictionary key *)
| NameError         (* a name that the module does not bind *)
| DataError.        (* the relational store refusing a statement *)

Inductive result (A : Type) : Type :=
| Ok (a : A)
| Raise (e : exn).
Arguments Ok {A} a.
Arguments Raise {A} e.

(** [result] is the error monad; [x ← r; k] propagates a raised exception. *)
#[global] Instance result_ret : MRet result := λ A a, Ok a.
#[global] Instance result_bind : MBind result := λ A B k r,
  match r with
  | Ok a => k a
  | Raise e => Raise e
  end.

#[global] Instance exn_eq_dec : EqDecision exn.
Proof. solve_decision. Defined.

(** Python truthiness of the optional request fields: [None], [0] and the
    empty string are false. *)
Definition truthy_int (o : option Z) : bool :=
  match o with
  | Some n => negb (n =? 0)
  | None => false
  end.

Definition truthy_str (o : option string) : bool :=
  match o with
  | Some s => negb (String.eqb s "")
  | None => false
  end.

(** ** Data model *)

(** Modelled from the spec: the [Task] record ([pybossa/model/task.py] is not
    among the sources).  Its attributes are the ones of the data model:
    identifier, owning project, payload, lifecycle state, quota, priority,
    calibration flag, creation stamp and list of favouriting users.  Every
    attribute is optional, as on the Python object: [Task(info=...)] builds
    an object on which nothing but the payload is set. *)
Module Task.

Record Task : Type := mk {
  id : option Z;
  project_id : option Z;
  state : option string;
  n_answers : option Z;
  priority_0 : option Qc;
  calibration : option Z;
  created : option string;
  fav_user_ids : option (list Z);
  info : option json
}.

(** [Task(info=info)]: a transient task that carries a payload only. *)
Definition new (payload : json) : Task :=
  {| id := None; project_id := None; state := None; n_answers := None;
     priority_0 := None; calibration := None; created := None;
     fav_user_ids := None; info := Some payload |}.

(** [task.info = payload] on an existing object. *)
Definition set_info (payload : json) (t : Task) : Task :=
  {| id := id t; project_id := project_id t; state := state t;
     n_answers := n_answers t; priority_0 := priority_0 t;
     calibration := calibration t; created := created t;
     fav_user_ids := fav_user_ids t; info := Some payload |}.

End Task.
Abbreviation Task := Task.Task.

(** Modelled from the spec: the [TaskRun] record ([pybossa/model/task_run.py]
    is not among the sources): task and project identifiers, the three
    identity channels, the payload and the finish stamp. *)
Module TaskRun.

Record TaskRun : Type := mk {
  task_id : Z;
  project_id : Z;
  user_id : option Z;
  user_ip : option string;
  external_uid : option string;
  finish_time : option string;
  info : option json
}.

End TaskRun.
Abbreviation TaskRun := TaskRun.TaskRun.

(** Modelled from the spec: the [Counter] record, a per-task tally of task
    runs ([pybossa/model/counter.py] is not among the sources). *)
Module Counter.

Record Counter : Type := mk {
  task_id : Z;
  n_task_runs : Z
}.

End Counter.
Abbreviation Counter := Counter.Counter.

(** Modelled from the spec: the project as the scheduler and the endpoint
    read it: identifier, the anonymous-contribution switch and the metadata
    map holding the policy name under ["sched"]. *)
Module Project.

Record Project : Type := mk {
  id : Z;
  allow_anonymous_contributors : bool;
  info : list (string * json)
}.

End Project.
Abbreviation Project := Project.Project.

(** Modelled from the spec: the viewer as the read predicate of the scheduler
    looks at it ([pybossa/model/user.py] is not among the sources): whether
    it is anonymous, its administrator and sub-administrator flags and its
    id. *)
Module User.

Record User : Type := mk {
  is_anonymous : bool;
  admin : bool;
  subadmin : bool;
  id : option Z
}.

End User.
Abbreviation User := User.User.

Record Database : Type := mkDatabase {
  tasks : list Task;
  task_runs : list TaskRun;
  counters : list Counter;
  projects : list Project
}.

(** ** The lock manager *)

Module LockManager.

(** Modelled from the spec: the lock manager ([redis_lock.LockManager] is
    not among the sources).  Leases are identified by a resource key and
    held by an identity, subject to a quota and a time to live:
    - [acquire_lock] grants a lease when the number of non-expired leases
      of distinct identities on the key is strictly below the quota; an
      identity that already holds a non-expired lease is granted again,
      its lease is refreshed and it is not counted twice;
    - [has_lock] holds exactly when a non-expired lease of the identity
      exists;
    - [release_lock] deletes the lease of the identity and does nothing
      when there is none.
    Each operation is one atomic step on the store, as the spec requires
    of the admission check.  The identity is what the scheduler passes:
    the optional user id. *)

Definition identity : Type := option Z.

(** The fast store: its clock and, per resource key, the expiry of the
    lease of each identity. *)
Record store : Type := mkStore {
  clock : Z;
  leases : gmap string (gmap identity Z)
}.

Definition empty (now : Z) : store := {| clock := now; leases := ∅ |}.

Definition holders (key : string) (st : store) : gmap identity Z :=
  default ∅ (leases st !! key).

(** The leases that have not expired at time [now]. *)
Definition live (now : Z) (m : gmap identity Z) : gmap identity Z :=
  filter (λ kv : identity * Z, now < kv.2) m.

Definition live_holders (key : string) (st : store) : gmap identity Z :=
  live (clock st) (holders key st).

Definition set_lease (key : string) (who : identity) (expiry : Z)
    (st : store) : store :=
  {| clock := clock st;
     leases := <[key := <[who := expiry]> (holders key st)]> (leases st) |}.

Definition acquire_lock (duration : Z) (key : string) (who : identity)
    (limit : Z) (st : store) : bool * store :=
  let expiry := clock st + duration in
  if decide (is_Some (live_holders key st !! who)) then
    (true, set_lease key who expiry st)
  else if decide (Z.of_nat (size (live_holders key st)) < limit) then
    (true, set_lease key who expiry st)
  else
    (false, st).

Definition has_lock (key : string) (who : identity) (st : store) : bool :=
  bool_decide (is_Some (live_holders key st !! who)).

Definition release_lock (key : string) (who : identity) (st : store)
    : store :=
  {| clock := clock st;
     leases := <[key := delete who (holders key st)]> (leases st) |}.

(** Time passing on the store's clock. *)
Definition advance (d : N) (st : store) : store :=
  {| clock := clock st + Z.of_N d; leases := leases st |}.

End LockManager.

(** ** Collaborators *)

(** An HTTP response: the JSON document of its body, its MIME type and its
    status code.  [json.dumps] is kept symbolic: the body is the document
    that is serialised. *)
Record Response : Type := mkResponse {
  body : json;
  mimetype : string;
  status : Z
}.

(** What the embedded code takes from code that is not among the sources:
    the lease duration [ContributionsGuard.STAMP_TTL], Python's [int] on a
    query-string value ([None] for a [ValueError]), [pybossa.util]'s
    [fuzzyboolean], the JWT check of [pybossa.auth] ([None] when it answers
    [True], the response it returns otherwise), the error formatter of
    [pybossa.error] and [DomainObject.dictize], which turns a task into a
    dictionary. *)
Class Collaborators : Type := {
  STAMP_TTL : Z;
  py_int : string → option Z;
  fuzzyboolean : string → result bool;
  jwt_authorize_project : Project → option string → option Response;
  format_exception : exn → string → string → Response;
  dictize : Task → list (string * json)
}.

(** ** Queries on the relational store *)

Module Sql.

(** [col = :param] in a textual statement: not true when either side is
    NULL. *)
Definition eq `{EqDecision A} (col param : option A) : bool :=
  match col, param with
  | Some a, Some b => bool_decide (a = b)
  | _, _ => false
  end.

(** [col != 'literal']: not true on NULL. *)
Definition ne `{EqDecision A} (col : option A) (lit : A) : bool :=
  match col with
  | Some a => bool_decide (a ≠ lit)
  | None => false
  end.

(** [filter_by(col=param)]: SQLAlchemy emits [col IS NULL] for [None] and
    [col = param] otherwise. *)
Definition filter_by_eq `{EqDecision A} (col param : option A) : bool :=
  match param with
  | Some b => bool_decide (col = Some b)
  | None => bool_decide (col = None)
  end.

(** Ordering of a nullable column: NULL sorts after every value. *)
Definition le_null {A} (le : A → A → bool) (x y : option A) : bool :=
  match x, y with
  | _, None => true
  | None, Some _ => false
  | Some a, Some b => le a b
  end.

(** ORDER BY as a stable insertion sort: rows that compare equal keep the
    order of the table. *)
Fixpoint insert_by {A} (le : A → A → bool) (x : A) (l : list A) : list A :=
  match l with
  | [] => [x]
  | y :: l' => if le x y then x :: l else y :: insert_by le x l'
  end.

Definition sort_by {A} (le : A → A → bool) (l : list A) : list A :=
  foldr (insert_by le) [] l.

Definition ascending {A} (le : A → A → bool) : A → A → bool := le.
Definition descending {A} (le : A → A → bool) : A → A → bool :=
  λ x y, le y x.

(** A result row: a mapped object, or a tuple of an object and further
    columns. *)
Inductive datum : Type :=
| Entity (t : Task)
| Tuple (t : Task) (columns : list Z).

Definition datum_task (d : datum) : Task :=
  match d with
  | Entity t => t
  | Tuple t _ => t
  end.

Definition add_column (f : Task → Z) (d : datum) : datum :=
  match d with
  | Entity t => Tuple t [f t]
  | Tuple t cs => Tuple t (cs ++ [f t])
  end.

(** A query under construction: its rows and the ORDER BY keys given so
    far, most significant first. *)
Record query : Type := mkQuery {
  q_rows : list datum;
  q_order : list (datum → datum → bool)
}.

Definition order_by (le : datum → datum → bool) (q : query) : query :=
  {| q_rows := q_rows q; q_order := q_order q ++ [le] |}.

Definition map_rows (f : datum → datum) (q : query) : query :=
  {| q_rows := f <$> q_rows q; q_order := q_order q |}.

Definition ordered (q : query) : list datum :=
  foldr sort_by (q_rows q) (q_order q).

(** The largest LIMIT or OFFSET that the store takes: both are signed
    64-bit integers there. *)
Definition BIGINT_MAX : Z := 2 ^ 63 - 1.

(** [query.limit(limit).offset(offset).all()]; the store refuses a LIMIT
    or an OFFSET that is negative or beyond its 64-bit integers. *)
Definition limit_offset_all (limit offset : Z) (q : query)
    : result (list datum) :=
  if (limit <? 0) || (offset <? 0)
     || (BIGINT_MAX <? limit) || (BIGINT_MAX <? offset) then Raise DataError
  else Ok (take (Z.to_nat limit) (drop (Z.to_nat offset) (ordered q))).

End Sql.

(** ** The scheduler, [pybossa/sched.py] *)

Module Sched.

Import Sql.

(** A policy answers [None], or a list of tasks. *)
Definition answer : Type := result (option (list Task)).

Definition DEFAULT_SCHEDULER : string := "locked_scheduler".

Definition KEY_PREFIX : string :=
  "pybossa:project:task_requested:timestamps:".

(** [str.format] of an optional integer. *)
Definition format_id (x : option Z) : string :=
  match x with
  | Some n => pretty n
  | None => "None"
  end.

Definition get_key (project_id : Z) (task_id : option Z) : string :=
  KEY_PREFIX +:+ pretty project_id +:+ ":" +:+ format_id task_id.

(** The comparison of two rows on the attribute [getattr(Task, orderby)];
    the payload column has no ordering in the store. *)
Definition Task_attribute (orderby : string)
    : result (Task → Task → bool) :=
  if decide (orderby = "id") then
    Ok (λ a b, le_null Z.leb (Task.id a) (Task.id b))
  else if decide (orderby = "project_id") then
    Ok (λ a b, le_null Z.leb (Task.project_id a) (Task.project_id b))
  else if decide (orderby = "state") then
    Ok (λ a b, le_null String.leb (Task.state a) (Task.state b))
  else if decide (orderby = "n_answers") then
    Ok (λ a b, le_null Z.leb (Task.n_answers a) (Task.n_answers b))
  else if decide (orderby = "priority_0") then
    Ok (λ a b, le_null (λ x y, bool_decide (x ≤ y)%Qc)
                 (Task.priority_0 a) (Task.priority_0 b))
  else if decide (orderby = "calibration") then
    Ok (λ a b, le_null Z.leb (Task.calibration a) (Task.calibration b))
  else if decide (orderby = "created") then
    Ok (λ a b, le_null String.leb (Task.created a) (Task.created b))
  else if decide (orderby = "info") then
    Raise DataError
  else
    Raise AttributeError.

(** [coalesce(array_length(fav_user_ids, 1), 0)]. *)
Definition n_favs (t : Task) : Z :=
  match Task.fav_user_ids t with
  | Some l => Z.of_nat (length l)
  | None => 0
  end.

Definition on_task (le : Task → Task → bool) : datum → datum → bool :=
  λ a b, le (datum_task a) (datum_task b).

Definition _set_orderby_desc (q : query) (orderby : string)
    (descending : bool) : result query :=
  if decide (orderby = "fav_user_ids") then
    let q := map_rows (add_column n_favs) q in
    if descending then
      Ok (order_by (on_task (Sql.descending (λ a b, n_favs a <=? n_favs b))) q)
    else
      Ok (order_by (on_task (Sql.ascending (λ a b, n_favs a <=? n_favs b))) q)
  else
    le ← Task_attribute orderby;
    if descending then
      Ok (order_by (on_task (Sql.descending le)) q)
    else
      Ok (order_by (on_task (Sql.ascending le)) q).

Definition _handle_tuples (data : list datum) : list Task :=
  datum_task <$> data.

(** The three subqueries of task ids already answered, one per identity
    channel. *)
Definition runs_by_user_id (db : Database) (project_id : Z)
    (user_id : option Z) : list Z :=
  TaskRun.task_id <$>
    filter (λ r, TaskRun.project_id r = project_id ∧
                 filter_by_eq (TaskRun.user_id r) user_id = true)
           (task_runs db).

Definition runs_by_user_ip (db : Database) (project_id : Z)
    (user_ip : option string) : list Z :=
  TaskRun.task_id <$>
    filter (λ r, TaskRun.project_id r = project_id ∧
                 filter_by_eq (TaskRun.user_ip r) user_ip = true)
           (task_runs db).

Definition runs_by_external_uid (db : Database) (project_id : Z)
    (external_uid : option string) : list Z :=
  TaskRun.task_id <$>
    filter (λ r, TaskRun.project_id r = project_id ∧
                 filter_by_eq (TaskRun.external_uid r) external_uid = true)
           (task_runs db).

(** The candidate selector.  It builds the subquery of the tasks already
    answered, which runs no statement, and then evaluates the arguments of
    [filter]: the first of them is the name [and_], which the module never
    binds (it imports [func], [desc] and [text] from [sqlalchemy.sql] and
    nothing else from there).  The call therefore raises [NameError] at
    that point, whatever its arguments are; the ordering, the LIMIT and
    OFFSET and [_handle_tuples] that follow in the source are not reached. *)
Definition get_candidate_task_ids (db : Database) (project_id : Z)
    (user_id : option Z) (user_ip external_uid : option string)
    (limit offset : Z) (orderby : string) (desc : bool)
    : result (list Task) :=
  let subquery :=
    if truthy_int user_id && negb (truthy_str user_ip)
       && negb (truthy_str external_uid) then
      runs_by_user_id db project_id user_id
    else
      let user_ip :=
        if negb (truthy_str user_ip) then Some "127.0.0.1" else user_ip in
      if truthy_str user_ip && negb (truthy_str external_uid) then
        runs_by_user_ip db project_id user_ip
      else
        runs_by_external_uid db project_id external_uid in
  Raise NameError.

(** Breadth first: the tasks with the fewest runs come first; the subquery
    of answered tasks is picked by the same guard as in the candidate
    selector. *)
Definition get_breadth_first_task (db : Database) (project_id : Z)
    (user_id : option Z) (user_ip external_uid : option string)
    (offset limit : Z) (orderby : string) (desc : bool)
    : result (list Task) :=
  let project_query :=
    Task.id <$>
      filter (λ t, Sql.eq (Task.project_id t) (Some project_id) = true ∧
                   ne (Task.state t) "completed" = true)
             (tasks db) in
  let subquery :=
    if truthy_int user_id && negb (truthy_str user_ip)
       && negb (truthy_str external_uid) then
      runs_by_user_id db project_id user_id
    else
      let user_ip :=
        if negb (truthy_str user_ip) then Some "127.0.0.1" else user_ip in
      if truthy_str user_ip && negb (truthy_str external_uid) then
        runs_by_user_ip db project_id user_ip
      else
        runs_by_external_uid db project_id external_uid in
  (* EXCEPT: the distinct ids of the first query that the second lacks *)
  let tmp :=
    remove_dups (filter (λ i, i ∉ (Some <$> subquery)) project_query) in
  (* one row per task that has counters: the task and the sum of them *)
  let grouped :=
    omap (λ t,
            let cs :=
              filter (λ c, Sql.eq (Task.id t) (Some (Counter.task_id c)) = true ∧
                           Some (Counter.task_id c) ∈ tmp)
                     (counters db) in
            match cs with
            | [] => None
            | _ => Some (Tuple t [foldr Z.add 0 (Counter.n_task_runs <$> cs)])
            end)
         (tasks db) in
  let n_task_runs d :=
    match d with
    | Tuple _ (n :: _) => n
    | _ => 0
    end in
  let query :=
    {| q_rows := grouped;
       q_order := [Sql.ascending (λ a b, n_task_runs a <=? n_task_runs b)] |} in
  query ← _set_orderby_desc query orderby desc;
  data ← limit_offset_all limit offset query;
  Ok (_handle_tuples data).

Definition get_depth_first_task (db : Database) (project_id : Z)
    (user_id : option Z) (user_ip external_uid : option string)
    (offset limit : Z) (orderby : string) (desc : bool)
    : result (list Task) :=
  tasks ← get_candidate_task_ids db project_id user_id user_ip external_uid
            limit offset orderby desc;
  Ok tasks.

(** [random.randrange(start, stop)] for [start < stop], as a function of
    the generator's hidden state: every value of the range is the image of
    some state. *)
Definition randrange (entropy : nat) (start stop : nat) : nat :=
  (start + entropy mod (stop - start))%nat.

(** [d[key] = value] on a dictionary kept as an association list. *)
Fixpoint dict_set (key : string) (value : json)
    (d : list (string * json)) : list (string * json) :=
  match d with
  | [] => [(key, value)]
  | (k, v) :: d' =>
      if decide (k = key) then (k, value) :: d'
      else (k, v) :: dict_set key value d'
  end.

Definition json_of (o : option json) : json := default JNull o.

(** The most recent run of a task:
    [query(TaskRun).filter(task_id == id).order_by(finish_time.desc()).first()]. *)
Definition last_task_run (db : Database) (task_id : option Z)
    : option TaskRun :=
  head
    (sort_by
       (Sql.descending
          (λ a b, le_null String.leb (TaskRun.finish_time a)
                    (TaskRun.finish_time b)))
       (filter (λ r, filter_by_eq (Some (TaskRun.task_id r)) task_id = true)
               (task_runs db))).

Definition get_incremental_task (entropy : nat) (db : Database)
    (project_id : Z) (user_id : option Z)
    (user_ip external_uid : option string)
    (offset limit : Z) (orderby : string) (desc : bool) : answer :=
  candidate_tasks ← get_candidate_task_ids db project_id user_id user_ip
                      external_uid limit offset "priority_0" true;
  let total_remaining := length candidate_tasks in
  if decide (total_remaining = 0%nat) then Ok None
  else
    let rand := randrange entropy 0 total_remaining in
    match candidate_tasks !! rand with
    | None => Raise TypeError (* out of range; rand < total_remaining *)
    | Some task =>
        match last_task_run db (Task.id task) with
        | Some run =>
            match Task.info task with
            | Some (JObj d) =>
                let d := dict_set "last_answer" (json_of (TaskRun.info run)) d in
                Ok (Some [Task.set_info (JObj d) task])
            | _ => Raise TypeError
            end
        | None => Ok (Some [task])
        end
    end.

(** [session.query(Task).get(task_id)]. *)
Definition Task_get (db : Database) (task_id : option Z) : option Task :=
  match task_id with
  | Some i => head (filter (λ t, Task.id t = Some i) (tasks db))
  | None => None
  end.

(** A row of the statement of the locked policy:
    [task.id, COUNT(task_run.task_id) AS taskcount, n_answers]. *)
Definition locked_row : Type := option Z * Z * option Z.

(** The statement of the locked policy: the tasks of the project that are
    not completed and have no run of this project with this user id, each
    with the number of its runs, by priority descending and then id
    ascending, ten at most. *)
Definition locked_rows (db : Database) (project_id : Z)
    (user_id : option Z) : list locked_row :=
  let eligible :=
    filter (λ t,
              ¬ Exists (λ r, TaskRun.project_id r = project_id ∧
                             Sql.eq (TaskRun.user_id r) user_id = true ∧
                             Sql.eq (Some (TaskRun.task_id r)) (Task.id t) = true)
                       (task_runs db) ∧
              Sql.eq (Task.project_id t) (Some project_id) = true ∧
              ne (Task.state t) "completed" = true)
           (tasks db) in
  let sorted :=
    sort_by
      (Sql.descending
         (λ a b, le_null (λ x y, bool_decide (x ≤ y)%Qc)
                   (Task.priority_0 a) (Task.priority_0 b)))
      (sort_by
         (Sql.ascending (λ a b, le_null Z.leb (Task.id a) (Task.id b)))
         eligible) in
  (λ t,
     (Task.id t,
      Z.of_nat
        (length
           (filter (λ r, Sql.eq (Task.id t) (Some (TaskRun.task_id r)) = true)
                   (task_runs db))),
      Task.n_answers t))
  <$> take 10 sorted.

Section with_collaborators.
Context `{Collaborators}.

Definition TIMEOUT : Z := STAMP_TTL.

Definition has_lock (project_id : Z) (task_id : option Z)
    (user_id : option Z) (st : LockManager.store) : bool :=
  let key := get_key project_id task_id in
  LockManager.has_lock key user_id st.

Definition acquire_lock (project_id : Z) (task_id : option Z)
    (user_id : option Z) (limit : Z) (st : LockManager.store)
    : bool * LockManager.store :=
  let key := get_key project_id task_id in
  LockManager.acquire_lock TIMEOUT key user_id limit st.

Definition release_lock (project_id : Z) (task_id : option Z)
    (user_id : option Z) (st : LockManager.store) : LockManager.store :=
  let key := get_key project_id task_id in
  LockManager.release_lock key user_id st.

(** The loop of the locked policy over the rows of its statement, with
    the tally [skipped] and the fast store threaded through.  It gives
    back the answer, the final tally and the store.  A row without
    [n_answers] makes the subtraction raise.  [session.query(Task).get]
    finds the task of a row, which was just read from the same table; were
    it to find none, the list would hold [None], and the model raises
    instead. *)
Fixpoint locked_loop (db : Database) (project_id : Z)
    (user_id : option Z) (offset : Z) (rows : list locked_row)
    (skipped : Z) (st : LockManager.store)
    : answer * Z * LockManager.store :=
  match rows with
  | [] => (Ok None, skipped, st)
  | (task_id, taskcount, n_answers) :: rows' =>
      match n_answers with
      | None => (Raise TypeError, skipped, st)
      | Some n_answers =>
          let remaining := n_answers - taskcount in
          let '(granted, st') :=
            acquire_lock project_id task_id user_id remaining st in
          if granted then
            if decide (skipped = offset) then
              match Task_get db task_id with
              | Some task => (Ok (Some [task]), skipped, st')
              | None => (Raise AttributeError, skipped, st')
              end
            else
              locked_loop db project_id user_id offset rows'
                (skipped + 1) st'
          else
            locked_loop db project_id user_id offset rows' skipped st'
      end
  end.

Definition get_locked_task (db : Database) (st : LockManager.store)
    (project_id : Z) (user_id : option Z)
    (user_ip external_uid : option string)
    (limit offset : Z) (orderby : string) (desc : bool)
    : answer * LockManager.store :=
  if decide (offset > 2) then (Raise BadRequest, st)
  else
    let rows := locked_rows db project_id user_id in
    let '(r, _, st') :=
      locked_loop db project_id user_id offset rows 0 st in
    (r, st').

(** The policies behind [sched_map]. *)
Inductive policy : Type :=
| locked | breadth_first | depth_first | incremental.

(** [sched_map.get(sched, sched_map['default'])]: the key is what the
    project metadata holds under ["sched"], [None] when it holds
    nothing; a list or a dictionary cannot be a key. *)
Definition sched_map_get (sched : option json) : result policy :=
  match sched with
  | Some (JStr name) =>
      if decide (name = "default") then Ok locked
      else if decide (name = "breadth_first") then Ok breadth_first
      else if decide (name = "depth_first") then Ok depth_first
      else if decide (name = "locked_scheduler") then Ok locked
      else if decide (name = "incremental") then Ok incremental
      else Ok locked
  | Some (JArr _) | Some (JObj _) => Raise TypeError
  | _ => Ok locked
  end.

Definition lift (st : LockManager.store) (r : result (list Task))
    : answer * LockManager.store :=
  (l ← r; Ok (Some l), st).

Definition new_task (entropy : nat) (db : Database)
    (st : LockManager.store) (project_id : Z) (sched : option json)
    (user_id : option Z) (user_ip external_uid : option string)
    (offset limit : Z) (orderby : string) (desc : bool)
    : answer * LockManager.store :=
  match sched_map_get sched with
  | Raise e => (Raise e, st)
  | Ok locked =>
      get_locked_task db st project_id user_id user_ip external_uid
        limit offset orderby desc
  | Ok breadth_first =>
      lift st (get_breadth_first_task db project_id user_id user_ip
                 external_uid offset limit orderby desc)
  | Ok depth_first =>
      lift st (get_depth_first_task db project_id user_id user_ip
                 external_uid offset limit orderby desc)
  | Ok incremental =>
      (get_incremental_task entropy db project_id user_id user_ip
         external_uid offset limit orderby desc, st)
  end.

Definition project_repo_get (db : Database) (project_id : Z)
    : option Project :=
  head (filter (λ p, Project.id p = project_id) (projects db)).

(** [dict.get(key)] on a dictionary kept as an association list. *)
Definition dict_get (key : string) (d : list (string * json))
    : option json :=
  snd <$> head (filter (λ kv, kv.1 = key) d).

Definition get_project_scheduler (db : Database) (project_id : Z)
    : result json :=
  match project_repo_get db project_id with
  | None => Raise AttributeError
  | Some project =>
      let scheduler :=
        default (JStr "default") (dict_get "sched" (Project.info project)) in
      match scheduler with
      | JStr name =>
          if decide (name = "default") then Ok (JStr DEFAULT_SCHEDULER)
          else Ok scheduler
      | _ => Ok scheduler
      end
  end.

Definition is_locked_scheduler (scheduler : json) : bool :=
  match scheduler with
  | JStr name => bool_decide (name = "locked_scheduler")
  | _ => false
  end.

Definition can_post (db : Database) (st : LockManager.store)
    (project_id : Z) (task_id : option Z) (user_id : option Z)
    : result bool :=
  scheduler ← get_project_scheduler db project_id;
  if is_locked_scheduler scheduler then
    Ok (has_lock project_id task_id user_id st)
  else Ok true.

Definition after_save (db : Database) (st : LockManager.store)
    (project_id : Z) (task_id : option Z) (user_id : option Z)
    : result LockManager.store :=
  scheduler ← get_project_scheduler db project_id;
  if is_locked_scheduler scheduler then
    Ok (release_lock project_id task_id user_id st)
  else Ok st.

Definition has_read_access (user : User) : bool :=
  negb (User.is_anonymous user) && (User.admin user || User.subadmin user).

(** A task without a project id makes the lookup of the project find
    nothing, as an unknown project id does. *)
Definition can_read_task (db : Database) (st : LockManager.store)
    (task : Task) (user : User) : result bool :=
  match Task.project_id task with
  | None => Raise AttributeError
  | Some project_id =>
      scheduler ← get_project_scheduler db project_id;
      if is_locked_scheduler scheduler then
        Ok (has_read_access user
            || has_lock project_id (Task.id task) (User.id user) st)
      else Ok true
  end.

End with_collaborators.

End Sched.

(** ** The new-task endpoint, [pybossa/api/__init__.py] *)

Module Api.

(** What the endpoint reads of the inbound request: whether the current
    user is anonymous, the id of the current user otherwise, the remote
    address, the query-string arguments and the Authorization header. *)
Record Request : Type := mkRequest {
  is_anonymous : bool;
  current_user_id : Z;
  remote_addr : option string;
  args : list (string * string);
  authorization : option string
}.

(** [request.args.get(key)]. *)
Definition args_get (key : string) (req : Request) : option string :=
  snd <$> head (filter (λ kv, kv.1 = key) (args req)).

(** What [_retrieve_new_task] returns: the answer of the scheduler, or
    the response of the JWT check. *)
Inductive retrieved : Type :=
| Tasks (tasks : option (list Task))
| Reply (resp : Response).

Definition json_response (doc : json) : Response :=
  {| body := doc; mimetype := "application/json"; status := 200 |}.

Section with_collaborators.
Context `{Collaborators}.

(** The project id is the segment of the URL; it is kept as the number it
    spells. *)
Definition _retrieve_new_task (entropy : nat) (db : Database)
    (st : LockManager.store) (req : Request) (project_id : Z)
    : result retrieved * LockManager.store :=
  match Sched.project_repo_get db project_id with
  | None => (Raise NotFound, st)
  | Some project =>
      if negb (Project.allow_anonymous_contributors project)
         && is_anonymous req then
        let info :=
          JObj [("error",
                 JStr "This project does not allow anonymous contributors")] in
        let error := [Task.new info] in
        (Ok (Tasks (Some error)), st)
      else
        let jwt :=
          if truthy_str (args_get "external_uid" req) then
            jwt_authorize_project project (authorization req)
          else None in
        match jwt with
        | Some resp => (Ok (Reply resp), st)
        | None =>
            let parsed : result (Z * Z * string * bool) :=
              limit ←
                (if truthy_str (args_get "limit" req) then
                   match py_int (default "" (args_get "limit" req)) with
                   | Some n => Ok n
                   | None => Raise ValueError
                   end
                 else Ok 1);
              let limit := if decide (limit > 100) then 100 else limit in
              offset ←
                (if truthy_str (args_get "offset" req) then
                   match py_int (default "" (args_get "offset" req)) with
                   | Some n => Ok n
                   | None => Raise ValueError
                   end
                 else Ok 0);
              let orderby :=
                if truthy_str (args_get "orderby" req) then
                  default "" (args_get "orderby" req)
                else "id" in
              desc ←
                (if truthy_str (args_get "desc" req) then
                   fuzzyboolean (default "" (args_get "desc" req))
                 else Ok false);
              Ok (limit, offset, orderby, desc) in
            match parsed with
            | Raise e => (Raise e, st)
            | Ok (limit, offset, orderby, desc) =>
                let user_id :=
                  if is_anonymous req then None
                  else Some (current_user_id req) in
                let user_ip :=
                  if is_anonymous req then remote_addr req else None in
                let external_uid := args_get "external_uid" req in
                let '(task, st') :=
                  Sched.new_task entropy db st project_id
                    (Sched.dict_get "sched" (Project.info project))
                    user_id user_ip external_uid offset limit orderby
                    desc in
                (r ← task; Ok (Tasks r), st')
            end
        end
  end.

(** The endpoint.  The presented-time stamps that it writes for the tasks
    it returns live under keys of their own in the fast store and do not
    reach the response; they are left out. *)
Definition new_task (entropy : nat) (db : Database)
    (st : LockManager.store) (req : Request) (project_id : Z)
    : Response * LockManager.store :=
  let '(tasks, st') := _retrieve_new_task entropy db st req project_id in
  match tasks with
  | Raise e => (format_exception e "project" "GET", st')
  | Ok (Reply resp) => (resp, st')
  | Ok (Tasks (Some tasks)) =>
      let data := dictize <$> tasks in
      match data with
      | [] => (json_response (JObj []), st')
      | [d] => (json_response (JObj d), st')
      | _ => (json_response (JArr (JObj <$> data)), st')
      end
  | Ok (Tasks None) => (json_response (JObj []), st')
  end.

End with_collaborators.

End Api.

(** ** Interleavings of lock operations *)

(** Request handlers share nothing but the two stores, and every lock
    operation is one atomic step on the fast store: a concurrent execution
    is an interleaving of the calls below, with time passing in between. *)
Module Interleaving.

Inductive event : Type :=
| Acquire (project_id : Z) (task_id : option Z) (user_id : option Z)
          (limit : Z)
| Release (project_id : Z) (task_id : option Z) (user_id : option Z)
| Elapse (d : N).

Section with_collaborators.
Context `{Collaborators}.

Definition step (st : LockManager.store) (e : event)
    : LockManager.store :=
  match e with
  | Acquire p t u limit => (Sched.acquire_lock p t u limit st).2
  | Release p t u => Sched.release_lock p t u st
  | Elapse d => LockManager.advance d st
  end.

Definition run (evs : list event) (st : LockManager.store)
    : LockManager.store :=
  foldl step st evs.

End with_collaborators.

(** The acquire calls on [key] ask for at most [Q] holders. *)
Definition within_quota (key : string) (Q : Z) (e : event) : Prop :=
  match e with
  | Acquire p t _ limit => Sched.get_key p t = key → limit ≤ Q
  | _ => True
  end.

(** The number of identities that hold a non-expired lease on [key]. *)
Definition concurrent_holders (key : string) (st : LockManager.store)
    : Z :=
  Z.of_nat (size (LockManager.live_holders key st)).

End Interleaving.

(** ** Notions used to state the properties *)

(** The identity channel against which answered tasks are excluded. *)
Module Identity.

Inductive channel : Type :=
| ByUserId (user_id : Z)
| ByUserIp (user_ip : string)
| ByExternalUid (external_uid : string).

Definition nonzero (o : option Z) : option Z :=
  match o with
  | Some n => if n =? 0 then None else Some n
  | None => None
  end.

Definition nonempty (o : option string) : option string :=
  match o with
  | Some s => if String.eqb s "" then None else Some s
  | None => None
  end.

(** The channel that the selection of the subquery in
    [get_candidate_task_ids] and [get_breadth_first_task] amounts to: the
    external uid when there is one, else the ip when there is one, else
    the user id when there is one, else the ip 127.0.0.1. *)
Definition resolve (user_id : option Z)
    (user_ip external_uid : option string) : channel :=
  match nonempty external_uid, nonempty user_ip, nonzero user_id with
  | Some e, _, _ => ByExternalUid e
  | None, Some ip, _ => ByUserIp ip
  | None, None, Some u => ByUserId u
  | None, None, None => ByUserIp "127.0.0.1"
  end.

(** The run was submitted through the channel. *)
Definition submitted_by (ch : channel) (r : TaskRun) : Prop :=
  match ch with
  | ByUserId u => TaskRun.user_id r = Some u
  | ByUserIp ip => TaskRun.user_ip r = Some ip
  | ByExternalUid e => TaskRun.external_uid r = Some e
  end.

(** The ids of the tasks of the project answered through the channel. *)
Definition answered (db : Database) (project_id : Z) (ch : channel)
    : list Z :=
  match ch with
  | ByUserId u => Sched.runs_by_user_id db project_id (Some u)
  | ByUserIp ip => Sched.runs_by_user_ip db project_id (Some ip)
  | ByExternalUid e => Sched.runs_by_external_uid db project_id (Some e)
  end.

End Identity.

(** The relational store holds tasks with an id and a quota, and payloads
    that are dictionaries. *)
Definition stored (db : Database) : Prop :=
  Forall (λ t, is_Some (Task.id t) ∧ is_Some (Task.n_answers t)) (tasks db).

(** The task ids are a primary key of the task table. *)
Definition primary_key (db : Database) : Prop :=
  NoDup (Task.id <$> tasks db).

(** The ordering field names a column of the task table that can be sorted
    on. *)
Definition sortable (orderby : string) : Prop :=
  orderby = "fav_user_ids" ∨ ∃ le, Sched.Task_attribute orderby = Ok le.

(** The number of runs that the counters of a task add up to. *)
Definition counted_runs (db : Database) (t : Task) : Z :=
  foldr Z.add 0
    (Counter.n_task_runs <$>
       filter (λ c, Sql.eq (Task.id t) (Some (Counter.task_id c)) = true)
              (counters db)).

(** The value under ["sched"] is none of the names that [sched_map] maps to
    a policy other than the locked one, and can be a key of a dictionary. *)
Definition names_no_other_policy (sched : option json) : Prop :=
  match sched with
  | Some (JStr name) =>
      name ≠ "breadth_first" ∧ name ≠ "depth_first" ∧ name ≠ "incremental"
  | Some (JArr _) | Some (JObj _) => False
  | _ => True
  end.

(** The characters of a decimal numeral: the digits and the minus sign. *)
Definition numeral_char (c : Ascii.ascii) : bool :=
  let n := Ascii.nat_of_ascii c in
  ((48 <=? n)%nat && (n <=? 57)%nat) || (n =? 45)%nat.

Fixpoint numeral (s : string) : bool :=
  match s with
  | EmptyString => true
  | String c s' => numeral_char c && numeral s'
  end.

(** The rows of the locked policy for which the lock is granted when the
    rows are tried one after the other, each on the store the previous
    attempts left. *)
Fixpoint granted_rows `{Collaborators} (project_id : Z) (user_id : option Z)
    (rows : list Sched.locked_row) (st : LockManager.store)
    : list Sched.locked_row :=
  match rows with
  | [] => []
  | (task_id, taskcount, n_answers) :: rows' =>
      match n_answers with
      | None => []
      | Some n =>
          let '(granted, st') :=
            Sched.acquire_lock project_id task_id user_id (n - taskcount) st in
          if granted then
            (task_id, taskcount, n_answers)
              :: granted_rows project_id user_id rows' st'
          else granted_rows project_id user_id rows' st'
      end
  end.

(** ** Sample data *)

Module Sample.

(** A query-string value read as an unsigned decimal number. *)
Definition digit (c : Ascii.ascii) : option Z :=
  let n := Z.of_nat (Ascii.nat_of_ascii c) in
  if (48 <=? n) && (n <=? 57) then Some (n - 48) else None.

Fixpoint digits (acc : Z) (s : string) : option Z :=
  match s with
  | EmptyString => Some acc
  | String c s' =>
      match digit c with
      | Some d => digits (10 * acc + d) s'
      | None => None
      end
  end.

Definition parse_int (s : string) : option Z :=
  match s with
  | EmptyString => None
  | _ => digits 0 s
  end.

#[local] Instance collaborators : Collaborators := {|
  STAMP_TTL := 3600;
  py_int := parse_int;
  fuzzyboolean := λ s,
    if decide (s = "true") then Ok true
    else if decide (s = "false") then Ok false
    else Raise ValueError;
  jwt_authorize_project := λ _ _, None;
  format_exception := λ e target action,
    {| body := JObj [("status", JStr "failed"); ("target", JStr target);
                     ("action", JStr action)];
       mimetype := "application/json";
       status := match e with NotFound => 404 | BadRequest => 400 | _ => 500 end |};
  dictize := λ t,
    [("id", from_option JNum JNull (Task.id t));
     ("project_id", from_option JNum JNull (Task.project_id t));
     ("state", from_option JStr JNull (Task.state t));
     ("n_answers", from_option JNum JNull (Task.n_answers t));
     ("info", default JNull (Task.info t))]
|}.

(** Collaborators whose JWT check answers 401 to a request without an
    Authorization header. *)
#[local] Instance strict_collaborators : Collaborators := {|
  STAMP_TTL := 3600;
  py_int := parse_int;
  fuzzyboolean := fuzzyboolean (Collaborators := collaborators);
  jwt_authorize_project := λ _ auth,
    match auth with
    | Some _ => None
    | None =>
        Some {| body := JObj [("status", JStr "failed")];
                mimetype := "application/json"; status := 401 |}
    end;
  format_exception := format_exception (Collaborators := collaborators);
  dictize := dictize (Collaborators := collaborators)
|}.

(** An ongoing task of project 1 with the given id, quota and priority. *)
Definition task (i quota priority : Z) : Task :=
  {| Task.id := Some i; Task.project_id := Some 1;
     Task.state := Some "ongoing"; Task.n_answers := Some quota;
     Task.priority_0 := Some (Qc_of_Z priority);
     Task.calibration := Some 0; Task.created := Some "2017-01-01";
     Task.fav_user_ids := None; Task.info := Some (JObj []) |}.

(** The ongoing tasks 1 to [n] of project 1. *)
Definition tasks_upto (n : nat) : list Task :=
  (λ i, task (Z.of_nat i) 2 0) <$> seq 1 n.

(** A run on a task of project 1. *)
Definition run_by_user (task_id user_id : Z) : TaskRun :=
  {| TaskRun.task_id := task_id; TaskRun.project_id := 1;
     TaskRun.user_id := Some user_id; TaskRun.user_ip := None;
     TaskRun.external_uid := None;
     TaskRun.finish_time := Some "2017-01-02"; TaskRun.info := None |}.

Definition run_by_ip (task_id : Z) (ip : string) : TaskRun :=
  {| TaskRun.task_id := task_id; TaskRun.project_id := 1;
     TaskRun.user_id := None; TaskRun.user_ip := Some ip;
     TaskRun.external_uid := None;
     TaskRun.finish_time := Some "2017-01-02"; TaskRun.info := None |}.

Definition project (sched : string) (anonymous : bool) : Project :=
  {| Project.id := 1; Project.allow_anonymous_contributors := anonymous;
     Project.info := [("sched", JStr sched)] |}.

Definition database (ts : list Task) (rs : list TaskRun) (sched : string)
    (anonymous : bool) : Database :=
  {| tasks := ts; task_runs := rs;
     counters := (λ t, {| Counter.task_id := default 0 (Task.id t);
                          Counter.n_task_runs := 0 |}) <$> ts;
     projects := [project sched anonymous] |}.

Definition request (anonymous : bool) (user : Z) (ip : string)
    (query : list (string * string)) : Api.Request :=
  {| Api.is_anonymous := anonymous; Api.current_user_id := user;
     Api.remote_addr := Some ip; Api.args := query;
     Api.authorization := None |}.

End Sample.

(** ** Properties of the lock manager *)

Section lock_manager_facts.
Import LockManager.

Implicit Types (m : gmap identity Z) (st : store) (who : identity).

Lemma live_insert_size now m who expiry :
  (size (live now (<[who := expiry]> m)) ≤ S (size (live now m)))%nat.
Proof.
  unfold live. rewrite map_filter_insert. case_decide.
  - rewrite map_size_insert. destruct (filter _ m !! who); simpl; lia.
  - rewrite map_filter_delete, map_size_delete.
    destruct (filter _ m !! who); simpl; lia.
Qed.

Lemma live_insert_held_size now m who expiry :
  is_Some (live now m !! who) →
  (size (live now (<[who := expiry]> m)) ≤ size (live now m))%nat.
Proof.
  unfold live. intros Hheld. rewrite map_filter_insert. case_decide.
  - by rewrite map_size_insert_Some.
  - rewrite map_filter_delete, map_size_delete.
    destruct (filter _ m !! who); simpl; lia.
Qed.

Lemma live_delete_size now m who :
  (size (live now (delete who m)) ≤ size (live now m))%nat.
Proof.
  unfold live. rewrite map_filter_delete, map_size_delete.
  destruct (filter _ m !! who); simpl; lia.
Qed.

Lemma live_later_size now now' m :
  now ≤ now' → (size (live now' m) ≤ size (live now m))%nat.
Proof.
  intros Hle. apply map_subseteq_size, map_filter_subseteq_ext.
  simpl. intros ? ? _ ?. lia.
Qed.

Lemma holders_set_lease key key' who expiry st :
  holders key (set_lease key' who expiry st) =
    if decide (key' = key) then <[who := expiry]> (holders key st)
    else holders key st.
Proof.
  unfold holders at 1, set_lease. simpl. case_decide as Hk.
  - subst. by rewrite lookup_insert_eq.
  - by rewrite lookup_insert_ne.
Qed.

Lemma holders_release key key' who st :
  holders key (release_lock key' who st) =
    if decide (key' = key) then delete who (holders key st)
    else holders key st.
Proof.
  unfold holders at 1, release_lock. simpl. case_decide as Hk.
  - subst. by rewrite lookup_insert_eq.
  - by rewrite lookup_insert_ne.
Qed.

(** One acquire call with a limit of at most [Q] keeps the number of
    holders of the key within [Q]. *)
Lemma acquire_keeps_quota duration key who limit Q st :
  limit ≤ Q →
  Z.of_nat (size (live_holders key st)) ≤ Q →
  Z.of_nat (size (live_holders key (acquire_lock duration key who limit st).2)) ≤ Q.
Proof.
  intros Hlimit Hinv. unfold acquire_lock.
  destruct (decide (is_Some (live_holders key st !! who))) as [Hheld|_]; simpl.
  - unfold live_holders in *. rewrite holders_set_lease, decide_True by done.
    simpl. pose proof (live_insert_held_size _ _ _ (clock st + duration) Hheld).
    lia.
  - case_decide as Hroom; simpl; [|done].
    unfold live_holders in *. rewrite holders_set_lease, decide_True by done.
    simpl.
    pose proof (live_insert_size (clock st) (holders key st) who
                  (clock st + duration)).
    lia.
Qed.

(** A call on another key leaves the holders of [key] as they are. *)
Lemma acquire_other_key duration key key' who limit st :
  key' ≠ key →
  live_holders key (acquire_lock duration key' who limit st).2 =
    live_holders key st.
Proof.
  intros Hne. unfold acquire_lock. repeat case_decide; simpl; try done;
    unfold live_holders; by rewrite holders_set_lease, decide_False.
Qed.

(** A lease granted to an identity that did not hold one is granted
    within the limit of that very call. *)
Lemma fresh_grant_within_limit duration key who limit st st' :
  acquire_lock duration key who limit st = (true, st') →
  has_lock key who st = false →
  Z.of_nat (size (live_holders key st')) ≤ limit.
Proof.
  unfold acquire_lock, has_lock. intros Hacq Hfree.
  apply bool_decide_eq_false in Hfree.
  rewrite decide_False in Hacq by done.
  case_decide as Hroom; [|done]. injection Hacq as <-.
  unfold live_holders in *. rewrite holders_set_lease, decide_True by done.
  simpl.
  pose proof (live_insert_size (clock st) (holders key st) who
                (clock st + duration)).
  lia.
Qed.

End lock_manager_facts.

(** ** C1: the quota of a lock key is never exceeded *)

Section quota_invariant.
Context `{Collaborators}.
Import Interleaving.

Lemma step_keeps_quota key Q e st :
  within_quota key Q e →
  concurrent_holders key st ≤ Q →
  concurrent_holders key (step st e) ≤ Q.
Proof.
  unfold concurrent_holders. destruct e as [p t u limit|p t u|d]; simpl.
  - intros Hq Hinv. unfold Sched.acquire_lock.
    destruct (decide (Sched.get_key p t = key)) as [<-|Hne].
    + apply acquire_keeps_quota; auto.
    + by rewrite acquire_other_key.
  - intros _ Hinv. unfold Sched.release_lock, LockManager.live_holders.
    rewrite holders_release. simpl. case_decide; [|done].
    etrans; [|exact Hinv]. apply Nat2Z.inj_le, live_delete_size.
  - intros _ Hinv. unfold LockManager.live_holders, LockManager.advance.
    simpl. unfold LockManager.holders at 1. simpl.
    fold (LockManager.holders key st).
    etrans; [|exact Hinv]. apply Nat2Z.inj_le, live_later_size. lia.
Qed.

Lemma run_keeps_quota key Q evs st :
  Forall (within_quota key Q) evs →
  concurrent_holders key st ≤ Q →
  concurrent_holders key (run evs st) ≤ Q.
Proof.
  intros Hevs. revert st. induction Hevs as [|e evs He _ IH]; intros st Hinv.
  - done.
  - simpl. apply IH. by apply step_keeps_quota.
Qed.

(** C1.  Take any interleaving of acquire calls (by any identities, on any
    keys), releases and passing time in which the acquire calls on the key
    of one (project, task) pair ask for a quota of at most [Q], started in
    a store where at most [Q] identities hold that key.  After every
    prefix of it, the number of distinct identities that hold a
    non-expired lease on the key is at most [Q]; and whenever a lease is
    granted to an identity that did not hold one, the holders of the key,
    the new one included, number at most the limit given in that call. *)
Theorem C1_quota_never_exceeded (project_id : Z) (task_id : option Z)
    (Q : Z) (evs : list event) (st : LockManager.store) :
  let key := Sched.get_key project_id task_id in
  concurrent_holders key st ≤ Q →
  Forall (within_quota key Q) evs →
  (∀ n, concurrent_holders key (run (take n evs) st) ≤ Q) ∧
  (∀ user_id limit st0 st1,
     Sched.acquire_lock project_id task_id user_id limit st0 = (true, st1) →
     Sched.has_lock project_id task_id user_id st0 = false →
     concurrent_holders key st1 ≤ limit).
Proof.
  intros key Hinit Hevs. split.
  - intros n. apply run_keeps_quota; [|done]. by apply Forall_take.
  - intros user_id limit st0 st1 Hacq Hfree.
    by eapply fresh_grant_within_limit.
Qed.

End quota_invariant.

Lemma C1_quota_never_exceeded_witness :
  let key := Sched.get_key 1 (Some 5) in
  let evs :=
    [Interleaving.Acquire 1 (Some 5) (Some 7) 1;
     Interleaving.Acquire 1 (Some 5) (Some 8) 1;
     Interleaving.Elapse 4000;
     Interleaving.Acquire 1 (Some 5) None 1] in
  Interleaving.concurrent_holders key (LockManager.empty 0) ≤ 1 ∧
  Forall (Interleaving.within_quota key 1) evs ∧
  (∀ n, Interleaving.concurrent_holders key
          (Interleaving.run (H := Sample.collaborators) (take n evs)
             (LockManager.empty 0)) ≤ 1) ∧
  (∀ user_id limit st0 st1,
     Sched.acquire_lock (H := Sample.collaborators) 1 (Some 5) user_id limit st0
       = (true, st1) →
     Sched.has_lock 1 (Some 5) user_id st0 = false →
     Interleaving.concurrent_holders key st1 ≤ limit).
Proof.
  intros key evs.
  assert (Hinit : Interleaving.concurrent_holders key (LockManager.empty 0) ≤ 1)
    by (vm_compute; discriminate).
  assert (Hevs : Forall (Interleaving.within_quota key 1) evs)
    by (repeat constructor; simpl; intros; lia).
  split; [exact Hinit|]. split; [exact Hevs|].
  exact (C1_quota_never_exceeded (H := Sample.collaborators)
           1 (Some 5) 1 evs (LockManager.empty 0) Hinit Hevs).
Defined.

(** ** Properties of the queries *)

Section sql_facts.
Import Sql.
Context {A : Type}.
Implicit Types (le : A → A → bool) (l : list A).

Lemma elem_of_insert_by le x y l :
  y ∈ insert_by le x l ↔ y = x ∨ y ∈ l.
Proof.
  induction l as [|z l IH]; simpl.
  - rewrite list_elem_of_singleton. set_solver.
  - destruct (le x z); set_solver.
Qed.

Lemma elem_of_sort_by le x l : x ∈ sort_by le l ↔ x ∈ l.
Proof.
  induction l as [|y l IH]; simpl; [done|].
  rewrite elem_of_insert_by, IH. set_solver.
Qed.

Lemma length_insert_by le x l :
  length (insert_by le x l) = S (length l).
Proof.
  induction l as [|y l IH]; simpl; [done|].
  destruct (le x y); simpl; by rewrite ?IH.
Qed.

Lemma length_sort_by le l : length (sort_by le l) = length l.
Proof.
  induction l as [|y l IH]; simpl; [done|].
  by rewrite length_insert_by, IH.
Qed.

End sql_facts.

Lemma elem_of_ordered (q : Sql.query) (d : Sql.datum) :
  d ∈ Sql.ordered q ↔ d ∈ Sql.q_rows q.
Proof.
  unfold Sql.ordered. induction (Sql.q_order q) as [|le les IH]; simpl; [done|].
  by rewrite elem_of_sort_by.
Qed.

Lemma limit_offset_all_elem (limit offset : Z) (q : Sql.query)
    (data : list Sql.datum) (d : Sql.datum) :
  Sql.limit_offset_all limit offset q = Ok data →
  d ∈ data → d ∈ Sql.q_rows q.
Proof.
  unfold Sql.limit_offset_all. destruct (_ || _); [done|].
  intros [= <-] Hd. apply elem_of_ordered.
  by eapply subseteq_drop, subseteq_take.
Qed.

Lemma _set_orderby_desc_rows (q q' : Sql.query) (orderby : string)
    (desc : bool) (d : Sql.datum) :
  Sched._set_orderby_desc q orderby desc = Ok q' →
  d ∈ Sql.q_rows q' →
  ∃ d0, d0 ∈ Sql.q_rows q ∧ Sql.datum_task d = Sql.datum_task d0.
Proof.
  unfold Sched._set_orderby_desc. case_decide.
  - destruct desc; intros [= <-]; simpl; intros Hd;
      apply list_elem_of_fmap in Hd as (d0 & -> & Hd0);
      exists d0; (split; [done|]); by destruct d0.
  - destruct (Sched.Task_attribute orderby) as [le|e]; simpl; [|done].
    destruct desc; intros [= <-]; simpl; eauto.
Qed.


(** ** The choice of the subquery, and the candidate selector *)

Ltac unfold_result :=
  unfold mbind, result_bind, mret, result_ret in *; simpl in *.

Lemma subquery_resolve (db : Database) (p : Z) (uid : option Z)
    (ip ext : option string) :
  (if truthy_int uid && negb (truthy_str ip) && negb (truthy_str ext) then
     Sched.runs_by_user_id db p uid
   else
     let user_ip := if negb (truthy_str ip) then Some "127.0.0.1" else ip in
     if truthy_str user_ip && negb (truthy_str ext) then
       Sched.runs_by_user_ip db p user_ip
     else
       Sched.runs_by_external_uid db p ext)
  = Identity.answered db p (Identity.resolve uid ip ext).
Proof.
  unfold Identity.resolve, Identity.nonempty, Identity.nonzero,
    truthy_int, truthy_str.
  destruct ext as [e|]; [destruct (String.eqb e "") eqn:He|];
    (destruct ip as [i|]; [destruct (String.eqb i "") eqn:Hi|]);
    (destruct uid as [u|]; [destruct (u =? 0) eqn:Hu|]);
    simpl; rewrite ?He, ?Hi, ?Hu; reflexivity.
Qed.

Lemma elem_of_answered (db : Database) (p : Z) (ch : Identity.channel)
    (r : TaskRun) :
  r ∈ task_runs db → TaskRun.project_id r = p →
  Identity.submitted_by ch r →
  TaskRun.task_id r ∈ Identity.answered db p ch.
Proof.
  intros Hr Hp Hch.
  destruct ch; simpl in *;
    unfold Sched.runs_by_user_id, Sched.runs_by_user_ip,
      Sched.runs_by_external_uid;
    apply list_elem_of_fmap; exists r; (split; [done|]);
    apply list_elem_of_filter; (split; [|done]);
    (split; [done|]); unfold Sql.filter_by_eq; by apply bool_decide_eq_true.
Qed.

(** The candidate selector raises on every call, and so do the two
    policies that start by calling it. *)
Lemma get_candidate_task_ids_raises (db : Database) (p : Z)
    (uid : option Z) (ip ext : option string) (limit offset : Z)
    (orderby : string) (desc : bool) :
  Sched.get_candidate_task_ids db p uid ip ext limit offset orderby desc
    = Raise NameError.
Proof. reflexivity. Qed.

Lemma get_depth_first_task_raises (db : Database) (p : Z)
    (uid : option Z) (ip ext : option string) (offset limit : Z)
    (orderby : string) (desc : bool) :
  Sched.get_depth_first_task db p uid ip ext offset limit orderby desc
    = Raise NameError.
Proof. reflexivity. Qed.

Lemma get_incremental_task_raises (entropy : nat) (db : Database) (p : Z)
    (uid : option Z) (ip ext : option string) (offset limit : Z)
    (orderby : string) (desc : bool) :
  Sched.get_incremental_task entropy db p uid ip ext offset limit orderby desc
    = Raise NameError.
Proof. reflexivity. Qed.

(** Whatever the breadth-first policy returns has no run through the
    resolved channel. *)
Lemma breadth_first_excludes (db : Database) (p : Z) (uid : option Z)
    (ip ext : option string) (offset limit : Z) (orderby : string)
    (desc : bool) (l : list Task) (t : Task) :
  Sched.get_breadth_first_task db p uid ip ext offset limit orderby desc
    = Ok l →
  t ∈ l →
  ∀ r, r ∈ task_runs db → TaskRun.project_id r = p →
       Identity.submitted_by (Identity.resolve uid ip ext) r →
       Task.id t ≠ Some (TaskRun.task_id r).
Proof.
  unfold Sched.get_breadth_first_task. rewrite subquery_resolve.
  set (sub := Identity.answered db p (Identity.resolve uid ip ext)).
  destruct (Sched._set_orderby_desc _ orderby desc) as [q'|e] eqn:Hq;
    unfold_result; [|done].
  destruct (Sql.limit_offset_all limit offset q') as [data|e] eqn:Hdata;
    unfold_result; [|done].
  intros [= <-] Ht. unfold Sched._handle_tuples in Ht.
  apply list_elem_of_fmap in Ht as (d & -> & Hd).
  eapply limit_offset_all_elem in Hd; [|done].
  eapply _set_orderby_desc_rows in Hd as (d0 & Hd0 & ->); [|done].
  simpl in Hd0. apply list_elem_of_omap in Hd0 as (t & Ht & Hrow).
  destruct (filter _ (counters db)) as [|c cs] eqn:Hcs; [done|].
  injection Hrow as <-. simpl.
  assert (Hc : c ∈ filter
            (λ c, Sql.eq (Task.id t) (Some (Counter.task_id c)) = true ∧
                  Some (Counter.task_id c) ∈
                    remove_dups
                      (filter (λ i, i ∉ (Some <$> sub))
                         (Task.id <$>
                            filter (λ t, Sql.eq (Task.project_id t) (Some p) = true ∧
                                         Sql.ne (Task.state t) "completed" = true)
                                   (tasks db))))
            (counters db)) by (rewrite Hcs; left).
  apply list_elem_of_filter in Hc as [[Hid Htmp] _].
  apply elem_of_remove_dups, list_elem_of_filter in Htmp as [Hnot _].
  unfold Sql.eq in Hid. destruct (Task.id t) as [i|]; [|done].
  apply bool_decide_eq_true in Hid. subst i.
  intros r Hr Hp Hch [= Heq].
  apply Hnot, list_elem_of_fmap. exists (TaskRun.task_id r).
  split; [by rewrite Heq|]. by apply elem_of_answered.
Qed.

(** ** Properties of the statement of the locked policy *)

Lemma locked_rows_elem (db : Database) (p : Z) (uid : option Z)
    (row : Sched.locked_row) :
  row ∈ Sched.locked_rows db p uid →
  ∃ t, t ∈ tasks db ∧
       row.1.1 = Task.id t ∧ row.2 = Task.n_answers t ∧
       Task.project_id t = Some p ∧
       (∃ s, Task.state t = Some s ∧ s ≠ "completed") ∧
       ∀ r, r ∈ task_runs db → TaskRun.project_id r = p →
            is_Some uid → TaskRun.user_id r = uid →
            Task.id t ≠ Some (TaskRun.task_id r).
Proof.
  unfold Sched.locked_rows. intros Hrow.
  apply list_elem_of_fmap in Hrow as (t & -> & Ht). simpl.
  apply subseteq_take in Ht.
  apply elem_of_sort_by, elem_of_sort_by in Ht.
  apply list_elem_of_filter in Ht as [(Hnot & Hproj & Hstate) Ht].
  exists t. split; [done|]. split; [done|]. split; [done|].
  split; [|split].
  - unfold Sql.eq in Hproj. destruct (Task.project_id t); [|done].
    apply bool_decide_eq_true in Hproj. by subst.
  - unfold Sql.ne in Hstate. destruct (Task.state t) as [s|]; [|done].
    apply bool_decide_eq_true in Hstate. eauto.
  - intros r Hr Hp [u ->] Hu Hid. apply Hnot, Exists_exists.
    exists r. split; [done|]. split; [done|].
    rewrite Hu, Hid. simpl. split; by apply bool_decide_eq_true.
Qed.

Lemma Task_get_elem (db : Database) (tid : option Z) (t : Task) :
  Sched.Task_get db tid = Some t →
  t ∈ tasks db ∧ Task.id t = tid ∧ is_Some tid.
Proof.
  destruct tid as [i|]; simpl; [|done]. intros Hhead.
  apply head_Some_elem_of, list_elem_of_filter in Hhead as [Hid Ht]. eauto.
Qed.

Lemma Task_get_stored (db : Database) (t : Task) (i : Z) :
  t ∈ tasks db → Task.id t = Some i → is_Some (Sched.Task_get db (Some i)).
Proof.
  intros Ht Hid. simpl.
  assert (Hin : t ∈ filter (λ t, Task.id t = Some i) (tasks db))
    by by apply list_elem_of_filter.
  destruct (filter _ (tasks db)); [by apply not_elem_of_nil in Hin|].
  simpl. eauto.
Qed.

Lemma Task_get_unique (db : Database) (t : Task) (i : Z) :
  primary_key db → t ∈ tasks db → Task.id t = Some i →
  Sched.Task_get db (Some i) = Some t.
Proof.
  unfold primary_key. simpl. induction (tasks db) as [|t' l IH]; intros Hnd Ht Hid.
  - by apply not_elem_of_nil in Ht.
  - rewrite fmap_cons in Hnd. apply NoDup_cons in Hnd as [Hnotin Hnd].
    rewrite filter_cons. apply elem_of_cons in Ht as [->|Ht].
    + by rewrite decide_True.
    + case_decide as Hid'; [|by apply IH].
      exfalso. apply Hnotin, list_elem_of_fmap. exists t.
      split; [congruence|done].
Qed.

(** ** Properties of the locked policy *)

Section locked_facts.
Context `{Collaborators}.

(** A task that the loop returns is the task of one of its rows. *)
Lemma locked_loop_returns (db : Database) (p : Z) (uid : option Z)
    (offset : Z) (rows : list Sched.locked_row) (skipped skipped' : Z)
    (st st' : LockManager.store) (l : list Task) :
  Sched.locked_loop db p uid offset rows skipped st
    = (Ok (Some l), skipped', st') →
  ∃ row t, row ∈ rows ∧ Sched.Task_get db row.1.1 = Some t ∧ l = [t].
Proof.
  revert skipped st. induction rows as [|[[tid cnt] n] rows IH];
    intros skipped st; simpl; [done|].
  destruct n as [n|]; [|done].
  destruct (Sched.acquire_lock p tid uid (n - cnt) st) as [granted st1].
  assert (Hrest : ∀ k s,
    Sched.locked_loop db p uid offset rows k s = (Ok (Some l), skipped', st') →
    ∃ row t, row ∈ (tid, cnt, Some n) :: rows ∧
             Sched.Task_get db row.1.1 = Some t ∧ l = [t]).
  { intros k s Hloop. destruct (IH _ _ Hloop) as (row & t & ? & ? & ?).
    exists row, t. split; [by right|done]. }
  destruct granted; [|by apply Hrest].
  case_decide; [|by apply Hrest].
  destruct (Sched.Task_get db tid) as [t|] eqn:Hget; [|done].
  intros [= <- <- <-]. exists (tid, cnt, Some n), t.
  split; [by left|done].
Qed.

(** The locked policy reads nothing of the request but the project, the
    user id and the offset. *)
Lemma get_locked_task_reads (db : Database) (st : LockManager.store)
    (p : Z) (uid : option Z) (ip ip' ext ext' : option string)
    (limit limit' offset : Z) (orderby orderby' : string)
    (desc desc' : bool) :
  Sched.get_locked_task db st p uid ip ext limit offset orderby desc =
  Sched.get_locked_task db st p uid ip' ext' limit' offset orderby' desc'.
Proof. reflexivity. Qed.

Lemma get_locked_task_returns (db : Database) (st st' : LockManager.store)
    (p : Z) (uid : option Z) (ip ext : option string) (limit offset : Z)
    (orderby : string) (desc : bool) (l : list Task) :
  Sched.get_locked_task db st p uid ip ext limit offset orderby desc
    = (Ok (Some l), st') →
  ∃ row t, row ∈ Sched.locked_rows db p uid ∧
           Sched.Task_get db row.1.1 = Some t ∧ l = [t].
Proof.
  unfold Sched.get_locked_task. case_decide; [done|].
  destruct (Sched.locked_loop _ _ _ _ _ _ _) as [[r k] st1] eqn:Hloop.
  intros [= -> ->]. by eapply locked_loop_returns.
Qed.

End locked_facts.

(** ** C3: tasks already answered are not handed out again *)

Section exclusion.
Context `{Collaborators}.

(** C3, as the code has it, for the locked policy.  The locked policy
    returns only tasks of the project that are stored, are not completed
    and have no run of the project with the user id of the request; the ip
    and the external uid are not consulted there.  (The candidate selector
    is not part of the statement: its call raises before its query is
    built.) *)
Theorem C3_answered_tasks_excluded (db : Database)
    (st st' : LockManager.store) (p : Z) (uid : option Z)
    (ip ext : option string) (limit offset : Z) (orderby : string)
    (desc : bool) (l : list Task) (t : Task) :
  primary_key db →
  Sched.get_locked_task db st p uid ip ext limit offset orderby desc
    = (Ok (Some l), st') →
  t ∈ l →
  t ∈ tasks db ∧
  Task.project_id t = Some p ∧
  (∃ s, Task.state t = Some s ∧ s ≠ "completed") ∧
  ∀ r, r ∈ task_runs db → TaskRun.project_id r = p →
       is_Some uid → TaskRun.user_id r = uid →
       Task.id t ≠ Some (TaskRun.task_id r).
Proof.
  intros Hkey Hget Ht.
  apply get_locked_task_returns in Hget as (row & t' & Hrow & Hget & ->).
  apply list_elem_of_singleton in Ht as ->.
  apply locked_rows_elem in Hrow
    as (t0 & Ht0 & Hid & _ & Hproj & Hstate & Hruns).
  apply Task_get_elem in Hget as Hget'. destruct Hget' as (Ht' & Hid' & [i Hi]).
  assert (t' = t0) as ->.
  { rewrite Hi in Hget. rewrite Hid in Hi.
    rewrite (Task_get_unique db t0 i Hkey Ht0 Hi) in Hget. congruence. }
  done.
Qed.

End exclusion.

(** At this input the claim as first stated fails: an anonymous requester at
    10.0.0.1 has a run on task 1 of project 1, and the locked policy hands
    task 1 to that requester again. *)
Lemma C3_counterexample :
  let t := Sample.task 1 2 0 in
  let r := Sample.run_by_ip 1 "10.0.0.1" in
  let db := Sample.database [t] [r] "locked_scheduler" true in
  r ∈ task_runs db ∧
  TaskRun.project_id r = 1 ∧
  Some (TaskRun.task_id r) = Task.id t ∧
  TaskRun.user_ip r = Some "10.0.0.1" ∧
  (Sched.get_locked_task (H := Sample.collaborators) db (LockManager.empty 0)
     1 None (Some "10.0.0.1") None 1 0 "priority_0" true).1
    = Ok (Some [t]).
Proof.
  split; [left|]. split; [reflexivity|]. split; [reflexivity|].
  split; [reflexivity|]. vm_compute. reflexivity.
Qed.

(** User 7 has a run on task 1 and is handed task 2. *)
Lemma C3_answered_tasks_excluded_witness :
  let t := Sample.task 2 2 0 in
  let r := Sample.run_by_user 1 7 in
  let db :=
    Sample.database [Sample.task 1 2 0; t] [r] "locked_scheduler" true in
  let st := LockManager.empty 0 in
  let st' :=
    (Sched.acquire_lock (H := Sample.collaborators) 1 (Some 2) (Some 7) 2 st).2 in
  primary_key db ∧
  Sched.get_locked_task (H := Sample.collaborators) db st 1 (Some 7) None
    None 10 0 "id" false = (Ok (Some [t]), st') ∧
  t ∈ [t] ∧
  (t ∈ tasks db ∧
   Task.project_id t = Some 1 ∧
   (∃ s, Task.state t = Some s ∧ s ≠ "completed") ∧
   ∀ r, r ∈ task_runs db → TaskRun.project_id r = 1 →
        is_Some (Some 7) → TaskRun.user_id r = Some 7 →
        Task.id t ≠ Some (TaskRun.task_id r)).
Proof.
  intros t r db st st'.
  assert (Hin : t ∈ [t]) by left.
  assert (Hkey : primary_key db)
    by (unfold primary_key; simpl; repeat constructor; set_solver).
  assert (Hlocked :
    Sched.get_locked_task (H := Sample.collaborators) db st 1 (Some 7) None
      None 10 0 "id" false = (Ok (Some [t]), st'))
    by (vm_compute; reflexivity).
  split; [exact Hkey|]. split; [exact Hlocked|]. split; [exact Hin|].
  exact (C3_answered_tasks_excluded (H := Sample.collaborators) db st st' 1
           (Some 7) None None 10 0 "id" false [t] t Hkey Hlocked Hin).
Defined.

(** ** C4 and C9: which identity channel the exclusion uses *)

Lemma same_channel_same_breadth_first (db : Database) (p : Z)
    (uid uid' : option Z) (ip ip' ext ext' : option string)
    (offset limit : Z) (orderby : string) (desc : bool) :
  Identity.resolve uid' ip' ext' = Identity.resolve uid ip ext →
  Sched.get_breadth_first_task db p uid' ip' ext' offset limit orderby desc =
  Sched.get_breadth_first_task db p uid ip ext offset limit orderby desc.
Proof.
  intros Hch. unfold Sched.get_breadth_first_task.
  by rewrite !subquery_resolve, Hch.
Qed.

Lemma _set_orderby_desc_sortable (q : Sql.query) (orderby : string)
    (desc : bool) :
  sortable orderby → ∃ q', Sched._set_orderby_desc q orderby desc = Ok q'.
Proof.
  unfold Sched._set_orderby_desc. intros [->|[le Hle]].
  - rewrite decide_True by done. destruct desc; eauto.
  - case_decide; [destruct desc; eauto|].
    rewrite Hle. unfold_result. destruct desc; eauto.
Qed.

(** The store answers exactly when the LIMIT and the OFFSET are within its
    integers and not negative. *)
Lemma limit_offset_all_Ok (limit offset : Z) (q : Sql.query)
    (data : list Sql.datum) :
  Sql.limit_offset_all limit offset q = Ok data ↔
  0 ≤ limit ≤ Sql.BIGINT_MAX ∧ 0 ≤ offset ≤ Sql.BIGINT_MAX ∧
  data = take (Z.to_nat limit) (drop (Z.to_nat offset) (Sql.ordered q)).
Proof.
  unfold Sql.limit_offset_all.
  destruct (Z.ltb_spec limit 0), (Z.ltb_spec offset 0),
    (Z.ltb_spec Sql.BIGINT_MAX limit), (Z.ltb_spec Sql.BIGINT_MAX offset);
    simpl; split; try (intros [= <-]); try (intros (? & ? & ->));
    try done; lia.
Qed.

Lemma breadth_first_returned (db : Database) (p : Z) (uid : option Z)
    (ip ext : option string) (offset limit : Z) (orderby : string)
    (desc : bool) :
  0 ≤ limit ≤ Sql.BIGINT_MAX → 0 ≤ offset ≤ Sql.BIGINT_MAX →
  sortable orderby →
  ∃ l, Sched.get_breadth_first_task db p uid ip ext offset limit orderby desc
         = Ok l.
Proof.
  intros Hl Ho Hs. unfold Sched.get_breadth_first_task.
  edestruct _set_orderby_desc_sortable as [q' ->]; [done|]. unfold_result.
  eexists. erewrite (proj2 (limit_offset_all_Ok limit offset q' _)); done.
Qed.

Lemma answered_elem (db : Database) (p : Z) (ch : Identity.channel)
    (i : Z) :
  i ∈ Identity.answered db p ch →
  ∃ r, r ∈ task_runs db ∧ TaskRun.project_id r = p ∧
       Identity.submitted_by ch r ∧ TaskRun.task_id r = i.
Proof.
  destruct ch; simpl;
    unfold Sched.runs_by_user_id, Sched.runs_by_user_ip,
      Sched.runs_by_external_uid;
    intros Hi; apply list_elem_of_fmap in Hi as (r & -> & Hr);
    apply list_elem_of_filter in Hr as [[Hp Hch] Hr];
    unfold Sql.filter_by_eq in Hch; apply bool_decide_eq_true in Hch;
    by exists r.
Qed.

Lemma length_ordered (q : Sql.query) :
  length (Sql.ordered q) = length (Sql.q_rows q).
Proof.
  unfold Sql.ordered. induction (Sql.q_order q) as [|le les IH]; simpl; [done|].
  by rewrite length_sort_by.
Qed.

Lemma _set_orderby_desc_keeps (q q' : Sql.query) (orderby : string)
    (desc : bool) (d0 : Sql.datum) :
  Sched._set_orderby_desc q orderby desc = Ok q' →
  length (Sql.q_rows q') = length (Sql.q_rows q) ∧
  (d0 ∈ Sql.q_rows q →
   ∃ d, d ∈ Sql.q_rows q' ∧ Sql.datum_task d = Sql.datum_task d0).
Proof.
  unfold Sched._set_orderby_desc. case_decide.
  - destruct desc; intros [= <-]; simpl; (split; [by rewrite length_fmap|]);
      intros Hd0; exists (Sql.add_column Sched.n_favs d0);
      (split; [by apply list_elem_of_fmap_2|by destruct d0]).
  - destruct (Sched.Task_attribute orderby) as [le|e]; simpl; [|done].
    destruct desc; intros [= <-]; simpl; eauto.
Qed.

Lemma length_omap_le {A B : Type} (f : A → option B) (l : list A) :
  (length (omap f l) ≤ length l)%nat.
Proof.
  induction l as [|x l IH]; csimpl; [done|]. destruct (f x); simpl; lia.
Qed.

(** A stored task of the project that has a counter, is not completed and
    has no run through the resolved channel is on the page of the
    breadth-first policy, when the page is long enough for every task. *)
Lemma breadth_first_returns_unanswered (db : Database) (p : Z)
    (uid : option Z) (ip ext : option string) (limit : Z)
    (orderby : string) (desc : bool) (t : Task) (i : Z) :
  sortable orderby →
  Z.of_nat (length (tasks db)) ≤ limit ≤ Sql.BIGINT_MAX →
  t ∈ tasks db →
  Task.id t = Some i →
  Task.project_id t = Some p →
  (∃ s, Task.state t = Some s ∧ s ≠ "completed") →
  (∃ c, c ∈ counters db ∧ Counter.task_id c = i) →
  (∀ r, r ∈ task_runs db → TaskRun.project_id r = p →
        Identity.submitted_by (Identity.resolve uid ip ext) r →
        TaskRun.task_id r ≠ i) →
  ∃ l, Sched.get_breadth_first_task db p uid ip ext 0 limit orderby desc
         = Ok l ∧
       t ∈ l.
Proof.
  intros Hs Hlimit Ht Hid Hproj (s & Hstate & Hs') (c & Hc & Hci) Hruns.
  unfold Sched.get_breadth_first_task. rewrite subquery_resolve.
  set (sub := Identity.answered db p (Identity.resolve uid ip ext)).
  set (tmp := remove_dups _).
  set (q := {| Sql.q_rows := _; Sql.q_order := _ |}).
  assert (Htmp : Some i ∈ tmp).
  { apply elem_of_remove_dups, list_elem_of_filter. split.
    - intros Hin. apply list_elem_of_fmap in Hin as (j & [= <-] & Hj).
      apply answered_elem in Hj as (r & ? & ? & ? & ?). by eapply Hruns.
    - apply list_elem_of_fmap. exists t. split; [done|].
      apply list_elem_of_filter. split; [|done].
      rewrite Hproj, Hstate. simpl. split; by apply bool_decide_eq_true. }
  assert (Hrow : ∃ d, d ∈ Sql.q_rows q ∧ Sql.datum_task d = t).
  { simpl.
    destruct (filter (λ c, Sql.eq (Task.id t) (Some (Counter.task_id c)) = true ∧
                           Some (Counter.task_id c) ∈ tmp) (counters db))
      as [|c0 cs] eqn:Hcs.
    - exfalso. apply (not_elem_of_nil c). rewrite <-Hcs.
      apply list_elem_of_filter. split; [|done]. rewrite Hid, Hci. simpl.
      split; [by apply bool_decide_eq_true|done].
    - exists (Sql.Tuple t [foldr Z.add 0 (Counter.n_task_runs <$> c0 :: cs)]).
      split; [|reflexivity].
      apply list_elem_of_omap. exists t. split; [done|]. simpl.
      by rewrite Hcs. }
  destruct Hrow as (d0 & Hd0 & Hdt0).
  destruct (_set_orderby_desc_sortable q orderby desc Hs) as [q' Hq'].
  rewrite Hq'. unfold_result.
  destruct (_set_orderby_desc_keeps q q' orderby desc d0 Hq')
    as [Hlen' Hkeep].
  destruct (Hkeep Hd0) as (d & Hd & Hdt).
  erewrite (proj2 (limit_offset_all_Ok limit 0 q' _));
    [|split; [lia|split; [by vm_compute|reflexivity]]].
  eexists. split; [done|].
  change (Z.to_nat 0) with 0%nat.
  rewrite drop_0, take_ge
    by (rewrite length_ordered, Hlen'; etrans; [apply length_omap_le|lia]).
  unfold Sched._handle_tuples. apply list_elem_of_fmap.
  exists d. split; [congruence|]. by apply elem_of_ordered.
Qed.

(** C4, as the code has it, in the breadth-first policy.  The user id is
    the exclusion channel only when it is set and neither an ip nor an
    external uid is supplied.  A supplied external uid takes priority over
    both other fields, and a supplied ip over the user id.  The
    breadth-first policy depends on the identity triple through the
    resolved channel only; what it returns has no run of the project
    through that channel; and a stored task of the project that has a
    counter, is not completed and has runs through other channels only is
    on its page. *)
Theorem C4_channel_precedence (db : Database) (p : Z) (uid : option Z)
    (ip ext : option string) (limit offset : Z) (orderby : string)
    (desc : bool) :
  let ch := Identity.resolve uid ip ext in
  (truthy_str ext = true → ∃ e, ext = Some e ∧ ch = Identity.ByExternalUid e) ∧
  (truthy_str ext = false → truthy_str ip = true →
     ∃ i, ip = Some i ∧ ch = Identity.ByUserIp i) ∧
  (truthy_str ext = false → truthy_str ip = false → truthy_int uid = true →
     ∃ u, uid = Some u ∧ ch = Identity.ByUserId u) ∧
  (∀ uid' ip' ext',
     Identity.resolve uid' ip' ext' = ch →
     Sched.get_breadth_first_task db p uid' ip' ext' offset limit orderby desc =
       Sched.get_breadth_first_task db p uid ip ext offset limit orderby desc) ∧
  (∀ l t,
     Sched.get_breadth_first_task db p uid ip ext offset limit orderby desc
       = Ok l →
     t ∈ l →
     ∀ r, r ∈ task_runs db → TaskRun.project_id r = p →
          Identity.submitted_by ch r → Task.id t ≠ Some (TaskRun.task_id r)) ∧
  (∀ t i,
     sortable orderby →
     Z.of_nat (length (tasks db)) ≤ limit ≤ Sql.BIGINT_MAX →
     t ∈ tasks db →
     Task.id t = Some i →
     Task.project_id t = Some p →
     (∃ s, Task.state t = Some s ∧ s ≠ "completed") →
     (∃ c, c ∈ counters db ∧ Counter.task_id c = i) →
     (∀ r, r ∈ task_runs db → TaskRun.project_id r = p →
           Identity.submitted_by ch r → TaskRun.task_id r ≠ i) →
     ∃ l, Sched.get_breadth_first_task db p uid ip ext 0 limit orderby desc
            = Ok l ∧
          t ∈ l).
Proof.
  intros ch. subst ch.
  split; [|split; [|split; [|split; [|split]]]];
    [| | | | |by apply breadth_first_returns_unanswered].
  all: unfold Identity.resolve, Identity.nonempty, Identity.nonzero,
         truthy_str, truthy_int.
  - destruct ext as [e|]; [|done]. destruct (String.eqb e ""); [done|]. eauto.
  - intros He Hi. destruct ip as [i|]; [|done].
    destruct (String.eqb i ""); [done|].
    destruct ext as [e|]; [destruct (String.eqb e ""); [|done]|]; eauto.
  - intros He Hi Hu. destruct uid as [u|]; [|done].
    destruct (u =? 0); [done|].
    destruct ext as [e|]; [destruct (String.eqb e ""); [|done]|];
      (destruct ip as [i|]; [destruct (String.eqb i ""); [|done]|]); eauto.
  - intros uid' ip' ext' Hch. by apply same_channel_same_breadth_first.
  - intros l t. apply breadth_first_excludes.
Qed.

(** At this input the claim as first stated fails: the user id 7 is set, an
    external uid comes with it, user 7 has a run on task 1, and the
    breadth-first policy returns task 1 all the same. *)
Lemma C4_counterexample :
  let t := Sample.task 1 2 0 in
  let r := Sample.run_by_user 1 7 in
  let db := Sample.database [t] [r] "breadth_first" true in
  r ∈ task_runs db ∧
  TaskRun.project_id r = 1 ∧
  TaskRun.user_id r = Some 7 ∧
  Some (TaskRun.task_id r) = Task.id t ∧
  Sched.get_breadth_first_task db 1 (Some 7) None (Some "ext-1") 0 1
    "id" false = Ok [t].
Proof.
  split; [left|]. split; [reflexivity|]. split; [reflexivity|].
  split; [reflexivity|]. vm_compute. reflexivity.
Qed.

(** User 7 at 10.0.0.1: the ip is the channel.  Task 1 has a run from that
    address and is left out; task 2 has a run of user 7 and is returned. *)
Lemma C4_channel_precedence_witness :
  let t := Sample.task 2 2 0 in
  let r := Sample.run_by_ip 1 "10.0.0.1" in
  let db :=
    Sample.database [Sample.task 1 2 0; t] [r; Sample.run_by_user 2 7]
      "breadth_first" true in
  truthy_str None = false ∧
  truthy_str (Some "10.0.0.1") = true ∧
  (∃ i, Some "10.0.0.1" = Some i ∧
        Identity.resolve (Some 7) (Some "10.0.0.1") None = Identity.ByUserIp i) ∧
  Identity.resolve None (Some "10.0.0.1") None =
    Identity.resolve (Some 7) (Some "10.0.0.1") None ∧
  Sched.get_breadth_first_task db 1 None (Some "10.0.0.1") None 0 10
    "id" false =
  Sched.get_breadth_first_task db 1 (Some 7) (Some "10.0.0.1") None 0 10
    "id" false ∧
  Sched.get_breadth_first_task db 1 (Some 7) (Some "10.0.0.1") None 0 10
    "id" false = Ok [t] ∧
  t ∈ [t] ∧
  (∀ r, r ∈ task_runs db → TaskRun.project_id r = 1 →
        Identity.submitted_by
          (Identity.resolve (Some 7) (Some "10.0.0.1") None) r →
        Task.id t ≠ Some (TaskRun.task_id r)) ∧
  sortable "id" ∧
  Z.of_nat (length (tasks db)) ≤ 10 ≤ Sql.BIGINT_MAX ∧
  (∃ l, Sched.get_breadth_first_task db 1 (Some 7) (Some "10.0.0.1") None
          0 10 "id" false = Ok l ∧
        t ∈ l).
Proof.
  intros t r db.
  pose proof (C4_channel_precedence db 1 (Some 7) (Some "10.0.0.1") None
                10 0 "id" false) as (_ & Hip & _ & Hsame & Hexcl & Hret).
  assert (He : truthy_str None = false) by reflexivity.
  assert (Hi : truthy_str (Some "10.0.0.1") = true) by reflexivity.
  assert (Hch : Identity.resolve None (Some "10.0.0.1") None =
                Identity.resolve (Some 7) (Some "10.0.0.1") None)
    by reflexivity.
  assert (Hres : Sched.get_breadth_first_task db 1 (Some 7)
                   (Some "10.0.0.1") None 0 10 "id" false = Ok [t])
    by (vm_compute; reflexivity).
  assert (Hin : t ∈ [t]) by left.
  assert (Hs : sortable "id") by (right; eexists; reflexivity).
  assert (Hlimit : Z.of_nat (length (tasks db)) ≤ 10 ≤ Sql.BIGINT_MAX)
    by (vm_compute; split; discriminate).
  assert (Hstored : t ∈ tasks db) by (right; left).
  assert (Hstate : ∃ s, Task.state t = Some s ∧ s ≠ "completed")
    by (eexists; split; [reflexivity|discriminate]).
  assert (Hcounter : ∃ c, c ∈ counters db ∧ Counter.task_id c = 2)
    by (eexists; split; [right; left|reflexivity]).
  assert (Hruns : ∀ r0, r0 ∈ task_runs db → TaskRun.project_id r0 = 1 →
            Identity.submitted_by
              (Identity.resolve (Some 7) (Some "10.0.0.1") None) r0 →
            TaskRun.task_id r0 ≠ 2).
  { intros r0 Hr0 _ Hsub.
    apply elem_of_cons in Hr0 as [->|Hr0]; [discriminate|].
    apply list_elem_of_singleton in Hr0 as ->. discriminate Hsub. }
  split; [exact He|]. split; [exact Hi|]. split; [exact (Hip He Hi)|].
  split; [exact Hch|]. split; [exact (Hsame _ _ _ Hch)|].
  split; [exact Hres|]. split; [exact Hin|].
  split; [exact (Hexcl [t] t Hres Hin)|].
  split; [exact Hs|]. split; [exact Hlimit|].
  exact (Hret t 2 Hs Hlimit Hstored eq_refl eq_refl Hstate Hcounter Hruns).
Defined.

(** C9, on the code.  With an identity that is completely empty the
    candidate selector fails: it raises [NameError], as it does for every
    identity.  The breadth-first policy, which picks its subquery by the
    same guard, does what the claim says: it answers as for a requester at
    127.0.0.1, what it returns has no run of the project from that address,
    a task with a counter and without such a run is on its page, and it
    raises nothing on account of the empty identity. *)
Theorem C9_empty_identity_fails_in_selector (db : Database) (p : Z)
    (limit offset : Z) (orderby : string) (desc : bool) :
  Sched.get_candidate_task_ids db p None None None limit offset orderby desc
    = Raise NameError ∧
  Identity.resolve None None None = Identity.ByUserIp "127.0.0.1" ∧
  Sched.get_breadth_first_task db p None None None offset limit orderby desc =
    Sched.get_breadth_first_task db p None (Some "127.0.0.1") None
      offset limit orderby desc ∧
  (∀ l t,
     Sched.get_breadth_first_task db p None None None offset limit orderby desc
       = Ok l →
     t ∈ l →
     ∀ r, r ∈ task_runs db → TaskRun.project_id r = p →
          TaskRun.user_ip r = Some "127.0.0.1" →
          Task.id t ≠ Some (TaskRun.task_id r)) ∧
  (∀ t i,
     sortable orderby →
     Z.of_nat (length (tasks db)) ≤ limit ≤ Sql.BIGINT_MAX →
     t ∈ tasks db →
     Task.id t = Some i →
     Task.project_id t = Some p →
     (∃ s, Task.state t = Some s ∧ s ≠ "completed") →
     (∃ c, c ∈ counters db ∧ Counter.task_id c = i) →
     (∀ r, r ∈ task_runs db → TaskRun.project_id r = p →
           TaskRun.user_ip r = Some "127.0.0.1" → TaskRun.task_id r ≠ i) →
     ∃ l, Sched.get_breadth_first_task db p None None None 0 limit orderby desc
            = Ok l ∧
          t ∈ l) ∧
  (0 ≤ limit ≤ Sql.BIGINT_MAX → 0 ≤ offset ≤ Sql.BIGINT_MAX →
   sortable orderby →
   ∃ l, Sched.get_breadth_first_task db p None None None
          offset limit orderby desc = Ok l).
Proof.
  split; [apply get_candidate_task_ids_raises|].
  split; [reflexivity|]. split; [reflexivity|].
  split; [|split].
  - intros l t Hsel Ht r Hr Hp Hip.
    by eapply (breadth_first_excludes db p None None None).
  - intros t i Hs Hlimit Ht Hid Hproj Hstate Hcounter Hruns.
    by eapply (breadth_first_returns_unanswered db p None None None).
  - intros Hl Ho Hs. by apply breadth_first_returned.
Qed.

(** Tasks 1 and 2, a run on task 1 from 127.0.0.1: the selector raises,
    the breadth-first policy returns task 2 alone. *)
Lemma C9_empty_identity_fails_in_selector_witness :
  let t := Sample.task 2 2 0 in
  let r := Sample.run_by_ip 1 "127.0.0.1" in
  let db := Sample.database [Sample.task 1 2 0; t] [r] "breadth_first" true in
  Sched.get_candidate_task_ids db 1 None None None 10 0 "id" false
    = Raise NameError ∧
  Sched.get_breadth_first_task db 1 None None None 0 10 "id" false = Ok [t] ∧
  t ∈ [t] ∧
  (∀ r, r ∈ task_runs db → TaskRun.project_id r = 1 →
        TaskRun.user_ip r = Some "127.0.0.1" →
        Task.id t ≠ Some (TaskRun.task_id r)) ∧
  0 ≤ 10 ≤ Sql.BIGINT_MAX ∧ 0 ≤ 0 ≤ Sql.BIGINT_MAX ∧ sortable "id" ∧
  (∃ l, Sched.get_breadth_first_task db 1 None None None 0 10 "id" false
          = Ok l).
Proof.
  intros t r db.
  pose proof (C9_empty_identity_fails_in_selector db 1 10 0 "id" false)
    as (Hraise & _ & _ & Hexcl & _ & Hok).
  assert (Hres : Sched.get_breadth_first_task db 1 None None None 0 10
                   "id" false = Ok [t]) by (vm_compute; reflexivity).
  assert (Hin : t ∈ [t]) by left.
  assert (Hl : 0 ≤ 10 ≤ Sql.BIGINT_MAX) by (vm_compute; split; discriminate).
  assert (Ho : 0 ≤ 0 ≤ Sql.BIGINT_MAX) by (vm_compute; split; discriminate).
  assert (Hs : sortable "id") by (right; eexists; reflexivity).
  split; [exact Hraise|]. split; [exact Hres|]. split; [exact Hin|].
  split; [exact (Hexcl [t] t Hres Hin)|].
  split; [exact Hl|]. split; [exact Ho|]. split; [exact Hs|].
  exact (Hok Hl Ho Hs).
Defined.

(** ** C6: the offset cap of the locked policy *)

(** C6.  With an offset above 2 the locked policy raises [BadRequest]
    whatever the relational store holds, and leaves the fast store as it
    was: nothing is queried and no lock is tried.  The same holds through
    the dispatcher for every policy name that maps to the locked policy. *)
Theorem C6_offset_above_two_rejected `{Collaborators} (entropy : nat)
    (db : Database) (st : LockManager.store) (p : Z) (sched : option json)
    (uid : option Z) (ip ext : option string) (limit offset : Z)
    (orderby : string) (desc : bool) :
  offset > 2 →
  Sched.get_locked_task db st p uid ip ext limit offset orderby desc
    = (Raise BadRequest, st) ∧
  (Sched.sched_map_get sched = Ok Sched.locked →
   Sched.new_task entropy db st p sched uid ip ext offset limit orderby desc
     = (Raise BadRequest, st)).
Proof.
  intros Hoffset.
  assert (Hlocked :
    Sched.get_locked_task db st p uid ip ext limit offset orderby desc
      = (Raise BadRequest, st)).
  { unfold Sched.get_locked_task. by rewrite decide_True. }
  split; [done|]. intros Hsched. unfold Sched.new_task. by rewrite Hsched.
Qed.

Lemma C6_offset_above_two_rejected_witness :
  let db :=
    Sample.database [Sample.task 1 2 0; Sample.task 2 2 0] []
      "locked_scheduler" true in
  let st := LockManager.empty 0 in
  3 > 2 ∧
  Sched.get_locked_task (H := Sample.collaborators) db st 1 (Some 7) None
    None 1 3 "priority_0" true = (Raise BadRequest, st) ∧
  (Sched.sched_map_get (Some (JStr "locked_scheduler")) = Ok Sched.locked →
   Sched.new_task (H := Sample.collaborators) 0 db st 1
     (Some (JStr "locked_scheduler")) (Some 7) None None 3 1
     "priority_0" true = (Raise BadRequest, st)).
Proof.
  intros db st.
  assert (Hoffset : 3 > 2) by lia.
  split; [exact Hoffset|].
  exact (C6_offset_above_two_rejected (H := Sample.collaborators) 0 db st 1
           (Some (JStr "locked_scheduler")) (Some 7) None None 1 3
           "priority_0" true Hoffset).
Defined.

(** ** C7 and C8: the new-task endpoint *)

Section endpoint.
Context `{Collaborators}.

(** The encoding of a list of tasks in the body of the response. *)
Lemma new_task_encodes (entropy : nat) (db : Database)
    (st st' : LockManager.store) (req : Api.Request) (p : Z)
    (r : option (list Task)) :
  Api._retrieve_new_task entropy db st req p = (Ok (Api.Tasks r), st') →
  Api.new_task entropy db st req p =
    (Api.json_response
       match r with
       | None | Some [] => JObj []
       | Some [t] => JObj (dictize t)
       | Some ts => JArr (JObj <$> (dictize <$> ts))
       end,
     st').
Proof.
  intros Hget. unfold Api.new_task. rewrite Hget.
  by destruct r as [[|t [|t' ts]]|].
Qed.

(** C7.  When the retrieval yields tasks (or [None]), the body of the
    response is the empty object for no task, the object of the task for
    exactly one task (not an array of one), and the array of the objects of
    the tasks for more than one. *)
Theorem C7_response_encoding (entropy : nat) (db : Database)
    (st st' : LockManager.store) (req : Api.Request) (p : Z)
    (r : option (list Task)) :
  Api._retrieve_new_task entropy db st req p = (Ok (Api.Tasks r), st') →
  Api.new_task entropy db st req p =
    (Api.json_response
       match r with
       | None | Some [] => JObj []
       | Some [t] => JObj (dictize t)
       | Some ts => JArr (JObj <$> (dictize <$> ts))
       end,
     st').
Proof. apply new_task_encodes. Qed.

(** C8.  For a project that does not allow anonymous contributors and an
    anonymous requester, the retrieval raises nothing: it returns, as its
    list of tasks, one transient task whose payload is the dictionary with
    the message under ["error"]; the endpoint answers with the object of
    that task, and the fast store is untouched. *)
Theorem C8_anonymous_restriction_is_a_task (entropy : nat) (db : Database)
    (st : LockManager.store) (req : Api.Request) (p : Z)
    (project : Project) :
  Sched.project_repo_get db p = Some project →
  Project.allow_anonymous_contributors project = false →
  Api.is_anonymous req = true →
  let notice :=
    Task.new
      (JObj [("error",
              JStr "This project does not allow anonymous contributors")]) in
  Api._retrieve_new_task entropy db st req p
    = (Ok (Api.Tasks (Some [notice])), st) ∧
  Api.new_task entropy db st req p
    = (Api.json_response (JObj (dictize notice)), st).
Proof.
  intros Hproject Hdisallow Hanon notice.
  assert (Hget : Api._retrieve_new_task entropy db st req p
                   = (Ok (Api.Tasks (Some [notice])), st)).
  { unfold Api._retrieve_new_task. by rewrite Hproject, Hdisallow, Hanon. }
  split; [done|]. by rewrite (new_task_encodes _ _ _ _ _ _ _ Hget).
Qed.

End endpoint.

(** Three tasks under the breadth-first policy and a limit of three: the
    array of the three objects. *)
Lemma C7_response_encoding_witness :
  let ts := [Sample.task 1 2 0; Sample.task 2 2 0; Sample.task 3 2 0] in
  let db := Sample.database ts [] "breadth_first" true in
  let st := LockManager.empty 0 in
  let req := Sample.request false 7 "10.0.0.1" [("limit", "3")] in
  Api._retrieve_new_task (H := Sample.collaborators) 0 db st req 1
    = (Ok (Api.Tasks (Some ts)), st) ∧
  Api.new_task (H := Sample.collaborators) 0 db st req 1
    = (Api.json_response
         (JArr (JObj <$> (dictize (Collaborators := Sample.collaborators) <$> ts))),
       st).
Proof.
  intros ts db st req.
  assert (Hget : Api._retrieve_new_task (H := Sample.collaborators) 0 db st
                   req 1 = (Ok (Api.Tasks (Some ts)), st))
    by (vm_compute; reflexivity).
  split; [exact Hget|].
  exact (C7_response_encoding (H := Sample.collaborators) 0 db st st req 1
           (Some ts) Hget).
Defined.

(** No task available: the empty object. *)
Example new_task_none_available :
  let db := Sample.database [] [] "breadth_first" true in
  let st := LockManager.empty 0 in
  let req := Sample.request false 7 "10.0.0.1" [] in
  (Api.new_task (H := Sample.collaborators) 0 db st req 1).1
    = Api.json_response (JObj []).
Proof. vm_compute. reflexivity. Qed.

(** One candidate and the default limit of one: a single object. *)
Example new_task_single :
  let t := Sample.task 1 2 0 in
  let db := Sample.database [t] [] "breadth_first" true in
  let st := LockManager.empty 0 in
  let req := Sample.request false 7 "10.0.0.1" [("limit", "1")] in
  (Api.new_task (H := Sample.collaborators) 0 db st req 1).1
    = Api.json_response
        (JObj (dictize (Collaborators := Sample.collaborators) t)).
Proof. vm_compute. reflexivity. Qed.

Lemma C8_anonymous_restriction_is_a_task_witness :
  let db := Sample.database [Sample.task 1 2 0] [] "locked_scheduler" false in
  let st := LockManager.empty 0 in
  let req := Sample.request true 0 "10.0.0.1" [] in
  let project := Sample.project "locked_scheduler" false in
  let notice :=
    Task.new
      (JObj [("error",
              JStr "This project does not allow anonymous contributors")]) in
  Sched.project_repo_get db 1 = Some project ∧
  Project.allow_anonymous_contributors project = false ∧
  Api.is_anonymous req = true ∧
  Api._retrieve_new_task (H := Sample.collaborators) 0 db st req 1
    = (Ok (Api.Tasks (Some [notice])), st) ∧
  Api.new_task (H := Sample.collaborators) 0 db st req 1
    = (Api.json_response
         (JObj (dictize (Collaborators := Sample.collaborators) notice)), st).
Proof.
  intros db st req project notice.
  assert (Hp : Sched.project_repo_get db 1 = Some project) by reflexivity.
  assert (Ha : Project.allow_anonymous_contributors project = false)
    by reflexivity.
  assert (Hr : Api.is_anonymous req = true) by reflexivity.
  split; [exact Hp|]. split; [exact Ha|]. split; [exact Hr|].
  exact (C8_anonymous_restriction_is_a_task (H := Sample.collaborators)
           0 db st req 1 project Hp Ha Hr).
Defined.

(** ** C2: what the offset of the locked policy counts *)

Section locked_offset.
Context `{Collaborators}.

Lemma granted_rows_cons (p : Z) (uid : option Z) (tid : option Z)
    (cnt n : Z) (rows : list Sched.locked_row) (st : LockManager.store) :
  granted_rows p uid ((tid, cnt, Some n) :: rows) st =
    let '(granted, st') := Sched.acquire_lock p tid uid (n - cnt) st in
    if granted then (tid, cnt, Some n) :: granted_rows p uid rows st'
    else granted_rows p uid rows st'.
Proof. reflexivity. Qed.

(** The loop passes over granted locks until as many as the offset are
    behind it: it returns the task of the granted row that comes next, with
    the tally at the offset, or runs out of rows with the tally at the
    number of locks granted. *)
Lemma locked_loop_counts_grants (db : Database) (p : Z) (uid : option Z)
    (offset : Z) (rows : list Sched.locked_row) (skipped : Z)
    (st : LockManager.store) :
  Forall (λ row : Sched.locked_row,
            is_Some row.2 ∧ is_Some (Sched.Task_get db row.1.1)) rows →
  0 ≤ skipped ≤ offset →
  match granted_rows p uid rows st !! Z.to_nat (offset - skipped) with
  | Some row =>
      ∃ task st',
        Sched.Task_get db row.1.1 = Some task ∧
        Sched.locked_loop db p uid offset rows skipped st
          = (Ok (Some [task]), offset, st')
  | None =>
      ∃ st',
        Sched.locked_loop db p uid offset rows skipped st
          = (Ok None,
             skipped + Z.of_nat (length (granted_rows p uid rows st)), st')
  end.
Proof.
  revert skipped st.
  induction rows as [|[[tid cnt] n] rows IH]; intros skipped st Hrows Hskipped.
  - simpl. exists st. by rewrite Z.add_0_r.
  - apply Forall_cons in Hrows as [[Hn Htask] Hrows]. simpl in Hn, Htask.
    destruct Hn as [q ->]. destruct Htask as [task Htask].
    rewrite granted_rows_cons. simpl Sched.locked_loop.
    destruct (Sched.acquire_lock p tid uid (q - cnt) st) as [[|] st1].
    + destruct (decide (skipped = offset)) as [->|Hne].
      * rewrite Z.sub_diag. simpl. rewrite Htask. eauto.
      * replace (Z.to_nat (offset - skipped))
          with (S (Z.to_nat (offset - (skipped + 1)))) by lia.
        simpl lookup. specialize (IH (skipped + 1) st1 Hrows ltac:(lia)).
        destruct (granted_rows p uid rows st1 !! _) as [row|]; [done|].
        destruct IH as [st' ->]. exists st'. f_equal. f_equal.
        rewrite length_cons. lia.
    + by apply IH.
Qed.

Lemma locked_rows_stored (db : Database) (p : Z) (uid : option Z) :
  stored db →
  Forall (λ row : Sched.locked_row,
            is_Some row.2 ∧ is_Some (Sched.Task_get db row.1.1))
         (Sched.locked_rows db p uid).
Proof.
  intros Hstored. apply Forall_forall. intros row Hrow.
  apply locked_rows_elem in Hrow as (t & Ht & -> & -> & _).
  unfold stored in Hstored. rewrite Forall_forall in Hstored.
  destruct (Hstored t Ht) as [[i Hi] Hn]. split; [done|].
  rewrite Hi. by eapply Task_get_stored.
Qed.

(** C2, as the code has it.  For an offset of 0, 1 or 2 the tally [skipped]
    counts the locks granted in this call and passed over: a granted lock
    either ends the call or raises the tally by one, a refused lock leaves
    it as it is.  The policy returns the single task of the row that comes
    after [offset] granted ones, with the tally at [offset]; when fewer
    rows than that are granted it answers [None], which is no error, with
    the tally at their number. *)
Theorem C2_offset_skips_granted_locks (db : Database)
    (st : LockManager.store) (p : Z) (uid : option Z)
    (ip ext : option string) (limit offset : Z) (orderby : string)
    (desc : bool) :
  stored db →
  0 ≤ offset ≤ 2 →
  let rows := Sched.locked_rows db p uid in
  let granted := granted_rows p uid rows st in
  match granted !! Z.to_nat offset with
  | Some row =>
      ∃ task st',
        Sched.Task_get db row.1.1 = Some task ∧
        Sched.locked_loop db p uid offset rows 0 st
          = (Ok (Some [task]), offset, st') ∧
        Sched.get_locked_task db st p uid ip ext limit offset orderby desc
          = (Ok (Some [task]), st')
  | None =>
      ∃ st',
        Sched.locked_loop db p uid offset rows 0 st
          = (Ok None, Z.of_nat (length granted), st') ∧
        Sched.get_locked_task db st p uid ip ext limit offset orderby desc
          = (Ok None, st')
  end.
Proof.
  intros Hstored Hoffset rows granted.
  pose proof (locked_loop_counts_grants db p uid offset rows 0 st
                (locked_rows_stored db p uid Hstored) ltac:(lia)) as Hloop.
  rewrite Z.sub_0_r in Hloop. fold granted in Hloop.
  unfold Sched.get_locked_task. rewrite decide_False by lia. fold rows.
  destruct (granted !! Z.to_nat offset) as [row|].
  - destruct Hloop as (task & st' & Htask & ->). eauto.
  - destruct Hloop as (st' & ->). rewrite Z.add_0_l. eauto.
Qed.

End locked_offset.

(** At these inputs the claim as first stated fails.  Tasks 1 and 2 of
    project 1 each need one answer.  First, user 8 holds the lock of task 1
    and user 7 asks with offset 0: the attempt on task 1 is refused for lack
    of quota, yet the tally stays at 0 and task 2 is returned.  Second,
    nobody holds a lock and user 7 asks with offset 1: no attempt is
    refused, yet the tally reaches 1 and task 2 is returned. *)
Lemma C2_counterexample :
  let t1 := Sample.task 1 1 0 in
  let t2 := Sample.task 2 1 0 in
  let db := Sample.database [t1; t2] [] "locked_scheduler" true in
  let rows := [(Some 1, 0, Some 1); (Some 2, 0, Some 1)] in
  let st0 := LockManager.empty 0 in
  let st8 :=
    (Sched.acquire_lock (H := Sample.collaborators) 1 (Some 1) (Some 8) 1 st0).2 in
  Sched.locked_rows db 1 (Some 7) = rows ∧
  (Sched.acquire_lock (H := Sample.collaborators) 1 (Some 1) (Some 7) (1 - 0)
     st8).1 = false ∧
  (Sched.locked_loop (H := Sample.collaborators) db 1 (Some 7) 0 rows 0
     st8).1 = (Ok (Some [t2]), 0) ∧
  (Sched.acquire_lock (H := Sample.collaborators) 1 (Some 1) (Some 7) (1 - 0)
     st0).1 = true ∧
  (Sched.locked_loop (H := Sample.collaborators) db 1 (Some 7) 1 rows 0
     st0).1 = (Ok (Some [t2]), 1).
Proof.
  repeat split; vm_compute; reflexivity.
Qed.

Lemma C2_offset_skips_granted_locks_witness :
  let t1 := Sample.task 1 1 0 in
  let t2 := Sample.task 2 1 0 in
  let db := Sample.database [t1; t2] [] "locked_scheduler" true in
  let st := LockManager.empty 0 in
  let rows := Sched.locked_rows db 1 (Some 7) in
  let granted := granted_rows (H := Sample.collaborators) 1 (Some 7) rows st in
  stored db ∧ 0 ≤ 1 ≤ 2 ∧
  granted !! Z.to_nat 1 = Some (Some 2, 0, Some 1) ∧
  ∃ task st',
    Sched.Task_get db (Some 2) = Some task ∧
    Sched.locked_loop (H := Sample.collaborators) db 1 (Some 7) 1 rows 0 st
      = (Ok (Some [task]), 1, st') ∧
    Sched.get_locked_task (H := Sample.collaborators) db st 1 (Some 7) None
      None 1 1 "priority_0" true = (Ok (Some [task]), st').
Proof.
  intros t1 t2 db st rows granted.
  assert (Hstored : stored db) by (repeat constructor; simpl; eauto).
  assert (Hoffset : 0 ≤ 1 ≤ 2) by lia.
  assert (Hrow : granted !! Z.to_nat 1 = Some (Some 2, 0, Some 1))
    by (vm_compute; reflexivity).
  split; [exact Hstored|]. split; [exact Hoffset|]. split; [exact Hrow|].
  pose proof (C2_offset_skips_granted_locks (H := Sample.collaborators)
                db st 1 (Some 7) None None 1 1 "priority_0" true
                Hstored Hoffset) as Hthm.
  cbv zeta in Hthm. unfold granted, rows in Hrow. rewrite Hrow in Hthm.
  exact Hthm.
Defined.

(** ** C10: the locked policy knows the requester by the user id alone *)

Lemma acquire_granted_holds (duration : Z) (key : string)
    (who : LockManager.identity) (limit : Z) (st st' : LockManager.store) :
  LockManager.acquire_lock duration key who limit st = (true, st') →
  0 < duration →
  LockManager.has_lock key who st' = true.
Proof.
  unfold LockManager.acquire_lock. intros Hacq Hduration.
  assert (st' = LockManager.set_lease key who
                  (LockManager.clock st + duration) st) as ->.
  { repeat case_decide; congruence. }
  unfold LockManager.has_lock. apply bool_decide_eq_true.
  exists (LockManager.clock st + duration).
  unfold LockManager.live_holders, LockManager.live.
  rewrite holders_set_lease, decide_True by done.
  apply map_lookup_filter_Some_2; [by rewrite lookup_insert_eq|].
  simpl. lia.
Qed.


Lemma released_not_held (key : string) (who : LockManager.identity)
    (st : LockManager.store) :
  LockManager.has_lock key who (LockManager.release_lock key who st) = false.
Proof.
  unfold LockManager.has_lock. apply bool_decide_eq_false.
  unfold LockManager.live_holders, LockManager.live.
  rewrite holders_release, decide_True by done. simpl.
  rewrite map_filter_delete, lookup_delete_eq. by intros [? ?].
Qed.

Section locked_identity.
Context `{Collaborators}.

Lemma locked_loop_returns_holding (db : Database) (p : Z) (uid : option Z)
    (offset : Z) (rows : list Sched.locked_row) (skipped skipped' : Z)
    (st st' : LockManager.store) (l : list Task) :
  0 < Sched.TIMEOUT →
  Sched.locked_loop db p uid offset rows skipped st
    = (Ok (Some l), skipped', st') →
  ∃ t, l = [t] ∧ Sched.has_lock p (Task.id t) uid st' = true.
Proof.
  intros Httl. revert skipped st.
  induction rows as [|[[tid cnt] n] rows IH]; intros skipped st; simpl;
    [done|].
  destruct n as [n|]; [|done].
  destruct (Sched.acquire_lock p tid uid (n - cnt) st) as [granted st1] eqn:Hacq.
  destruct granted; [|by apply IH].
  case_decide; [|by apply IH].
  destruct (Sched.Task_get db tid) as [t|] eqn:Hget; [|done].
  intros [= <- <- <-]. exists t. split; [done|].
  apply Task_get_elem in Hget as (_ & -> & _).
  by eapply acquire_granted_holds.
Qed.




End locked_identity.


(** ** C5: the incremental policy *)

(** C5, on the code.  The incremental policy fails before it draws: its
    first statement calls the candidate selector, which raises [NameError].
    So it neither answers [None] for an empty candidate set nor hands out
    one task otherwise: at project 1 with the ongoing tasks 1 and 2, no
    run, user 7, offset 0 and limit 1, where both tasks are open to the
    user, and at every other input. *)
Theorem C5_incremental_raises_name_error :
  let db :=
    Sample.database [Sample.task 1 2 5; Sample.task 2 2 1] [] "incremental"
      true in
  (∀ entropy,
     Sched.get_incremental_task entropy db 1 (Some 7) None None 0 1
       "id" false = Raise NameError) ∧
  (∀ entropy db p uid ip ext offset limit orderby desc,
     Sched.get_incremental_task entropy db p uid ip ext offset limit
       orderby desc = Raise NameError).
Proof.
  split; intros; apply get_incremental_task_raises.
Qed.

(** ** Further properties of the queries *)

Section sort_facts.
Import Sql.
Context {A : Type}.
Implicit Types (le : A → A → bool) (l : list A).

Lemma insert_by_Permutation le x l : insert_by le x l ≡ₚ x :: l.
Proof.
  induction l as [|y l IH]; simpl; [done|].
  destruct (le x y); [done|]. rewrite IH. apply Permutation_swap.
Qed.

Lemma sort_by_Permutation le l : sort_by le l ≡ₚ l.
Proof.
  induction l as [|y l IH]; simpl; [done|].
  by rewrite insert_by_Permutation, IH.
Qed.

Lemma insert_by_Sorted le x l :
  (∀ a b, le a b = true ∨ le b a = true) →
  Sorted (λ a b, le a b = true) l →
  Sorted (λ a b, le a b = true) (insert_by le x l).
Proof.
  intros Htotal Hl. induction Hl as [|y l Hl IH Hhd]; simpl.
  - by repeat constructor.
  - destruct (le x y) eqn:Hxy.
    + constructor; [by constructor|by constructor].
    + constructor; [done|].
      destruct Hhd as [|z l Hyz]; simpl.
      * constructor. destruct (Htotal x y); congruence.
      * destruct (le x z); constructor; [|done].
        destruct (Htotal x y); congruence.
Qed.

Lemma sort_by_Sorted le l :
  (∀ a b, le a b = true ∨ le b a = true) →
  Sorted (λ a b, le a b = true) (sort_by le l).
Proof.
  intros Htotal. induction l as [|y l IH]; simpl; [constructor|].
  by apply insert_by_Sorted.
Qed.

Lemma Sorted_drop (R : relation A) (n : nat) l :
  Sorted R l → Sorted R (drop n l).
Proof.
  revert l. induction n as [|n IH]; intros l Hl; [done|].
  destruct l as [|x l]; [done|]. simpl. apply IH.
  by apply Sorted_inv in Hl as [? _].
Qed.

Lemma Sorted_take (R : relation A) (n : nat) l :
  Sorted R l → Sorted R (take n l).
Proof.
  revert l. induction n as [|n IH]; intros l Hl; [constructor|].
  destruct l as [|x l]; [constructor|]. simpl.
  apply Sorted_inv in Hl as [Hl Hhd]. constructor; [by apply IH|].
  destruct Hhd; destruct n; simpl; by constructor.
Qed.

End sort_facts.

Lemma ordered_Permutation (q : Sql.query) : Sql.ordered q ≡ₚ Sql.q_rows q.
Proof.
  unfold Sql.ordered. induction (Sql.q_order q) as [|le les IH]; simpl; [done|].
  by rewrite sort_by_Permutation.
Qed.

Lemma limit_offset_all_submseteq (limit offset : Z) (q : Sql.query)
    (data : list Sql.datum) :
  Sql.limit_offset_all limit offset q = Ok data → data ⊆+ Sql.q_rows q.
Proof.
  unfold Sql.limit_offset_all. destruct (_ || _); [done|]. intros [= <-].
  rewrite <-(ordered_Permutation q).
  apply sublist_submseteq. etrans; [apply sublist_take|apply sublist_drop].
Qed.

Lemma limit_offset_all_length (limit offset : Z) (q : Sql.query)
    (data : list Sql.datum) :
  Sql.limit_offset_all limit offset q = Ok data →
  0 ≤ limit ∧ 0 ≤ offset ∧ (length data ≤ Z.to_nat limit)%nat.
Proof.
  intros (Hlimit & Hoffset & ->)%limit_offset_all_Ok.
  split; [lia|]. split; [lia|]. apply firstn_le_length.
Qed.

(** The tasks of the rows are the same before and after the ordering is
    set. *)
Lemma _set_orderby_desc_tasks (q q' : Sql.query) (orderby : string)
    (desc : bool) :
  Sched._set_orderby_desc q orderby desc = Ok q' →
  Sql.datum_task <$> Sql.q_rows q' = Sql.datum_task <$> Sql.q_rows q.
Proof.
  unfold Sched._set_orderby_desc. case_decide.
  - destruct desc; intros [= <-]; simpl; rewrite <-list_fmap_compose;
      apply list_fmap_ext; by intros ? [] ?.
  - destruct (Sched.Task_attribute orderby) as [le|e]; simpl; [|done].
    by destruct desc; intros [= <-].
Qed.

(** ** Pages of the breadth-first policy *)

Lemma omap_tasks_sublist (f : Task → option Sql.datum) (ts : list Task) :
  (∀ t d, f t = Some d → Sql.datum_task d = t) →
  Sql.datum_task <$> omap f ts `sublist_of` ts.
Proof.
  intros Hf. induction ts as [|t ts IH]; simpl; [constructor|].
  destruct (f t) as [d|] eqn:Hd; simpl.
  - rewrite (Hf t d Hd). by constructor.
  - by constructor.
Qed.

Lemma breadth_first_submseteq (db : Database) (p : Z) (uid : option Z)
    (ip ext : option string) (offset limit : Z) (orderby : string)
    (desc : bool) (l : list Task) :
  Sched.get_breadth_first_task db p uid ip ext offset limit orderby desc
    = Ok l →
  l ⊆+ tasks db ∧ 0 ≤ limit ∧ 0 ≤ offset ∧ (length l ≤ Z.to_nat limit)%nat.
Proof.
  unfold Sched.get_breadth_first_task.
  destruct (Sched._set_orderby_desc _ orderby desc) as [q'|e] eqn:Hq;
    unfold_result; [|done].
  destruct (Sql.limit_offset_all limit offset q') as [data|e] eqn:Hdata;
    unfold_result; [|done].
  intros [= <-]. unfold Sched._handle_tuples. rewrite length_fmap.
  split; [|by eapply limit_offset_all_length].
  apply limit_offset_all_submseteq in Hdata.
  apply _set_orderby_desc_tasks in Hq. simpl in Hq.
  etrans; [by apply fmap_submseteq|]. rewrite Hq.
  apply sublist_submseteq, omap_tasks_sublist.
  intros t d Hd. destruct (filter _ (counters db)); [done|].
  by injection Hd as <-.
Qed.

Lemma NoDup_of_submseteq {A : Type} (l k : list A) :
  l ⊆+ k → NoDup k → NoDup l.
Proof.
  intros Hsub Hk. apply submseteq_sublist_r in Hsub as (l' & Hperm & Hl').
  rewrite Hperm. by eapply sublist_NoDup.
Qed.

(** X1.  A page of the breadth-first policy holds at most [limit] tasks,
    each of them a row of the task table taken at most as often as the
    table holds it: when the ids are a primary key no id comes twice in a
    page. *)
Theorem page_within_limit_without_repeats (db : Database) (p : Z)
    (uid : option Z) (ip ext : option string) (limit offset : Z)
    (orderby : string) (desc : bool) (l : list Task) :
  Sched.get_breadth_first_task db p uid ip ext offset limit orderby desc
    = Ok l →
  (length l ≤ Z.to_nat limit)%nat ∧
  l ⊆+ tasks db ∧
  (primary_key db → NoDup (Task.id <$> l)).
Proof.
  intros (Hsub & _ & _ & Hlen)%breadth_first_submseteq.
  split; [done|]. split; [done|]. intros Hkey.
  eapply NoDup_of_submseteq; [|exact Hkey]. by apply fmap_submseteq.
Qed.

(** Three tasks and a limit of two: the page is the first two. *)
Lemma page_within_limit_without_repeats_witness :
  let t1 := Sample.task 1 2 0 in
  let t2 := Sample.task 2 2 0 in
  let db :=
    Sample.database [t1; t2; Sample.task 3 2 0] [] "breadth_first" true in
  Sched.get_breadth_first_task db 1 (Some 7) None None 0 2 "id" false
    = Ok [t1; t2] ∧
  (length [t1; t2] ≤ Z.to_nat 2)%nat ∧
  [t1; t2] ⊆+ tasks db ∧
  (primary_key db → NoDup (Task.id <$> [t1; t2])).
Proof.
  intros t1 t2 db.
  assert (Hpage :
    Sched.get_breadth_first_task db 1 (Some 7) None None 0 2 "id" false
      = Ok [t1; t2]) by (vm_compute; reflexivity).
  split; [exact Hpage|].
  exact (page_within_limit_without_repeats db 1 (Some 7) None None 2 0
           "id" false [t1; t2] Hpage).
Defined.

(** X2.  An offset at or beyond the number of rows of the task table, and
    within the integers of the store, gives the empty page from the
    breadth-first policy, not an error. *)
Theorem offset_beyond_table_gives_empty_page (db : Database) (p : Z)
    (uid : option Z) (ip ext : option string) (limit offset : Z)
    (orderby : string) (desc : bool) :
  sortable orderby →
  0 ≤ limit ≤ Sql.BIGINT_MAX →
  Z.of_nat (length (tasks db)) ≤ offset ≤ Sql.BIGINT_MAX →
  Sched.get_breadth_first_task db p uid ip ext offset limit orderby desc
    = Ok [].
Proof.
  intros Hs Hlimit Hoffset.
  unfold Sched.get_breadth_first_task.
  edestruct _set_orderby_desc_sortable as [q' Hq]; [done|].
  rewrite Hq. unfold_result.
  erewrite (proj2 (limit_offset_all_Ok limit offset q' _));
    [|split; [done|split; [lia|reflexivity]]].
  rewrite drop_ge, take_nil; [done|]. rewrite length_ordered.
  destruct (_set_orderby_desc_keeps _ q' orderby desc (Sql.Entity (Task.new JNull)) Hq)
    as [-> _].
  etrans; [apply length_omap_le|lia].
Qed.

(** Two tasks and an offset of two. *)
Lemma offset_beyond_table_gives_empty_page_witness :
  let db :=
    Sample.database [Sample.task 1 2 0; Sample.task 2 2 0] [] "breadth_first"
      true in
  sortable "priority_0" ∧ 0 ≤ 5 ≤ Sql.BIGINT_MAX ∧
  Z.of_nat (length (tasks db)) ≤ 2 ≤ Sql.BIGINT_MAX ∧
  Sched.get_breadth_first_task db 1 (Some 7) None None 2 5 "priority_0" true
    = Ok [].
Proof.
  intros db.
  assert (Hs : sortable "priority_0") by (right; eexists; reflexivity).
  assert (Hl : 0 ≤ 5 ≤ Sql.BIGINT_MAX) by (vm_compute; split; discriminate).
  assert (Ho : Z.of_nat (length (tasks db)) ≤ 2 ≤ Sql.BIGINT_MAX)
    by (vm_compute; split; discriminate).
  split; [exact Hs|]. split; [exact Hl|]. split; [exact Ho|].
  exact (offset_beyond_table_gives_empty_page db 1 (Some 7) None None 5 2
           "priority_0" true Hs Hl Ho).
Defined.

(** ** The order of a page *)

Lemma le_null_total {A : Type} (le : A → A → bool) :
  (∀ a b, le a b = true ∨ le b a = true) →
  ∀ x y, Sql.le_null le x y = true ∨ Sql.le_null le y x = true.
Proof. intros Htotal [a|] [b|]; simpl; auto. Qed.

Lemma Zleb_total (a b : Z) : (a <=? b) = true ∨ (b <=? a) = true.
Proof. destruct (Z.leb_spec a b); [auto|]. right. apply Z.leb_le. lia. Qed.

Lemma Qcleb_total (a b : Qc) :
  bool_decide (a ≤ b)%Qc = true ∨ bool_decide (b ≤ a)%Qc = true.
Proof.
  destruct (Qc_le_total a b); [left|right]; by apply bool_decide_eq_true.
Qed.

Lemma Task_attribute_total (orderby : string) (le : Task → Task → bool) :
  Sched.Task_attribute orderby = Ok le →
  ∀ a b, le a b = true ∨ le b a = true.
Proof.
  unfold Sched.Task_attribute.
  repeat case_decide; intros [= <-] a b; apply le_null_total;
    auto using Zleb_total, Qcleb_total, String.leb_total.
Qed.

Lemma ordered_Sorted_first (q : Sql.query) (c : Sql.datum → Sql.datum → bool)
    (rest : list (Sql.datum → Sql.datum → bool)) :
  Sql.q_order q = c :: rest →
  (∀ a b, c a b = true ∨ c b a = true) →
  Sorted (λ a b, c a b = true) (Sql.ordered q).
Proof.
  intros Horder Htotal. unfold Sql.ordered. rewrite Horder. simpl.
  by apply sort_by_Sorted.
Qed.

Lemma limit_offset_all_Sorted (limit offset : Z) (q : Sql.query)
    (c : Sql.datum → Sql.datum → bool)
    (rest : list (Sql.datum → Sql.datum → bool)) (data : list Sql.datum) :
  Sql.q_order q = c :: rest →
  (∀ a b, c a b = true ∨ c b a = true) →
  Sql.limit_offset_all limit offset q = Ok data →
  Sorted (λ a b, c a b = true) data.
Proof.
  intros Horder Htotal. unfold Sql.limit_offset_all.
  destruct (_ || _); [done|]. intros [= <-].
  by eapply Sorted_take, Sorted_drop, ordered_Sorted_first.
Qed.

Lemma Sorted_fmap_Forall {A B : Type} (f : A → B) (P : A → Prop)
    (R1 : relation A) (R2 : relation B) (l : list A) :
  (∀ x y, P x → P y → R1 x y → R2 (f x) (f y)) →
  Forall P l → Sorted R1 l → Sorted R2 (f <$> l).
Proof.
  intros HR HP Hl. induction Hl as [|x l Hl IH Hhd]; simpl; [constructor|].
  apply Forall_cons in HP as [Hx HP]. constructor; [by apply IH|].
  destruct Hhd as [|y l Hxy]; simpl; constructor.
  apply Forall_cons in HP as [Hy _]. by apply HR.
Qed.

Lemma _set_orderby_desc_shape (q q' : Sql.query) (orderby : string)
    (desc : bool) :
  Sched._set_orderby_desc q orderby desc = Ok q' →
  (∃ c, Sql.q_order q' = Sql.q_order q ++ [c]) ∧
  (Sql.q_rows q' = Sql.q_rows q ∨
   Sql.q_rows q' = Sql.add_column Sched.n_favs <$> Sql.q_rows q).
Proof.
  unfold Sched._set_orderby_desc. case_decide.
  - destruct desc; intros [= <-]; simpl; eauto.
  - destruct (Sched.Task_attribute orderby) as [le|e]; simpl; [|done].
    destruct desc; intros [= <-]; simpl; eauto.
Qed.

(** X4.  The breadth-first policy returns the tasks with the fewest counted
    runs first: every task of its page has at most as many counted runs as
    each task that follows it. *)
Theorem breadth_first_fewest_runs_first (db : Database) (p : Z)
    (uid : option Z) (ip ext : option string) (offset limit : Z)
    (orderby : string) (desc : bool) (l : list Task) :
  Sched.get_breadth_first_task db p uid ip ext offset limit orderby desc
    = Ok l →
  StronglySorted (λ a b, counted_runs db a ≤ counted_runs db b) l.
Proof.
  unfold Sched.get_breadth_first_task.
  set (tmp := remove_dups _).
  set (grouped := omap _ (tasks db)).
  set (col0 := λ d : Sql.datum,
         match d with Sql.Tuple _ (n :: _) => n | _ => 0 end).
  set (P := λ d : Sql.datum,
         ∃ t n cs, d = Sql.Tuple t (n :: cs) ∧ n = counted_runs db t).
  destruct (Sched._set_orderby_desc _ orderby desc) as [q'|e] eqn:Hq;
    unfold_result; [|done].
  destruct (Sql.limit_offset_all limit offset q') as [data|e] eqn:Hdata;
    unfold_result; [|done].
  intros [= <-]. unfold Sched._handle_tuples.
  apply Sorted_StronglySorted; [intros x y z; lia|].
  apply _set_orderby_desc_shape in Hq as [[c Horder] Hrows]. simpl in *.
  assert (Hgrouped : Forall P grouped).
  { apply Forall_forall. intros d Hd.
    apply list_elem_of_omap in Hd as (t & _ & Hd).
    destruct (filter _ (counters db)) as [|c0 cs] eqn:Hcs; [done|].
    injection Hd as <-.
    exists t, (foldr Z.add 0 (Counter.n_task_runs <$> c0 :: cs)), [].
    split; [reflexivity|].
    rewrite <-Hcs. unfold counted_runs. do 2 f_equal.
    assert (Hc0 : c0 ∈ filter
              (λ c, Sql.eq (Task.id t) (Some (Counter.task_id c)) = true ∧
                    Some (Counter.task_id c) ∈ tmp) (counters db))
      by (rewrite Hcs; left).
    apply list_elem_of_filter in Hc0 as [[Hid0 Htmp0] _].
    apply list_filter_iff. intros c'. split; [by intros [? _]|].
    intros Hid'. split; [done|].
    unfold Sql.eq in Hid0, Hid'. destruct (Task.id t) as [i|]; [|done].
    apply bool_decide_eq_true in Hid0, Hid'. congruence. }
  assert (Hq' : Forall P (Sql.q_rows q')).
  { destruct Hrows as [->| ->]; [done|]. apply Forall_fmap.
    eapply Forall_impl; [exact Hgrouped|].
    intros d (t & n & cs & -> & Hn). simpl. by exists t, n, (cs ++ [Sched.n_favs t]). }
  assert (Hdata' : Forall P data).
  { apply Forall_forall. intros d Hd. rewrite Forall_forall in Hq'.
    by eapply Hq', limit_offset_all_elem. }
  eapply (Sorted_fmap_Forall _ P (λ a b, (col0 a <=? col0 b) = true));
    [|done|].
  - intros x y (t & n & cs & -> & ->) (t' & n' & cs' & -> & ->). simpl.
    apply Z.leb_le.
  - eapply limit_offset_all_Sorted; [exact Horder| |exact Hdata].
    intros a b. unfold Sql.ascending. apply Zleb_total.
Qed.

Lemma breadth_first_fewest_runs_first_witness :
  let t1 := Sample.task 1 2 0 in
  let t2 := Sample.task 2 2 0 in
  let db :=
    {| tasks := [t1; t2]; task_runs := [];
       counters := [Counter.mk 1 3; Counter.mk 2 1];
       projects := [Sample.project "breadth_first" true] |} in
  Sched.get_breadth_first_task db 1 (Some 7) None None 0 10 "id" false
    = Ok [t2; t1] ∧
  StronglySorted (λ a b, counted_runs db a ≤ counted_runs db b) [t2; t1].
Proof.
  intros t1 t2 db.
  assert (Hpage : Sched.get_breadth_first_task db 1 (Some 7) None None 0 10
                    "id" false = Ok [t2; t1]) by (vm_compute; reflexivity).
  split; [exact Hpage|].
  exact (breadth_first_fewest_runs_first db 1 (Some 7) None None 0 10
           "id" false [t2; t1] Hpage).
Defined.

Lemma String_leb_trans (s1 s2 s3 : string) :
  String.leb s1 s2 = true → String.leb s2 s3 = true →
  String.leb s1 s3 = true.
Proof.
  unfold String.leb. revert s2 s3.
  induction s1 as [|c1 s1 IH]; intros [|c2 s2] [|c3 s3]; simpl; try done.
  unfold Ascii.compare.
  destruct (N.compare_spec (Ascii.N_of_ascii c1) (Ascii.N_of_ascii c2)),
    (N.compare_spec (Ascii.N_of_ascii c2) (Ascii.N_of_ascii c3)),
    (N.compare_spec (Ascii.N_of_ascii c1) (Ascii.N_of_ascii c3));
    try done; try lia.
  apply IH.
Qed.

Lemma le_null_trans {A : Type} (le : A → A → bool) :
  (∀ a b c, le a b = true → le b c = true → le a c = true) →
  ∀ x y z, Sql.le_null le x y = true → Sql.le_null le y z = true →
           Sql.le_null le x z = true.
Proof. intros Htrans [a|] [b|] [c|]; simpl; try done; eauto. Qed.

Lemma Task_attribute_trans (orderby : string) (le : Task → Task → bool) :
  Sched.Task_attribute orderby = Ok le →
  ∀ a b c, le a b = true → le b c = true → le a c = true.
Proof.
  unfold Sched.Task_attribute.
  repeat case_decide; intros [= <-] a b c; apply le_null_trans;
    try apply String_leb_trans.
  all: intros x y z; rewrite ?Z.leb_le, ?bool_decide_eq_true;
    try lia; apply Qcle_trans.
Qed.

Section two_keys.
Import Sql.
Context {A : Type}.
Implicit Types (le : A → A → bool) (l : list A).

(** Inserting on the more significant key into a list that is sorted on
    both keys keeps it so, when the new element is not after any element of
    the list on the less significant key. *)
Lemma insert_by_two_keys le1 le2 x l :
  (∀ a b, le1 a b = true ∨ le1 b a = true) →
  (∀ a b c, le1 a b = true → le1 b c = true → le1 a c = true) →
  Forall (λ y, le2 x y = true) l →
  StronglySorted
    (λ a b, le1 a b = true ∧ (le1 b a = true → le2 a b = true)) l →
  StronglySorted
    (λ a b, le1 a b = true ∧ (le1 b a = true → le2 a b = true))
    (insert_by le1 x l).
Proof.
  intros Htotal Htrans Hx Hl.
  induction Hl as [|y l Hl IH Hy]; simpl; [by repeat constructor|].
  apply Forall_cons in Hx as [Hxy Hx].
  destruct (le1 x y) eqn:Hle.
  - constructor; [by constructor|]. constructor; [done|].
    rewrite Forall_forall in Hy, Hx. apply Forall_forall. intros z Hz.
    split; [|by auto]. eapply Htrans; [exact Hle|]. by apply Hy.
  - constructor; [by apply IH|].
    apply Forall_forall. intros z Hz.
    apply elem_of_insert_by in Hz as [->|Hz].
    + split; [|congruence]. destruct (Htotal x y); congruence.
    + rewrite Forall_forall in Hy. by apply Hy.
Qed.

(** A stable sort on the more significant key, after a sort on the less
    significant one, orders on both. *)
Lemma sort_by_two_keys le1 le2 l :
  (∀ a b, le1 a b = true ∨ le1 b a = true) →
  (∀ a b c, le1 a b = true → le1 b c = true → le1 a c = true) →
  (∀ a b, le2 a b = true ∨ le2 b a = true) →
  (∀ a b c, le2 a b = true → le2 b c = true → le2 a c = true) →
  StronglySorted
    (λ a b, le1 a b = true ∧ (le1 b a = true → le2 a b = true))
    (sort_by le1 (sort_by le2 l)).
Proof.
  intros Htotal1 Htrans1 Htotal2 Htrans2.
  assert (Hl : StronglySorted (λ a b, le2 a b = true) (sort_by le2 l)).
  { apply Sorted_StronglySorted; [intros a b c; apply Htrans2|].
    by apply sort_by_Sorted. }
  induction Hl as [|x k Hk IH Hx]; simpl; [constructor|].
  apply insert_by_two_keys; [done..| |done].
  apply Forall_forall. intros y Hy. apply elem_of_sort_by in Hy.
  rewrite Forall_forall in Hx. by apply Hx.
Qed.

Lemma StronglySorted_sublist (R : relation A) l k :
  l `sublist_of` k → StronglySorted R k → StronglySorted R l.
Proof.
  induction 1 as [|x l k Hsub IH|x l k Hsub IH]; intros Hk; [constructor|..].
  - apply StronglySorted_inv in Hk as [Hk Hx]. constructor; [by apply IH|].
    apply Forall_forall. intros y Hy. rewrite Forall_forall in Hx.
    apply Hx. by eapply sublist_subseteq.
  - apply StronglySorted_inv in Hk as [Hk _]. by apply IH.
Qed.

End two_keys.

Lemma StronglySorted_fmap_Forall {A B : Type} (f : A → B) (P : A → Prop)
    (R1 : relation A) (R2 : relation B) (l : list A) :
  (∀ x y, P x → P y → R1 x y → R2 (f x) (f y)) →
  Forall P l → StronglySorted R1 l → StronglySorted R2 (f <$> l).
Proof.
  intros HR HP Hl. induction Hl as [|x l Hl IH Hx]; simpl; [constructor|].
  apply Forall_cons in HP as [Hpx HP]. constructor; [by apply IH|].
  apply Forall_fmap, Forall_forall. intros y Hy.
  rewrite Forall_forall in HP, Hx. apply HR; auto.
Qed.

(** The rows of the breadth-first policy carry, as their first column, the
    counted runs of their task; its page is the LIMIT and OFFSET of these
    rows, ordered on that column and then on the requested one. *)
Lemma breadth_first_page (db : Database) (p : Z) (uid : option Z)
    (ip ext : option string) (offset limit : Z) (orderby : string)
    (desc : bool) (l : list Task) :
  Sched.get_breadth_first_task db p uid ip ext offset limit orderby desc
    = Ok l →
  ∃ rows c2 data,
    Forall (λ d, ∃ t n cs, d = Sql.Tuple t (n :: cs) ∧ n = counted_runs db t)
           rows ∧
    Sched._set_orderby_desc {| Sql.q_rows := []; Sql.q_order := [] |}
      orderby desc
      = Ok {| Sql.q_rows := []; Sql.q_order := [c2] |} ∧
    data `sublist_of`
      Sql.sort_by
        (λ a b,
           match a with Sql.Tuple _ (n :: _) => n | _ => 0 end <=?
           match b with Sql.Tuple _ (n :: _) => n | _ => 0 end)
        (Sql.sort_by c2 rows) ∧
    l = Sql.datum_task <$> data.
Proof.
  unfold Sched.get_breadth_first_task.
  set (tmp := remove_dups _).
  set (grouped := omap _ (tasks db)).
  set (P := λ d : Sql.datum,
         ∃ t n cs, d = Sql.Tuple t (n :: cs) ∧ n = counted_runs db t).
  assert (Hgrouped : Forall P grouped).
  { apply Forall_forall. intros d Hd.
    apply list_elem_of_omap in Hd as (t & _ & Hd).
    destruct (filter _ (counters db)) as [|c0 cs] eqn:Hcs; [done|].
    injection Hd as <-.
    exists t, (foldr Z.add 0 (Counter.n_task_runs <$> c0 :: cs)), [].
    split; [reflexivity|].
    rewrite <-Hcs. unfold counted_runs. do 2 f_equal.
    assert (Hc0 : c0 ∈ filter
              (λ c, Sql.eq (Task.id t) (Some (Counter.task_id c)) = true ∧
                    Some (Counter.task_id c) ∈ tmp) (counters db))
      by (rewrite Hcs; left).
    apply list_elem_of_filter in Hc0 as [[Hid0 Htmp0] _].
    apply list_filter_iff. intros c'. split; [by intros [? _]|].
    intros Hid'. split; [done|].
    unfold Sql.eq in Hid0, Hid'. destruct (Task.id t) as [i|]; [|done].
    apply bool_decide_eq_true in Hid0, Hid'. congruence. }
  destruct (Sched._set_orderby_desc _ orderby desc) as [q'|e] eqn:Hq;
    unfold_result; [|done].
  destruct (Sql.limit_offset_all limit offset q') as [data|e] eqn:Hdata;
    unfold_result; [|done].
  intros [= <-]. unfold Sched._handle_tuples.
  apply limit_offset_all_Ok in Hdata as (_ & _ & Hdata).
  assert (Hsub : data `sublist_of` Sql.ordered q')
    by (rewrite Hdata; etrans; [apply sublist_take|apply sublist_drop]).
  unfold Sched._set_orderby_desc in Hq |- *.
  case_decide as Hfav.
  - exists (Sql.add_column Sched.n_favs <$> grouped).
    assert (HP : Forall P (Sql.add_column Sched.n_favs <$> grouped)).
    { apply Forall_fmap. eapply Forall_impl; [exact Hgrouped|].
      intros d (t & n & cs & -> & Hn). simpl.
      by exists t, n, (cs ++ [Sched.n_favs t]). }
    destruct desc; injection Hq as <-; eexists _, data;
      (split; [exact HP|]); (split; [reflexivity|]); by split.
  - exists grouped.
    destruct (Sched.Task_attribute orderby) as [le|e]; simpl in *; [|done].
    destruct desc; injection Hq as <-; eexists _, data;
      (split; [exact Hgrouped|]); (split; [reflexivity|]); by split.
Qed.

(** X3.  Where the counted runs tie, the page of the breadth-first policy
    is in the requested order: along the page, a task comes before every
    task with more counted runs, and before the tasks with as many that do
    not precede it under the comparison of the requested column, taken
    downwards when [desc] is set; for the ordering field ["fav_user_ids"]
    the comparison is on the number of favouriting users. *)
Theorem breadth_first_ties_in_requested_order (db : Database) (p : Z)
    (uid : option Z) (ip ext : option string) (offset limit : Z)
    (orderby : string) (desc : bool) (l : list Task) :
  Sched.get_breadth_first_task db p uid ip ext offset limit orderby desc
    = Ok l →
  (∀ le, Sched.Task_attribute orderby = Ok le →
     StronglySorted
       (λ a b, counted_runs db a < counted_runs db b ∨
               (counted_runs db a = counted_runs db b ∧
                (if desc then le b a else le a b) = true)) l) ∧
  (orderby = "fav_user_ids" →
   StronglySorted
     (λ a b, counted_runs db a < counted_runs db b ∨
             (counted_runs db a = counted_runs db b ∧
              if desc then Sched.n_favs b ≤ Sched.n_favs a
              else Sched.n_favs a ≤ Sched.n_favs b)) l).
Proof.
  intros (rows & c2 & data & Hrows & Hc2 & Hsub & ->)%breadth_first_page.
  set (c1 := λ a b : Sql.datum,
         match a with Sql.Tuple _ (n :: _) => n | _ => 0 end <=?
         match b with Sql.Tuple _ (n :: _) => n | _ => 0 end) in Hsub.
  assert (Htotal1 : ∀ a b, c1 a b = true ∨ c1 b a = true)
    by (intros a b; apply Zleb_total).
  assert (Htrans1 : ∀ a b c, c1 a b = true → c1 b c = true → c1 a c = true)
    by (intros a b c; unfold c1; rewrite !Z.leb_le; lia).
  assert (Hdata : Forall (λ d, ∃ t n cs, d = Sql.Tuple t (n :: cs) ∧
                               n = counted_runs db t) data).
  { apply Forall_forall. intros d Hd. rewrite Forall_forall in Hrows.
    apply Hrows. eapply sublist_subseteq in Hd; [|exact Hsub].
    by apply elem_of_sort_by, elem_of_sort_by in Hd. }
  assert (Hpage : ∀ (R : relation Task),
    (∀ a b, c2 a b = true ∨ c2 b a = true) →
    (∀ a b c, c2 a b = true → c2 b c = true → c2 a c = true) →
    (∀ a b, c2 a b = true → R (Sql.datum_task a) (Sql.datum_task b)) →
    StronglySorted
      (λ a b, counted_runs db a < counted_runs db b ∨
              (counted_runs db a = counted_runs db b ∧ R a b))
      (Sql.datum_task <$> data)).
  { intros R Htotal2 Htrans2 HR.
    eapply (StronglySorted_fmap_Forall _ _
              (λ a b, c1 a b = true ∧ (c1 b a = true → c2 a b = true)));
      [|exact Hdata|].
    - intros x y (t & n & cs & -> & ->) (t' & n' & cs' & -> & ->) [H1 H2].
      unfold c1 in H1, H2. simpl in *. rewrite Z.leb_le in H1, H2.
      destruct (decide (counted_runs db t = counted_runs db t')) as [Heq|Hne].
      + right. split; [done|].
        apply (HR (Sql.Tuple t (counted_runs db t :: cs))
                  (Sql.Tuple t' (counted_runs db t' :: cs'))).
        apply H2. lia.
      + left. lia.
    - eapply StronglySorted_sublist; [exact Hsub|].
      by apply sort_by_two_keys. }
  split.
  - intros le Hle. unfold Sched._set_orderby_desc in Hc2.
    case_decide as Hfav; [subst orderby; by vm_compute in Hle|].
    rewrite Hle in Hc2. unfold_result.
    pose proof (Task_attribute_total orderby le Hle) as Htotal.
    pose proof (Task_attribute_trans orderby le Hle) as Htrans.
    destruct desc; injection Hc2 as <-; apply Hpage;
      unfold Sched.on_task, Sql.descending, Sql.ascending; eauto.
  - intros ->. unfold Sched._set_orderby_desc in Hc2.
    rewrite decide_True in Hc2 by done.
    destruct desc; injection Hc2 as <-; apply Hpage;
      unfold Sched.on_task, Sql.descending, Sql.ascending;
      intros *; rewrite ?Z.leb_le; try lia; apply Zleb_total.
Qed.

(** Task 1 has one counted run, tasks 2 and 3 have none; by id downwards,
    task 3 comes before task 2, and task 1 last. *)
Lemma breadth_first_ties_in_requested_order_witness :
  let t1 := Sample.task 1 2 0 in
  let t2 := Sample.task 2 2 0 in
  let t3 := Sample.task 3 2 0 in
  let db :=
    {| tasks := [t1; t2; t3]; task_runs := [];
       counters := [Counter.mk 1 1; Counter.mk 2 0; Counter.mk 3 0];
       projects := [Sample.project "breadth_first" true] |} in
  let le := λ a b : Task, Sql.le_null Z.leb (Task.id a) (Task.id b) in
  Sched.get_breadth_first_task db 1 (Some 7) None None 0 10 "id" true
    = Ok [t3; t2; t1] ∧
  Sched.Task_attribute "id" = Ok le ∧
  StronglySorted
    (λ a b, counted_runs db a < counted_runs db b ∨
            (counted_runs db a = counted_runs db b ∧ le b a = true))
    [t3; t2; t1].
Proof.
  intros t1 t2 t3 db le.
  assert (Hpage : Sched.get_breadth_first_task db 1 (Some 7) None None 0 10
                    "id" true = Ok [t3; t2; t1]) by (vm_compute; reflexivity).
  assert (Hle : Sched.Task_attribute "id" = Ok le) by reflexivity.
  split; [exact Hpage|]. split; [exact Hle|].
  exact (proj1 (breadth_first_ties_in_requested_order db 1 (Some 7) None None
                  0 10 "id" true [t3; t2; t1] Hpage) le Hle).
Defined.


(** ** Further properties of the locked policy *)

Section locked_edges.
Context `{Collaborators}.

(** Once the tally is past the offset the loop returns no task. *)
Lemma locked_loop_past_offset (db : Database) (p : Z) (uid : option Z)
    (offset : Z) (rows : list Sched.locked_row) (skipped : Z)
    (st : LockManager.store) :
  Forall (λ row : Sched.locked_row, is_Some row.2) rows →
  offset < skipped →
  ∃ skipped' st',
    Sched.locked_loop db p uid offset rows skipped st
      = (Ok None, skipped', st').
Proof.
  revert skipped st.
  induction rows as [|[[tid cnt] n] rows IH]; intros skipped st Hrows Hpast.
  - simpl. eauto.
  - apply Forall_cons in Hrows as [[q Hq] Hrows]. simpl in Hq. subst n.
    simpl. destruct (Sched.acquire_lock p tid uid (q - cnt) st) as [[|] st1].
    + rewrite decide_False by lia. apply IH; [done|lia].
    + by apply IH.
Qed.

(** X5.  The locked policy hands out one task at a time: its answer does
    not depend on the limit, the ordering field or the direction of the
    request, and a list it returns holds exactly one task. *)
Theorem locked_policy_hands_out_one_task (db : Database)
    (st : LockManager.store) (p : Z) (uid : option Z)
    (ip ext : option string) (limit offset : Z) (orderby : string)
    (desc : bool) :
  (∀ limit' orderby' desc',
     Sched.get_locked_task db st p uid ip ext limit' offset orderby' desc' =
     Sched.get_locked_task db st p uid ip ext limit offset orderby desc) ∧
  (∀ l st',
     Sched.get_locked_task db st p uid ip ext limit offset orderby desc
       = (Ok (Some l), st') →
     length l = 1%nat).
Proof.
  split.
  - intros limit' orderby' desc'. apply get_locked_task_reads.
  - intros l st' Hget.
    by apply get_locked_task_returns in Hget as (_ & t & _ & _ & ->).
Qed.

(** X6.  With a negative offset the locked policy never hands out a task
    and does not reject the request either: on a store whose tasks have an
    id and a quota it answers [None]. *)
Theorem locked_policy_negative_offset (db : Database)
    (st : LockManager.store) (p : Z) (uid : option Z)
    (ip ext : option string) (limit offset : Z) (orderby : string)
    (desc : bool) :
  stored db →
  offset < 0 →
  ∃ st',
    Sched.get_locked_task db st p uid ip ext limit offset orderby desc
      = (Ok None, st').
Proof.
  intros Hstored Hoffset. unfold Sched.get_locked_task.
  rewrite decide_False by lia.
  destruct (locked_loop_past_offset db p uid offset
              (Sched.locked_rows db p uid) 0 st) as (k & st' & ->);
    [|done|by eauto].
  eapply Forall_impl; [by apply locked_rows_stored|]. by intros ? [? _].
Qed.

End locked_edges.

Lemma locked_policy_hands_out_one_task_witness :
  let t := Sample.task 1 2 0 in
  let db :=
    Sample.database [t; Sample.task 2 2 0] [] "locked_scheduler" true in
  let st := LockManager.empty 0 in
  let st' :=
    (Sched.acquire_lock (H := Sample.collaborators) 1 (Some 1) (Some 7) 2 st).2 in
  Sched.get_locked_task (H := Sample.collaborators) db st 1 (Some 7) None
    None 50 0 "id" false = (Ok (Some [t]), st') ∧
  length [t] = 1%nat.
Proof.
  intros t db st st'.
  assert (Hget :
    Sched.get_locked_task (H := Sample.collaborators) db st 1 (Some 7) None
      None 50 0 "id" false = (Ok (Some [t]), st'))
    by (vm_compute; reflexivity).
  split; [exact Hget|].
  exact (proj2 (locked_policy_hands_out_one_task (H := Sample.collaborators)
                  db st 1 (Some 7) None None 50 0 "id" false) [t] st' Hget).
Defined.

Lemma locked_policy_negative_offset_witness :
  let db :=
    Sample.database [Sample.task 1 2 0; Sample.task 2 2 0] []
      "locked_scheduler" true in
  let st := LockManager.empty 0 in
  stored db ∧ -1 < 0 ∧
  ∃ st',
    Sched.get_locked_task (H := Sample.collaborators) db st 1 (Some 7) None
      None 1 (-1) "priority_0" true = (Ok None, st').
Proof.
  intros db st.
  assert (Hstored : stored db) by (repeat constructor; simpl; eauto).
  assert (Hoffset : -1 < 0) by lia.
  split; [exact Hstored|]. split; [exact Hoffset|].
  exact (locked_policy_negative_offset (H := Sample.collaborators) db st 1
           (Some 7) None None 1 (-1) "priority_0" true Hstored Hoffset).
Defined.

(** ** The dispatcher and the permission predicates *)

Section dispatcher.
Context `{Collaborators}.

(** X7.  The dispatcher falls back to the locked policy: a project whose
    metadata holds no scheduler, or any value other than the names
    ["breadth_first"], ["depth_first"] and ["incremental"] (a list or a
    dictionary apart), is served by the locked policy. *)
Theorem dispatcher_falls_back_to_locked (entropy : nat) (db : Database)
    (st : LockManager.store) (p : Z) (sched : option json)
    (uid : option Z) (ip ext : option string) (offset limit : Z)
    (orderby : string) (desc : bool) :
  names_no_other_policy sched →
  Sched.new_task entropy db st p sched uid ip ext offset limit orderby desc =
  Sched.get_locked_task db st p uid ip ext limit offset orderby desc.
Proof.
  unfold names_no_other_policy, Sched.new_task, Sched.sched_map_get.
  destruct sched as [[| | |name| |]|]; try done.
  intros (? & ? & ?). by repeat case_decide.
Qed.

Lemma get_project_scheduler_found (db : Database) (p : Z)
    (project : Project) :
  Sched.project_repo_get db p = Some project →
  Sched.get_project_scheduler db p =
    Ok match Sched.dict_get "sched" (Project.info project) with
       | None => JStr "locked_scheduler"
       | Some (JStr name) =>
           if decide (name = "default") then JStr "locked_scheduler"
           else JStr name
       | Some other => other
       end.
Proof.
  intros Hp. unfold Sched.get_project_scheduler. rewrite Hp.
  destruct (Sched.dict_get _ _) as [[| | |name| |]|]; simpl; try done.
  by case_decide.
Qed.

(** X8.  For a project whose metadata names a scheduler that is none of
    ["default"], ["locked_scheduler"], ["breadth_first"], ["depth_first"] and
    ["incremental"], tasks are handed out by the locked policy, while the
    permission predicates treat the project as not locked: posting and
    reading are allowed to everybody, and saving a run releases no lock. *)
Theorem unknown_scheduler_locks_without_gate (entropy : nat)
    (db : Database) (st : LockManager.store) (p : Z) (project : Project)
    (name : string) (uid : option Z) (ip ext : option string)
    (offset limit : Z) (orderby : string) (desc : bool) :
  Sched.project_repo_get db p = Some project →
  Sched.dict_get "sched" (Project.info project) = Some (JStr name) →
  name ≠ "default" → name ≠ "locked_scheduler" →
  name ≠ "breadth_first" → name ≠ "depth_first" → name ≠ "incremental" →
  Sched.new_task entropy db st p
    (Sched.dict_get "sched" (Project.info project))
    uid ip ext offset limit orderby desc =
  Sched.get_locked_task db st p uid ip ext limit offset orderby desc ∧
  (∀ st' task_id user_id,
     Sched.can_post db st' p task_id user_id = Ok true ∧
     Sched.after_save db st' p task_id user_id = Ok st') ∧
  (∀ st' task user,
     Task.project_id task = Some p →
     Sched.can_read_task db st' task user = Ok true).
Proof.
  intros Hp Hsched Hd Hl Hb Hdf Hi.
  pose proof (get_project_scheduler_found db p project Hp) as Hget.
  rewrite Hsched, decide_False in Hget by done.
  split; [|split].
  - rewrite Hsched. by apply dispatcher_falls_back_to_locked.
  - intros st' task_id user_id.
    unfold Sched.can_post, Sched.after_save. rewrite Hget. unfold_result.
    by rewrite bool_decide_eq_false_2.
  - intros st' task user Hproject. unfold Sched.can_read_task.
    rewrite Hproject, Hget. unfold_result. by rewrite bool_decide_eq_false_2.
Qed.

(** X9.  The scheduler of a project is never reported as ["default"]: for a
    project that exists, an absent name and the name ["default"] are both
    reported as ["locked_scheduler"], and any other name is reported as it
    is.  For a project that does not exist the lookup raises, and so do the
    predicates that start with it. *)
Theorem project_scheduler_never_default (db : Database)
    (st : LockManager.store) (p : Z) :
  (∀ project,
     Sched.project_repo_get db p = Some project →
     ∃ s, Sched.get_project_scheduler db p = Ok s ∧
          s ≠ JStr "default" ∧
          (Sched.dict_get "sched" (Project.info project) = None ∨
           Sched.dict_get "sched" (Project.info project)
             = Some (JStr "default") →
           s = JStr Sched.DEFAULT_SCHEDULER) ∧
          (∀ name, Sched.dict_get "sched" (Project.info project)
                     = Some (JStr name) →
                   name ≠ "default" → s = JStr name)) ∧
  (Sched.project_repo_get db p = None →
   Sched.get_project_scheduler db p = Raise AttributeError ∧
   ∀ task_id user_id,
     Sched.can_post db st p task_id user_id = Raise AttributeError ∧
     Sched.after_save db st p task_id user_id = Raise AttributeError).
Proof.
  split.
  - intros project Hp. rewrite (get_project_scheduler_found db p project Hp).
    eexists. split; [done|].
    unfold Sched.DEFAULT_SCHEDULER.
    destruct (Sched.dict_get _ _) as [[| | |name| |]|]; simpl;
      try case_decide; naive_solver.
  - intros Hp.
    assert (Hget : Sched.get_project_scheduler db p = Raise AttributeError)
      by (unfold Sched.get_project_scheduler; by rewrite Hp).
    split; [done|]. intros task_id user_id.
    unfold Sched.can_post, Sched.after_save. by rewrite Hget.
Qed.

End dispatcher.

Lemma dispatcher_falls_back_to_locked_witness :
  let db := Sample.database [Sample.task 1 2 0] [] "mystery" true in
  let st := LockManager.empty 0 in
  names_no_other_policy (Some (JStr "mystery")) ∧
  Sched.new_task (H := Sample.collaborators) 0 db st 1 (Some (JStr "mystery"))
    (Some 7) None None 0 1 "id" false =
  Sched.get_locked_task (H := Sample.collaborators) db st 1 (Some 7) None
    None 1 0 "id" false.
Proof.
  intros db st.
  assert (Hname : names_no_other_policy (Some (JStr "mystery")))
    by (repeat split; discriminate).
  split; [exact Hname|].
  exact (dispatcher_falls_back_to_locked (H := Sample.collaborators) 0 db st
           1 (Some (JStr "mystery")) (Some 7) None None 0 1 "id" false Hname).
Defined.

Lemma unknown_scheduler_locks_without_gate_witness :
  let db := Sample.database [Sample.task 1 2 0] [] "mystery" true in
  let st := LockManager.empty 0 in
  let project := Sample.project "mystery" true in
  Sched.project_repo_get db 1 = Some project ∧
  Sched.dict_get "sched" (Project.info project) = Some (JStr "mystery") ∧
  Sched.new_task (H := Sample.collaborators) 0 db st 1
    (Sched.dict_get "sched" (Project.info project))
    (Some 7) None None 0 1 "id" false =
  Sched.get_locked_task (H := Sample.collaborators) db st 1 (Some 7) None
    None 1 0 "id" false ∧
  (∀ st' task_id user_id,
     Sched.can_post db st' 1 task_id user_id = Ok true ∧
     Sched.after_save db st' 1 task_id user_id = Ok st') ∧
  (∀ st' task user,
     Task.project_id task = Some 1 →
     Sched.can_read_task db st' task user = Ok true).
Proof.
  intros db st project.
  assert (Hp : Sched.project_repo_get db 1 = Some project) by reflexivity.
  assert (Hs : Sched.dict_get "sched" (Project.info project)
                 = Some (JStr "mystery")) by reflexivity.
  split; [exact Hp|]. split; [exact Hs|].
  exact (unknown_scheduler_locks_without_gate (H := Sample.collaborators)
           0 db st 1 project "mystery" (Some 7) None None 0 1 "id" false
           Hp Hs ltac:(discriminate) ltac:(discriminate) ltac:(discriminate)
           ltac:(discriminate) ltac:(discriminate)).
Defined.

Lemma project_scheduler_never_default_witness :
  let db := Sample.database [Sample.task 1 2 0] [] "default" true in
  let project := Sample.project "default" true in
  Sched.project_repo_get db 1 = Some project ∧
  (∃ s, Sched.get_project_scheduler db 1 = Ok s ∧
        s ≠ JStr "default" ∧
        (Sched.dict_get "sched" (Project.info project) = None ∨
         Sched.dict_get "sched" (Project.info project)
           = Some (JStr "default") →
         s = JStr Sched.DEFAULT_SCHEDULER) ∧
        (∀ name, Sched.dict_get "sched" (Project.info project)
                   = Some (JStr name) →
                 name ≠ "default" → s = JStr name)) ∧
  Sched.project_repo_get db 2 = None ∧
  Sched.get_project_scheduler db 2 = Raise AttributeError.
Proof.
  intros db project.
  assert (Hp : Sched.project_repo_get db 1 = Some project) by reflexivity.
  assert (Hq : Sched.project_repo_get db 2 = None) by reflexivity.
  split; [exact Hp|].
  split;
    [exact (proj1 (project_scheduler_never_default db (LockManager.empty 0) 1)
              project Hp)|].
  split; [exact Hq|].
  exact (proj1 (proj2 (project_scheduler_never_default db
                         (LockManager.empty 0) 2) Hq)).
Defined.

(** ** Further properties of the new-task endpoint *)

Section endpoint_edges.
Context `{Collaborators}.

(** What a retrieval that yields tasks has gone through: either the
    anonymous restriction, or a call of the dispatcher with the identity
    of the request and a limit of at most 100. *)
Lemma retrieve_new_task_inv (entropy : nat) (db : Database)
    (st st' : LockManager.store) (req : Api.Request) (p : Z)
    (r : option (list Task)) :
  Api._retrieve_new_task entropy db st req p = (Ok (Api.Tasks r), st') →
  ∃ project,
    Sched.project_repo_get db p = Some project ∧
    ((negb (Project.allow_anonymous_contributors project)
      && Api.is_anonymous req = true ∧
      r = Some
            [Task.new
               (JObj [("error",
                       JStr "This project does not allow anonymous contributors")])] ∧
      st' = st) ∨
     (negb (Project.allow_anonymous_contributors project)
      && Api.is_anonymous req = false ∧
      ∃ limit offset orderby desc,
        limit ≤ 100 ∧
        Sched.new_task entropy db st p
          (Sched.dict_get "sched" (Project.info project))
          (if Api.is_anonymous req then None
           else Some (Api.current_user_id req))
          (if Api.is_anonymous req then Api.remote_addr req else None)
          (Api.args_get "external_uid" req)
          offset limit orderby desc = (Ok r, st'))).
Proof.
  unfold Api._retrieve_new_task. intros Hret.
  destruct (Sched.project_repo_get db p) as [project|]; [|done].
  exists project. split; [done|].
  destruct (negb _ && _) eqn:Hanon.
  { left. by injection Hret as <- <-. }
  right. split; [done|].
  destruct (if truthy_str (Api.args_get "external_uid" req) then _ else _)
    as [resp|]; [done|].
  destruct (if truthy_str (Api.args_get "limit" req) then _ else _)
    as [limit|e]; unfold_result; [|done].
  destruct (if truthy_str (Api.args_get "offset" req) then _ else _)
    as [offset|e]; unfold_result; [|done].
  destruct (if truthy_str (Api.args_get "desc" req) then _ else _)
    as [desc|e]; unfold_result; [|done].
  destruct (Sched.new_task _ _ _ _ _ _ _ _ _ _ _ _) as [task st1] eqn:Hnew.
  destruct task as [r'|e]; unfold_result; [|done].
  injection Hret as <- <-. do 4 eexists. split; [|exact Hnew].
  case_decide; lia.
Qed.

End endpoint_edges.

Section endpoint_bounds.
Context `{Collaborators}.

Lemma new_task_length (entropy : nat) (db : Database)
    (st st' : LockManager.store) (p : Z) (sched : option json)
    (uid : option Z) (ip ext : option string) (offset limit : Z)
    (orderby : string) (desc : bool) (l : list Task) :
  Sched.new_task entropy db st p sched uid ip ext offset limit orderby desc
    = (Ok (Some l), st') →
  length l = 1%nat ∨ (length l ≤ Z.to_nat limit)%nat.
Proof.
  unfold Sched.new_task.
  destruct (Sched.sched_map_get sched) as [[| | |]|e]; [| | | |done].
  - intros Hget. left.
    by apply get_locked_task_returns in Hget as (_ & t & _ & _ & ->).
  - unfold Sched.lift.
    destruct (Sched.get_breadth_first_task _ _ _ _ _ _ _ _ _) as [l'|e]
      eqn:Hbf; unfold_result; [|done].
    intros [= <- <-]. right.
    by apply breadth_first_submseteq in Hbf as (_ & _ & _ & ?).
  - by rewrite get_depth_first_task_raises.
  - by rewrite get_incremental_task_raises.
Qed.

(** X10.  Whatever the request asks for, the endpoint retrieves at most 100
    tasks. *)
Theorem endpoint_retrieves_at_most_100 (entropy : nat) (db : Database)
    (st st' : LockManager.store) (req : Api.Request) (p : Z)
    (l : list Task) :
  Api._retrieve_new_task entropy db st req p
    = (Ok (Api.Tasks (Some l)), st') →
  (length l ≤ 100)%nat.
Proof.
  intros Hret.
  apply retrieve_new_task_inv in Hret
    as (project & _ & [(_ & [= ->] & _)|(_ & limit & offset & orderby & desc
                                         & Hlimit & Hnew)]).
  - simpl. lia.
  - apply new_task_length in Hnew as [->|Hlen]; lia.
Qed.

(** X11.  For a project id that no project has, the endpoint answers with
    the formatted [NotFound] error and leaves the fast store as it was. *)
Theorem endpoint_unknown_project (entropy : nat) (db : Database)
    (st : LockManager.store) (req : Api.Request) (p : Z) :
  Sched.project_repo_get db p = None →
  Api.new_task entropy db st req p
    = (format_exception NotFound "project" "GET", st).
Proof.
  intros Hp. unfold Api.new_task, Api._retrieve_new_task. by rewrite Hp.
Qed.

(** X12.  A request that carries an external uid goes through the JWT check
    first (once past the anonymous restriction): when the check answers
    with a response, the endpoint returns that response, no policy runs and
    the fast store is left as it was. *)
Theorem endpoint_external_uid_needs_jwt (entropy : nat) (db : Database)
    (st : LockManager.store) (req : Api.Request) (p : Z)
    (project : Project) (resp : Response) :
  Sched.project_repo_get db p = Some project →
  negb (Project.allow_anonymous_contributors project)
    && Api.is_anonymous req = false →
  truthy_str (Api.args_get "external_uid" req) = true →
  jwt_authorize_project project (Api.authorization req) = Some resp →
  Api.new_task entropy db st req p = (resp, st).
Proof.
  intros Hp Hanon Hext Hjwt. unfold Api.new_task, Api._retrieve_new_task.
  by rewrite Hp, Hanon, Hext, Hjwt.
Qed.

(** X13.  A limit that is not a number makes the endpoint answer with the
    formatted [ValueError] error, whatever the other arguments are; no
    policy runs and the fast store is left as it was. *)
Theorem endpoint_limit_not_a_number (entropy : nat) (db : Database)
    (st : LockManager.store) (req : Api.Request) (p : Z)
    (project : Project) (limit : string) :
  Sched.project_repo_get db p = Some project →
  negb (Project.allow_anonymous_contributors project)
    && Api.is_anonymous req = false →
  truthy_str (Api.args_get "external_uid" req) = false ∨
  jwt_authorize_project project (Api.authorization req) = None →
  Api.args_get "limit" req = Some limit →
  limit ≠ "" →
  py_int limit = None →
  Api.new_task entropy db st req p
    = (format_exception ValueError "project" "GET", st).
Proof.
  intros Hp Hanon Hjwt Hlimit Hne Hint.
  unfold Api.new_task, Api._retrieve_new_task. rewrite Hp, Hanon.
  assert ((if truthy_str (Api.args_get "external_uid" req)
           then jwt_authorize_project project (Api.authorization req)
           else None) = None) as ->.
  { destruct Hjwt as [->| ->]; [done|]. by destruct (truthy_str _). }
  rewrite Hlimit. simpl.
  assert (String.eqb limit "" = false) as -> by by apply String.eqb_neq.
  simpl. by rewrite Hint.
Qed.

End endpoint_bounds.

(** ** Exclusion as seen through the endpoint *)

Lemma resolve_logged_in (u : Z) (ext : option string) :
  u ≠ 0 → truthy_str ext = false →
  Identity.resolve (Some u) None ext = Identity.ByUserId u.
Proof.
  intros Hu Hext. unfold Identity.resolve, Identity.nonempty, Identity.nonzero.
  unfold truthy_str in Hext.
  assert ((u =? 0) = false) as -> by by apply Z.eqb_neq.
  destruct ext as [e|]; [|done]. by destruct (String.eqb e "").
Qed.

Section endpoint_exclusion.
Context `{Collaborators}.

(** What the dispatcher returns under a policy other than the locked one
    has no run of the project through the channel resolved from the
    identity triple: the breadth-first policy excludes on that channel, and
    the two policies that go through the candidate selector return
    nothing. *)
Lemma other_policies_exclude (entropy : nat) (db : Database)
    (st st' : LockManager.store) (p : Z) (sched : option json)
    (uid : option Z) (ip ext : option string) (offset limit : Z)
    (orderby : string) (desc : bool) (l : list Task) (t : Task)
    (r : TaskRun) :
  Sched.sched_map_get sched ≠ Ok Sched.locked →
  Sched.new_task entropy db st p sched uid ip ext offset limit orderby desc
    = (Ok (Some l), st') →
  t ∈ l → r ∈ task_runs db → TaskRun.project_id r = p →
  Identity.submitted_by (Identity.resolve uid ip ext) r →
  Task.id t ≠ Some (TaskRun.task_id r).
Proof.
  unfold Sched.new_task. intros Hpolicy.
  destruct (Sched.sched_map_get sched) as [[| | |]|e]; [done| | | |done].
  - unfold Sched.lift.
    destruct (Sched.get_breadth_first_task _ _ _ _ _ _ _ _ _) as [l'|e]
      eqn:Hbf; unfold_result; [|done].
    intros [= <- <-] Ht Hr Hp Hch. by eapply breadth_first_excludes.
  - by rewrite get_depth_first_task_raises.
  - by rewrite get_incremental_task_raises.
Qed.

(** X14.  A logged-in user who sends no external uid never receives from
    the endpoint a task of the project on which a run with that user id is
    stored, whichever policy the project is configured with. *)
Theorem endpoint_never_repeats_for_logged_in_user (entropy : nat)
    (db : Database) (st st' : LockManager.store) (req : Api.Request)
    (p : Z) (l : list Task) (t : Task) (r : TaskRun) :
  Api.is_anonymous req = false →
  Api.current_user_id req ≠ 0 →
  truthy_str (Api.args_get "external_uid" req) = false →
  Api._retrieve_new_task entropy db st req p
    = (Ok (Api.Tasks (Some l)), st') →
  t ∈ l →
  r ∈ task_runs db →
  TaskRun.project_id r = p →
  TaskRun.user_id r = Some (Api.current_user_id req) →
  Task.id t ≠ Some (TaskRun.task_id r).
Proof.
  intros Hlogged Hu Hext Hret Ht Hr Hp Hrun.
  apply retrieve_new_task_inv in Hret
    as (project & _ & [(Hanon & _)|(_ & limit & offset & orderby & desc
                                    & _ & Hnew)]).
  { rewrite Hlogged in Hanon. by rewrite andb_false_r in Hanon. }
  rewrite Hlogged in Hnew.
  assert (Sched.sched_map_get
            (Sched.dict_get "sched" (Project.info project)) = Ok Sched.locked ∨
          Sched.sched_map_get
            (Sched.dict_get "sched" (Project.info project)) ≠ Ok Sched.locked)
    as [Hlocked|Hother]
    by (destruct (Sched.sched_map_get _) as [[| | |]|]; (by left) || (by right)).
  - unfold Sched.new_task in Hnew. rewrite Hlocked in Hnew.
    apply get_locked_task_returns in Hnew as (row & t' & Hrow & Hget & ->).
    apply list_elem_of_singleton in Ht as ->.
    apply locked_rows_elem in Hrow as (t0 & _ & Hid & _ & _ & _ & Hruns).
    apply Task_get_elem in Hget as (_ & -> & _). rewrite Hid.
    by apply Hruns.
  - eapply other_policies_exclude; [exact Hother|exact Hnew|done..|].
    by rewrite resolve_logged_in.
Qed.

(** X15.  Under the breadth-first policy the endpoint hands out no task of
    the project that has a run through the channel of the request: the
    external uid of the query string when it has one, else the user id of
    a logged-in user, else the remote address of an anonymous one, and
    127.0.0.1 when there is none. *)
Theorem endpoint_excludes_on_request_channel (entropy : nat)
    (db : Database) (st st' : LockManager.store) (req : Api.Request)
    (p : Z) (project : Project) (l : list Task) (t : Task) (r : TaskRun) :
  Sched.project_repo_get db p = Some project →
  Sched.sched_map_get (Sched.dict_get "sched" (Project.info project))
    = Ok Sched.breadth_first →
  Api._retrieve_new_task entropy db st req p
    = (Ok (Api.Tasks (Some l)), st') →
  t ∈ l →
  r ∈ task_runs db →
  TaskRun.project_id r = p →
  Identity.submitted_by
    (Identity.resolve
       (if Api.is_anonymous req then None else Some (Api.current_user_id req))
       (if Api.is_anonymous req then Api.remote_addr req else None)
       (Api.args_get "external_uid" req)) r →
  Task.id t ≠ Some (TaskRun.task_id r).
Proof.
  intros Hproject Hpolicy Hret Ht Hr Hp Hch.
  apply retrieve_new_task_inv in Hret
    as (project' & Hproject' & [(_ & [= ->] & _)|(_ & limit & offset
                                                  & orderby & desc & _
                                                  & Hnew)]).
  { by apply list_elem_of_singleton in Ht as ->. }
  assert (project' = project) as -> by congruence.
  eapply other_policies_exclude; [|exact Hnew|done..].
  by rewrite Hpolicy.
Qed.

End endpoint_exclusion.

(** A project with 120 open tasks under the breadth-first policy and a
    request for 500 of them: the first 100 are retrieved. *)
Lemma endpoint_retrieves_at_most_100_witness :
  let db := Sample.database (Sample.tasks_upto 120) [] "breadth_first" true in
  let st := LockManager.empty 0 in
  let req := Sample.request false 7 "10.0.0.1" [("limit", "500")] in
  Api._retrieve_new_task (H := Sample.collaborators) 0 db st req 1
    = (Ok (Api.Tasks (Some (Sample.tasks_upto 100))), st) ∧
  (length (Sample.tasks_upto 100) ≤ 100)%nat.
Proof.
  intros db st req.
  assert (Hret : Api._retrieve_new_task (H := Sample.collaborators) 0 db st
                   req 1 = (Ok (Api.Tasks (Some (Sample.tasks_upto 100))), st))
    by (vm_compute; reflexivity).
  split; [exact Hret|].
  exact (endpoint_retrieves_at_most_100 (H := Sample.collaborators) 0 db st
           st req 1 (Sample.tasks_upto 100) Hret).
Defined.

Lemma endpoint_unknown_project_witness :
  let db := Sample.database [Sample.task 1 2 0] [] "depth_first" true in
  let st := LockManager.empty 0 in
  let req := Sample.request false 7 "10.0.0.1" [] in
  Sched.project_repo_get db 9 = None ∧
  Api.new_task (H := Sample.collaborators) 0 db st req 9
    = (format_exception (Collaborators := Sample.collaborators) NotFound
         "project" "GET", st).
Proof.
  intros db st req.
  assert (Hp : Sched.project_repo_get db 9 = None) by reflexivity.
  split; [exact Hp|].
  exact (endpoint_unknown_project (H := Sample.collaborators) 0 db st req 9
           Hp).
Defined.

Lemma endpoint_external_uid_needs_jwt_witness :
  let db := Sample.database [Sample.task 1 2 0] [] "depth_first" true in
  let st := LockManager.empty 0 in
  let req := Sample.request true 0 "10.0.0.1" [("external_uid", "ext-1")] in
  let project := Sample.project "depth_first" true in
  let resp :=
    {| body := JObj [("status", JStr "failed")];
       mimetype := "application/json"; status := 401 |} in
  Sched.project_repo_get db 1 = Some project ∧
  negb (Project.allow_anonymous_contributors project)
    && Api.is_anonymous req = false ∧
  truthy_str (Api.args_get "external_uid" req) = true ∧
  jwt_authorize_project (Collaborators := Sample.strict_collaborators)
    project (Api.authorization req) = Some resp ∧
  Api.new_task (H := Sample.strict_collaborators) 0 db st req 1 = (resp, st).
Proof.
  intros db st req project resp.
  assert (Hp : Sched.project_repo_get db 1 = Some project) by reflexivity.
  assert (Ha : negb (Project.allow_anonymous_contributors project)
                 && Api.is_anonymous req = false) by reflexivity.
  assert (He : truthy_str (Api.args_get "external_uid" req) = true)
    by reflexivity.
  assert (Hj : jwt_authorize_project
                 (Collaborators := Sample.strict_collaborators)
                 project (Api.authorization req) = Some resp) by reflexivity.
  split; [exact Hp|]. split; [exact Ha|]. split; [exact He|].
  split; [exact Hj|].
  exact (endpoint_external_uid_needs_jwt (H := Sample.strict_collaborators)
           0 db st req 1 project resp Hp Ha He Hj).
Defined.

Lemma endpoint_limit_not_a_number_witness :
  let db := Sample.database [Sample.task 1 2 0] [] "depth_first" true in
  let st := LockManager.empty 0 in
  let req := Sample.request false 7 "10.0.0.1" [("limit", "many")] in
  let project := Sample.project "depth_first" true in
  Sched.project_repo_get db 1 = Some project ∧
  negb (Project.allow_anonymous_contributors project)
    && Api.is_anonymous req = false ∧
  (truthy_str (Api.args_get "external_uid" req) = false ∨
   jwt_authorize_project (Collaborators := Sample.collaborators) project
     (Api.authorization req) = None) ∧
  Api.args_get "limit" req = Some "many" ∧
  "many" ≠ "" ∧
  py_int (Collaborators := Sample.collaborators) "many" = None ∧
  Api.new_task (H := Sample.collaborators) 0 db st req 1
    = (format_exception (Collaborators := Sample.collaborators) ValueError
         "project" "GET", st).
Proof.
  intros db st req project.
  assert (Hp : Sched.project_repo_get db 1 = Some project) by reflexivity.
  assert (Ha : negb (Project.allow_anonymous_contributors project)
                 && Api.is_anonymous req = false) by reflexivity.
  assert (Hj : truthy_str (Api.args_get "external_uid" req) = false ∨
               jwt_authorize_project (Collaborators := Sample.collaborators)
                 project (Api.authorization req) = None) by (left; reflexivity).
  assert (Hl : Api.args_get "limit" req = Some "many") by reflexivity.
  assert (Hn : "many" ≠ "") by discriminate.
  assert (Hi : py_int (Collaborators := Sample.collaborators) "many" = None)
    by reflexivity.
  split; [exact Hp|]. split; [exact Ha|]. split; [exact Hj|].
  split; [exact Hl|]. split; [exact Hn|]. split; [exact Hi|].
  exact (endpoint_limit_not_a_number (H := Sample.collaborators) 0 db st req
           1 project "many" Hp Ha Hj Hl Hn Hi).
Defined.

Lemma endpoint_never_repeats_for_logged_in_user_witness :
  let t := Sample.task 2 2 0 in
  let r := Sample.run_by_user 1 7 in
  let db :=
    Sample.database [Sample.task 1 2 0; t] [r] "locked_scheduler" true in
  let st := LockManager.empty 0 in
  let st' :=
    (Sched.acquire_lock (H := Sample.collaborators) 1 (Some 2) (Some 7) 2 st).2 in
  let req := Sample.request false 7 "10.0.0.1" [] in
  Api.is_anonymous req = false ∧
  Api.current_user_id req ≠ 0 ∧
  truthy_str (Api.args_get "external_uid" req) = false ∧
  Api._retrieve_new_task (H := Sample.collaborators) 0 db st req 1
    = (Ok (Api.Tasks (Some [t])), st') ∧
  t ∈ [t] ∧ r ∈ task_runs db ∧ TaskRun.project_id r = 1 ∧
  TaskRun.user_id r = Some (Api.current_user_id req) ∧
  Task.id t ≠ Some (TaskRun.task_id r).
Proof.
  intros t r db st st' req.
  assert (H1 : Api.is_anonymous req = false) by reflexivity.
  assert (H2 : Api.current_user_id req ≠ 0) by discriminate.
  assert (H3 : truthy_str (Api.args_get "external_uid" req) = false)
    by reflexivity.
  assert (H4 : Api._retrieve_new_task (H := Sample.collaborators) 0 db st
                 req 1 = (Ok (Api.Tasks (Some [t])), st'))
    by (vm_compute; reflexivity).
  assert (H5 : t ∈ [t]) by left.
  assert (H6 : r ∈ task_runs db) by left.
  assert (H7 : TaskRun.project_id r = 1) by reflexivity.
  assert (H8 : TaskRun.user_id r = Some (Api.current_user_id req))
    by reflexivity.
  repeat (split; [assumption|]).
  exact (endpoint_never_repeats_for_logged_in_user
           (H := Sample.collaborators) 0 db st st' req 1 [t] t r
           H1 H2 H3 H4 H5 H6 H7 H8).
Defined.

(** An anonymous requester at 10.0.0.1, from where task 1 was answered:
    task 2 is handed out. *)
Lemma endpoint_excludes_on_request_channel_witness :
  let t := Sample.task 2 2 0 in
  let r := Sample.run_by_ip 1 "10.0.0.1" in
  let db := Sample.database [Sample.task 1 2 0; t] [r] "breadth_first" true in
  let st := LockManager.empty 0 in
  let req := Sample.request true 0 "10.0.0.1" [] in
  let project := Sample.project "breadth_first" true in
  Sched.project_repo_get db 1 = Some project ∧
  Sched.sched_map_get (Sched.dict_get "sched" (Project.info project))
    = Ok Sched.breadth_first ∧
  Api._retrieve_new_task (H := Sample.collaborators) 0 db st req 1
    = (Ok (Api.Tasks (Some [t])), st) ∧
  t ∈ [t] ∧ r ∈ task_runs db ∧ TaskRun.project_id r = 1 ∧
  Identity.submitted_by
    (Identity.resolve
       (if Api.is_anonymous req then None else Some (Api.current_user_id req))
       (if Api.is_anonymous req then Api.remote_addr req else None)
       (Api.args_get "external_uid" req)) r ∧
  Task.id t ≠ Some (TaskRun.task_id r).
Proof.
  intros t r db st req project.
  assert (H1 : Sched.project_repo_get db 1 = Some project) by reflexivity.
  assert (H2 : Sched.sched_map_get
                 (Sched.dict_get "sched" (Project.info project))
               = Ok Sched.breadth_first) by reflexivity.
  assert (H3 : Api._retrieve_new_task (H := Sample.collaborators) 0 db st
                 req 1 = (Ok (Api.Tasks (Some [t])), st))
    by (vm_compute; reflexivity).
  assert (H4 : t ∈ [t]) by left.
  assert (H5 : r ∈ task_runs db) by left.
  assert (H6 : TaskRun.project_id r = 1) by reflexivity.
  assert (H7 : Identity.submitted_by
                 (Identity.resolve
                    (if Api.is_anonymous req then None
                     else Some (Api.current_user_id req))
                    (if Api.is_anonymous req then Api.remote_addr req
                     else None)
                    (Api.args_get "external_uid" req)) r) by reflexivity.
  repeat (split; [assumption|]).
  exact (endpoint_excludes_on_request_channel (H := Sample.collaborators)
           0 db st st req 1 project [t] t r H1 H2 H3 H4 H5 H6 H7).
Defined.

(** ** Lock keys *)

Lemma numeral_pretty_N_go (x : N) (s : string) :
  numeral s = true → numeral (pretty_N_go x s) = true.
Proof.
  revert s. induction (N.lt_wf_0 x) as [x _ IH]; intros s Hs.
  assert (x = 0 ∨ 0 < x)%N as [->|Hx] by lia.
  - by rewrite pretty_N_go_0.
  - rewrite pretty_N_go_step by done. apply IH.
    { by apply N.div_lt. }
    simpl. rewrite Hs, andb_true_r.
    unfold pretty_N_char. by repeat case_match.
Qed.

Lemma numeral_pretty_Z (z : Z) : numeral (pretty z) = true.
Proof.
  destruct z as [|x|x]; [done|..].
  - unfold pretty, pretty_Z, pretty, pretty_positive, pretty, pretty_N.
    case_decide; [done|]. by apply numeral_pretty_N_go.
  - unfold pretty, pretty_Z, pretty, pretty_positive, pretty, pretty_N.
    case_decide; [done|]. simpl. by apply numeral_pretty_N_go.
Qed.

Lemma numeral_colon_split (a a' b b' : string) :
  numeral a = true → numeral a' = true →
  a +:+ ":" +:+ b = a' +:+ ":" +:+ b' → a = a' ∧ b = b'.
Proof.
  revert a'. induction a as [|c a IH]; intros [|c' a'] Ha Ha' Heq;
    simpl in Ha, Ha', Heq.
  - injection Heq as Heq. simpl in Heq. by subst.
  - injection Heq as Hc _. by subst c'.
  - injection Heq as Hc _. by subst c.
  - injection Heq as Hc Heq.
    apply andb_true_iff in Ha as [_ Ha]. apply andb_true_iff in Ha' as [_ Ha'].
    subst c'. by destruct (IH a' Ha Ha' Heq) as [-> ->].
Qed.

(** X16.  The key of a lock names its project and its task: two keys are
    equal only for the same project id and the same task id, so locks on
    different tasks or in different projects never share a key. *)
Theorem get_key_injective (p p' : Z) (t t' : option Z) :
  Sched.get_key p t = Sched.get_key p' t' → p = p' ∧ t = t'.
Proof.
  unfold Sched.get_key, Sched.KEY_PREFIX. intros Hkey.
  simpl in Hkey. injection Hkey as Hkey.
  apply numeral_colon_split in Hkey as [Hp Ht]; [|apply numeral_pretty_Z..].
  apply (inj pretty) in Hp. split; [done|].
  destruct t as [i|], t' as [i'|]; simpl in Ht.
  - by apply (inj pretty) in Ht as ->.
  - pose proof (numeral_pretty_Z i) as Hi. by rewrite Ht in Hi.
  - pose proof (numeral_pretty_Z i') as Hi. by rewrite <-Ht in Hi.
  - done.
Qed.

Lemma get_key_injective_witness :
  Sched.get_key 12 (Some 3) = Sched.get_key 12 (Some 3) ∧
  (12 = 12 ∧ Some 3 = Some 3).
Proof.
  assert (Hkey : Sched.get_key 12 (Some 3) = Sched.get_key 12 (Some 3))
    by reflexivity.
  split; [exact Hkey|].
  exact (get_key_injective 12 12 (Some 3) (Some 3) Hkey).
Defined.

(** ** The policies that go through the candidate selector *)

Section selector_policies.
Context `{Collaborators}.

(** X17.  In a project configured with the depth-first or the incremental
    policy nobody is handed a task of the project.  The dispatcher raises
    [NameError] for every request and leaves the fast store as it was; the
    only list of tasks that the retrieval of the endpoint yields is the
    notice of the anonymous restriction; and once a request is past that
    restriction and the JWT check, with a limit, an offset and a direction
    that can be read, the endpoint answers with the formatted [NameError]
    error. *)
Theorem selector_policies_hand_out_nothing (entropy : nat) (db : Database)
    (st : LockManager.store) (req : Api.Request) (p : Z)
    (project : Project) (name : string) :
  Sched.project_repo_get db p = Some project →
  Sched.dict_get "sched" (Project.info project) = Some (JStr name) →
  name = "depth_first" ∨ name = "incremental" →
  (∀ uid ip ext offset limit orderby desc,
     Sched.new_task entropy db st p (Some (JStr name)) uid ip ext
       offset limit orderby desc = (Raise NameError, st)) ∧
  (∀ r st',
     Api._retrieve_new_task entropy db st req p = (Ok (Api.Tasks r), st') →
     r = Some
           [Task.new
              (JObj [("error",
                      JStr "This project does not allow anonymous contributors")])]) ∧
  (negb (Project.allow_anonymous_contributors project)
     && Api.is_anonymous req = false →
   truthy_str (Api.args_get "external_uid" req) = false ∨
   jwt_authorize_project project (Api.authorization req) = None →
   (∀ s, Api.args_get "limit" req = Some s → s ≠ "" → is_Some (py_int s)) →
   (∀ s, Api.args_get "offset" req = Some s → s ≠ "" → is_Some (py_int s)) →
   (∀ s, Api.args_get "desc" req = Some s → s ≠ "" →
         ∃ b, fuzzyboolean s = Ok b) →
   Api.new_task entropy db st req p
     = (format_exception NameError "project" "GET", st)).
Proof.
  intros Hp Hsched Hname.
  assert (Hnew : ∀ uid ip ext offset limit orderby desc,
    Sched.new_task entropy db st p (Some (JStr name)) uid ip ext
      offset limit orderby desc = (Raise NameError, st))
    by (intros; destruct Hname as [-> | ->]; reflexivity).
  split; [exact Hnew|]. split.
  - intros r st' Hret.
    apply retrieve_new_task_inv in Hret
      as (project' & Hp' & [(_ & -> & _)|(_ & limit & offset & orderby & desc
                                          & _ & Hret)]); [done|].
    assert (project' = project) as -> by congruence.
    by rewrite Hsched, Hnew in Hret.
  - intros Hanon Hjwt Hlimit Hoffset Hdesc.
    unfold Api.new_task, Api._retrieve_new_task. rewrite Hp, Hanon.
    assert ((if truthy_str (Api.args_get "external_uid" req)
             then jwt_authorize_project project (Api.authorization req)
             else None) = None) as ->.
    { destruct Hjwt as [->| ->]; [done|]. by destruct (truthy_str _). }
    assert (∃ n,
      (if truthy_str (Api.args_get "limit" req) then
         match py_int (default "" (Api.args_get "limit" req)) with
         | Some n => Ok n
         | None => Raise ValueError
         end
       else Ok 1) = Ok n) as [limit ->].
    { destruct (Api.args_get "limit" req) as [s|]; simpl; [|eauto].
      destruct (String.eqb_spec s "") as [|Hne]; simpl; [eauto|].
      destruct (Hlimit s eq_refl Hne) as [k ->]; eauto. }
    assert (∃ n,
      (if truthy_str (Api.args_get "offset" req) then
         match py_int (default "" (Api.args_get "offset" req)) with
         | Some n => Ok n
         | None => Raise ValueError
         end
       else Ok 0) = Ok n) as [offset ->].
    { destruct (Api.args_get "offset" req) as [s|]; simpl; [|eauto].
      destruct (String.eqb_spec s "") as [|Hne]; simpl; [eauto|].
      destruct (Hoffset s eq_refl Hne) as [k ->]; eauto. }
    assert (∃ b,
      (if truthy_str (Api.args_get "desc" req) then
         fuzzyboolean (default "" (Api.args_get "desc" req))
       else Ok false) = Ok b) as [desc ->].
    { destruct (Api.args_get "desc" req) as [s|]; simpl; [|eauto].
      destruct (String.eqb_spec s "") as [|Hne]; simpl; [eauto|].
      destruct (Hdesc s eq_refl Hne) as [k ->]; eauto. }
    unfold_result. by rewrite Hsched, Hnew.
Qed.

End selector_policies.

(** User 7 asks a depth-first project for three tasks from the second on:
    the answer is the formatted error. *)
Lemma selector_policies_hand_out_nothing_witness :
  let db :=
    Sample.database [Sample.task 1 2 0; Sample.task 2 2 0] [] "depth_first"
      true in
  let st := LockManager.empty 0 in
  let req :=
    Sample.request false 7 "10.0.0.1" [("limit", "3"); ("offset", "1")] in
  let project := Sample.project "depth_first" true in
  Sched.project_repo_get db 1 = Some project ∧
  Sched.dict_get "sched" (Project.info project) = Some (JStr "depth_first") ∧
  ("depth_first" = "depth_first" ∨ "depth_first" = "incremental") ∧
  Sched.new_task (H := Sample.collaborators) 0 db st 1
    (Some (JStr "depth_first")) (Some 7) None None 1 3 "id" false
    = (Raise NameError, st) ∧
  negb (Project.allow_anonymous_contributors project)
    && Api.is_anonymous req = false ∧
  (truthy_str (Api.args_get "external_uid" req) = false ∨
   jwt_authorize_project (Collaborators := Sample.collaborators) project
     (Api.authorization req) = None) ∧
  Api.new_task (H := Sample.collaborators) 0 db st req 1
    = (format_exception (Collaborators := Sample.collaborators) NameError
         "project" "GET", st).
Proof.
  intros db st req project.
  assert (Hp : Sched.project_repo_get db 1 = Some project) by reflexivity.
  assert (Hs : Sched.dict_get "sched" (Project.info project)
               = Some (JStr "depth_first")) by reflexivity.
  assert (Hn : "depth_first" = "depth_first" ∨ "depth_first" = "incremental")
    by (left; reflexivity).
  assert (Ha : negb (Project.allow_anonymous_contributors project)
                 && Api.is_anonymous req = false) by reflexivity.
  assert (Hj : truthy_str (Api.args_get "external_uid" req) = false ∨
               jwt_authorize_project (Collaborators := Sample.collaborators)
                 project (Api.authorization req) = None) by (left; reflexivity).
  assert (Hlimit : ∀ s, Api.args_get "limit" req = Some s → s ≠ "" →
                        is_Some (py_int (Collaborators := Sample.collaborators) s))
    by (intros s [= <-] _; eexists; reflexivity).
  assert (Hoffset : ∀ s, Api.args_get "offset" req = Some s → s ≠ "" →
                         is_Some (py_int (Collaborators := Sample.collaborators) s))
    by (intros s [= <-] _; eexists; reflexivity).
  assert (Hdesc : ∀ s, Api.args_get "desc" req = Some s → s ≠ "" →
                       ∃ b, fuzzyboolean (Collaborators := Sample.collaborators) s
                              = Ok b)
    by (intros s [=]).
  pose proof (selector_policies_hand_out_nothing (H := Sample.collaborators)
                0 db st req 1 project "depth_first" Hp Hs Hn)
    as (Hnew & _ & Hanswer).
  split; [exact Hp|]. split; [exact Hs|]. split; [exact Hn|].
  split; [exact (Hnew (Some 7) None None 1 3 "id" false)|].
  split; [exact Ha|]. split; [exact Hj|].
  exact (Hanswer Ha Hj Hlimit Hoffset Hdesc).
Defined.

(** ** From the hand-out of a task to the saving of its run *)

Section lock_life.
Context `{Collaborators}.

(** X18.  In a project under the locked scheduler, with a positive lease
    duration and the lock manager granting and releasing leases as described,
    the user to whom the locked policy has handed a task may post on it;
    once [after_save] has run for that user and task, the user may no
    longer post on it. *)
Theorem handed_out_task_is_postable_until_saved (db : Database)
    (st st' : LockManager.store) (p : Z) (uid : option Z)
    (ip ext : option string) (limit offset : Z) (orderby : string)
    (desc : bool) (l : list Task) :
  Sched.get_project_scheduler db p = Ok (JStr "locked_scheduler") →
  0 < Sched.TIMEOUT →
  Sched.get_locked_task db st p uid ip ext limit offset orderby desc
    = (Ok (Some l), st') →
  ∃ t, l = [t] ∧
       Sched.can_post db st' p (Task.id t) uid = Ok true ∧
       ∃ st'', Sched.after_save db st' p (Task.id t) uid = Ok st'' ∧
               Sched.can_post db st'' p (Task.id t) uid = Ok false.
Proof.
  intros Hsched Httl Hget. unfold Sched.get_locked_task in Hget.
  case_decide; [done|].
  destruct (Sched.locked_loop _ _ _ _ _ _ _) as [[r k] st1] eqn:Hloop.
  injection Hget as -> ->.
  destruct (locked_loop_returns_holding _ _ _ _ _ _ _ _ _ _ Httl Hloop)
    as (t & -> & Hheld).
  exists t. split; [done|].
  unfold Sched.can_post, Sched.after_save. rewrite Hsched. unfold_result.
  split; [by rewrite Hheld|]. eexists. split; [done|].
  unfold Sched.has_lock, Sched.release_lock. by rewrite released_not_held.
Qed.

End lock_life.

Lemma handed_out_task_is_postable_until_saved_witness :
  let t := Sample.task 1 2 0 in
  let db := Sample.database [t] [] "locked_scheduler" true in
  let st := LockManager.empty 0 in
  let st' :=
    (Sched.acquire_lock (H := Sample.collaborators) 1 (Some 1) (Some 7) 2 st).2 in
  Sched.get_project_scheduler db 1 = Ok (JStr "locked_scheduler") ∧
  0 < Sched.TIMEOUT (H := Sample.collaborators) ∧
  Sched.get_locked_task (H := Sample.collaborators) db st 1 (Some 7) None
    None 1 0 "priority_0" true = (Ok (Some [t]), st') ∧
  ∃ t', [t] = [t'] ∧
        Sched.can_post db st' 1 (Task.id t') (Some 7) = Ok true ∧
        ∃ st'', Sched.after_save db st' 1 (Task.id t') (Some 7) = Ok st'' ∧
                Sched.can_post db st'' 1 (Task.id t') (Some 7) = Ok false.
Proof.
  intros t db st st'.
  assert (Hs : Sched.get_project_scheduler db 1 = Ok (JStr "locked_scheduler"))
    by reflexivity.
  assert (Httl : 0 < Sched.TIMEOUT (H := Sample.collaborators))
    by (vm_compute; reflexivity).
  assert (Hget :
    Sched.get_locked_task (H := Sample.collaborators) db st 1 (Some 7) None
      None 1 0 "priority_0" true = (Ok (Some [t]), st'))
    by (vm_compute; reflexivity).
  split; [exact Hs|]. split; [exact Httl|]. split; [exact Hget|].
  exact (handed_out_task_is_postable_until_saved (H := Sample.collaborators)
           db st st' 1 (Some 7) None None 1 0 "priority_0" true [t]
           Hs Httl Hget).
Defined.

(** ** Locks taken on the way to the offset *)

Lemma acquire_keeps_own_hold (duration : Z) (key key' : string)
    (who : LockManager.identity) (limit : Z) (st : LockManager.store) :
  0 < duration →
  LockManager.has_lock key who st = true →
  LockManager.has_lock key who
    (LockManager.acquire_lock duration key' who limit st).2 = true.
Proof.
  intros Hduration Hheld. unfold LockManager.acquire_lock.
  assert (Hset : LockManager.has_lock key who
            (LockManager.set_lease key' who (LockManager.clock st + duration) st)
          = true).
  { unfold LockManager.has_lock in *. apply bool_decide_eq_true.
    apply bool_decide_eq_true in Hheld.
    unfold LockManager.live_holders, LockManager.live in *.
    rewrite holders_set_lease. case_decide; [|done].
    exists (LockManager.clock st + duration).
    apply map_lookup_filter_Some_2; [by rewrite lookup_insert_eq|].
    simpl. lia. }
  by repeat case_decide.
Qed.

Section locks_on_the_way.
Context `{Collaborators}.

Lemma locked_loop_keeps_locks (db : Database) (p : Z) (uid : option Z)
    (offset : Z) (rows : list Sched.locked_row) (skipped skipped' : Z)
    (st st' : LockManager.store) (r : Sched.answer) :
  0 < Sched.TIMEOUT →
  skipped ≤ offset →
  Sched.locked_loop db p uid offset rows skipped st = (r, skipped', st') →
  (∀ tid, Sched.has_lock p tid uid st = true →
          Sched.has_lock p tid uid st' = true) ∧
  (∀ row, row ∈ take (S (Z.to_nat (offset - skipped)))
                  (granted_rows p uid rows st) →
          Sched.has_lock p row.1.1 uid st' = true).
Proof.
  intros Httl. revert skipped st.
  induction rows as [|[[tid cnt] n] rows IH]; intros skipped st Hskipped.
  - simpl. intros [= <- <- <-]. split; [done|]. by intros row ?%not_elem_of_nil.
  - simpl. destruct n as [n|].
    2:{ intros [= <- <- <-]. split; [done|]. by intros row ?%not_elem_of_nil. }
    destruct (Sched.acquire_lock p tid uid (n - cnt) st) as [granted st1]
      eqn:Hacq.
    assert (Hkeep : ∀ tid', Sched.has_lock p tid' uid st = true →
                            Sched.has_lock p tid' uid st1 = true).
    { intros tid' Hheld. unfold Sched.has_lock, Sched.acquire_lock in *.
      pose proof (acquire_keeps_own_hold Sched.TIMEOUT _
                    (Sched.get_key p tid) uid (n - cnt) st Httl Hheld) as Hk.
      by rewrite Hacq in Hk. }
    destruct granted.
    + assert (Hrow : Sched.has_lock p tid uid st1 = true)
        by (by eapply acquire_granted_holds).
      destruct (decide (skipped = offset)) as [->|Hne].
      * intros Hret.
        assert (st' = st1) as ->
          by (destruct (Sched.Task_get db tid); by injection Hret).
        split; [done|]. rewrite Z.sub_diag. simpl.
        by intros row ->%list_elem_of_singleton.
      * intros Hloop.
        destruct (IH (skipped + 1) st1 ltac:(lia) Hloop) as [Hkeep' Hrows].
        split; [by auto|].
        replace (Z.to_nat (offset - skipped))
          with (S (Z.to_nat (offset - (skipped + 1)))) by lia.
        simpl. intros row [->|Hrow']%elem_of_cons; [by apply Hkeep'|].
        by apply Hrows.
    + intros Hloop.
      destruct (IH skipped st1 Hskipped Hloop) as [Hkeep' Hrows].
      split; [by auto|]. done.
Qed.

(** X19.  The locks that the locked policy takes on its way to the offset
    stay with the requester: with a positive lease duration and the lock
    manager as described, after a call with offset 0, 1 or 2 the requester
    holds the lock of every candidate passed over as well as that of the
    task returned, that is, of the first [offset + 1] rows whose lock was
    granted. *)
Theorem passed_over_tasks_stay_locked (db : Database)
    (st st' : LockManager.store) (p : Z) (uid : option Z)
    (ip ext : option string) (limit offset : Z) (orderby : string)
    (desc : bool) (r : Sched.answer) :
  0 < Sched.TIMEOUT →
  0 ≤ offset ≤ 2 →
  Sched.get_locked_task db st p uid ip ext limit offset orderby desc
    = (r, st') →
  ∀ row,
    row ∈ take (S (Z.to_nat offset))
            (granted_rows p uid (Sched.locked_rows db p uid) st) →
    Sched.has_lock p row.1.1 uid st' = true.
Proof.
  intros Httl Hoffset. unfold Sched.get_locked_task.
  rewrite decide_False by lia.
  destruct (Sched.locked_loop _ _ _ _ _ _ _) as [[r' k] st1] eqn:Hloop.
  intros [= <- <-].
  assert (Hstart : 0 ≤ offset) by lia.
  destruct (locked_loop_keeps_locks _ _ _ _ _ _ _ _ _ _ Httl Hstart Hloop)
    as [_ Hrows].
  by rewrite Z.sub_0_r in Hrows.
Qed.

End locks_on_the_way.

Lemma passed_over_tasks_stay_locked_witness :
  let t1 := Sample.task 1 2 0 in
  let t2 := Sample.task 2 2 0 in
  let db := Sample.database [t1; t2] [] "locked_scheduler" true in
  let st := LockManager.empty 0 in
  let st' :=
    (Sched.get_locked_task (H := Sample.collaborators) db st 1 (Some 7) None
       None 1 1 "priority_0" true).2 in
  0 < Sched.TIMEOUT (H := Sample.collaborators) ∧
  0 ≤ 1 ≤ 2 ∧
  Sched.get_locked_task (H := Sample.collaborators) db st 1 (Some 7) None
    None 1 1 "priority_0" true = (Ok (Some [t2]), st') ∧
  (Some 1, 0, Some 2) ∈
    take (S (Z.to_nat 1))
      (granted_rows (H := Sample.collaborators) 1 (Some 7)
         (Sched.locked_rows db 1 (Some 7)) st) ∧
  Sched.has_lock 1 (Some 1) (Some 7) st' = true.
Proof.
  intros t1 t2 db st st'.
  assert (Httl : 0 < Sched.TIMEOUT (H := Sample.collaborators))
    by (vm_compute; reflexivity).
  assert (Hoffset : 0 ≤ 1 ≤ 2) by lia.
  assert (Hget :
    Sched.get_locked_task (H := Sample.collaborators) db st 1 (Some 7) None
      None 1 1 "priority_0" true = (Ok (Some [t2]), st'))
    by (vm_compute; reflexivity).
  assert (Hrow : (Some 1, 0, Some 2) ∈
    take (S (Z.to_nat 1))
      (granted_rows (H := Sample.collaborators) 1 (Some 7)
         (Sched.locked_rows db 1 (Some 7)) st))
    by (vm_compute; left).
  split; [exact Httl|]. split; [exact Hoffset|]. split; [exact Hget|].
  split; [exact Hrow|].
  exact (passed_over_tasks_stay_locked (H := Sample.collaborators) db st st'
           1 (Some 7) None None 1 1 "priority_0" true (Ok (Some [t2]))
           Httl Hoffset Hget (Some 1, 0, Some 2) Hrow).
Defined.

(** ** Tasks without counters *)

(** X20.  The breadth-first policy returns only tasks that have a counter:
    a task of the project without any row in the counter table is never
    handed out by it. *)
Theorem breadth_first_needs_counter (db : Database) (p : Z)
    (uid : option Z) (ip ext : option string) (offset limit : Z)
    (orderby : string) (desc : bool) (l : list Task) (t : Task) :
  Sched.get_breadth_first_task db p uid ip ext offset limit orderby desc
    = Ok l →
  t ∈ l →
  ∃ c, c ∈ counters db ∧ Task.id t = Some (Counter.task_id c).
Proof.
  unfold Sched.get_breadth_first_task.
  destruct (Sched._set_orderby_desc _ orderby desc) as [q'|e] eqn:Hq;
    unfold_result; [|done].
  destruct (Sql.limit_offset_all limit offset q') as [data|e] eqn:Hdata;
    unfold_result; [|done].
  intros [= <-] Ht. unfold Sched._handle_tuples in Ht.
  apply list_elem_of_fmap in Ht as (d & -> & Hd).
  eapply limit_offset_all_elem in Hd; [|done].
  eapply _set_orderby_desc_rows in Hd as (d0 & Hd0 & ->); [|done].
  simpl in Hd0. apply list_elem_of_omap in Hd0 as (t & Ht & Hrow).
  destruct (filter _ (counters db)) as [|c cs] eqn:Hcs; [done|].
  injection Hrow as <-. simpl.
  assert (Hc : c ∈ c :: cs) by left. rewrite <-Hcs in Hc.
  apply list_elem_of_filter in Hc as [[Hid _] Hc].
  exists c. split; [done|]. unfold Sql.eq in Hid.
  destruct (Task.id t) as [i|]; [|done].
  apply bool_decide_eq_true in Hid. by subst.
Qed.

Lemma breadth_first_needs_counter_witness :
  let t1 := Sample.task 1 2 0 in
  let db :=
    {| tasks := [t1; Sample.task 2 2 0]; task_runs := [];
       counters := [Counter.mk 1 0];
       projects := [Sample.project "breadth_first" true] |} in
  Sched.get_breadth_first_task db 1 (Some 7) None None 0 10 "id" false
    = Ok [t1] ∧
  t1 ∈ [t1] ∧
  ∃ c, c ∈ counters db ∧ Task.id t1 = Some (Counter.task_id c).
Proof.
  intros t1 db.
  assert (Hbf : Sched.get_breadth_first_task db 1 (Some 7) None None 0 10
                  "id" false = Ok [t1]) by (vm_compute; reflexivity).
  assert (Hin : t1 ∈ [t1]) by left.
  split; [exact Hbf|]. split; [exact Hin|].
  exact (breadth_first_needs_counter db 1 (Some 7) None None 0 10 "id" false
           [t1] t1 Hbf Hin).
Defined.
